(** * Petal backend: cache layer, enrichment path, background queue,
      session routes and migration script

    A shallow embedding of
      - [app/services/cache.py]      (RedisCache, SessionCache, EmbeddingCache)
      - [app/services/embeddings.py] (EmbeddingService.create_embedding,
                                      create_embeddings_batch)
      - [app/services/sessions.py]   (SessionService: save_memory, get_session,
                                      update_session, delete_session,
                                      get_session_memories, search_memories,
                                      vector_search_memories,
                                      find_duplicate_memories)
      - [app/services/claude.py]     (process_text, generate_session_description,
                                      generate_tags)
      - [app/routes/memories.py]     (smart_copy, process_smart_copy_background,
                                      smart_paste, search_session)
      - [app/routes/sessions.py]     (update_session, delete_session,
                                      get_session_preview)
      - [app/services/task_queue.py] (BackgroundTaskQueue)
      - [migrate_embeddings.py]      (migrate_embeddings)
    together with the properties the specification states about them and
    further properties read off the code.

    Python code that can raise is written in a state-and-exception monad;
    [try ... except Exception] is the combinator [try_except].  The Redis
    server, the datastore and the two model providers are collaborators
    outside the repository: each is given by a small explicit model whose
    assumptions are stated where it is defined.  Logger calls are kept
    where a property speaks of them ([smart_copy], [save_memory], the task
    queue, the session service, the routes, the migration script); the
    debug and warning lines of [cache.py] and the lines of the logger of
    [embeddings.py] change no result and are left out. *)

From Stdlib Require Import ZArith Ascii String.
From Stdlib Require QArith.
From stdpp Require Import gmap strings list fin_maps pretty.

Local Open Scope string_scope.
Local Open Scope Z_scope.

(* ===================================================================== *)
(** ** Python exceptions and the state-and-exception monad               *)
(* ===================================================================== *)

Module Py.

(** The exception classes the modelled code meets.  All of them derive
    from [Exception] except [CancelledError], [KeyboardInterrupt] and
    [SystemExit], which derive from [BaseException] only (Python 3.8 and
    later). *)
Inductive exn_class :=
| ConnectionError        (* redis.exceptions.ConnectionError *)
| TimeoutError           (* redis.exceptions.TimeoutError *)
| ResponseError          (* redis.exceptions.ResponseError *)
| JSONDecodeError
| TypeError
| APIError               (* an error answered by a remote API *)
| Exception_             (* a plain [Exception(...)] *)
| HTTPException (status_code : Z)
| CancelledError
| KeyboardInterrupt
| SystemExit.

Record exn := Exn { cls : exn_class; msg : string }.

(** [isinstance(e, Exception)]: what [except Exception] matches. *)
Definition is_Exception (e : exn) : bool :=
  match cls e with
  | CancelledError | KeyboardInterrupt | SystemExit => false
  | _ => true
  end.

(** The exceptions an asyncio task does not keep: [Task.__step] stores a
    [KeyboardInterrupt] or a [SystemExit] and raises it again, out of the
    task and of the event loop. *)
Definition leaves_the_loop (e : exn) : bool :=
  match cls e with
  | KeyboardInterrupt | SystemExit => true
  | _ => false
  end.

Definition is_HTTPException (e : exn) : bool :=
  match cls e with
  | HTTPException _ => true
  | _ => false
  end.

Inductive result (A : Type) :=
| Ok (a : A)
| Raise (e : exn).
Arguments Ok {A} a.
Arguments Raise {A} e.

Definition is_Ok {A} (r : result A) : bool :=
  match r with Ok _ => true | Raise _ => false end.

(** A computation over a mutable state [S]: the state reached is returned
    also when an exception is raised, as effects performed before a
    [raise] stay performed. *)
Definition M (S A : Type) : Type := S -> result A * S.

Definition ret {S A} (a : A) : M S A := fun s => (Ok a, s).
Definition raise {S A} (e : exn) : M S A := fun s => (Raise e, s).
Definition bind {S A B} (m : M S A) (k : A -> M S B) : M S B :=
  fun s =>
    match m s with
    | (Ok a, s') => k a s'
    | (Raise e, s') => (Raise e, s')
    end.

(** [try: m  except Exception as e: h e] *)
Definition try_except {S A} (m : M S A) (h : exn -> M S A) : M S A :=
  fun s =>
    match m s with
    | (Ok a, s') => (Ok a, s')
    | (Raise e, s') => if is_Exception e then h e s' else (Raise e, s')
    end.

(** A result computed without touching the state. *)
Definition lift_result {S A} (r : result A) : M S A := fun s => (r, s).

(** Run a computation on a component of the state. *)
Definition zoom {S T A} (get : S -> T) (put : T -> S -> S) (m : M T A) : M S A :=
  fun s => match m (get s) with (r, t) => (r, put t s) end.

Definition modify {S} (f : S -> S) : M S unit := fun s => (Ok tt, f s).

(** Python truthiness of the values the code tests with [if x:]. *)
Definition truthy_str (s : string) : bool :=
  match s with EmptyString => false | String _ _ => true end.
Definition truthy_list {A} (l : list A) : bool :=
  match l with [] => false | _ :: _ => true end.

End Py.

Import Py.

Declare Scope py_scope.
Delimit Scope py_scope with py.
Notation "'let*' x ':=' m 'in' k" := (bind m (fun x => k))
  (at level 10, x name, m at level 100, k at level 200) : py_scope.
Notation "'perform' m 'then' k" := (bind m (fun _ => k))
  (at level 10, m at level 100, k at level 200) : py_scope.
Local Open Scope py_scope.

(* ===================================================================== *)
(** ** The Redis server                                                  *)
(* ===================================================================== *)

(** The server is not part of the repository.  It is modelled as a finite
    map from keys to values with an optional expiry instant and a clock in
    seconds; the commands are the four the client code issues ([GET],
    [SETEX], [DEL], [KEYS]).  A key whose expiry instant has been reached
    is gone for every command. *)
Module Redis.

Record entry := Entry { value : string; expires_at : option Z }.

Record server := Server { store : gmap string entry; now : Z }.

Definition alive (t : Z) (e : entry) : bool :=
  match expires_at e with
  | None => true
  | Some deadline => bool_decide (t < deadline)
  end.

Definition lookup_live (k : string) (s : server) : option entry :=
  match store s !! k with
  | Some e => if alive (now s) e then Some e else None
  | None => None
  end.

(** The clock moves only by [advance]. *)
Definition advance (dt : Z) (s : server) : server :=
  Server (store s) (now s + dt).

(** *** Glob-style patterns of [KEYS]

    [*] matches any run of characters, [?] one character, [[...]] one
    character of a class (with [^] negation, [a-z] ranges and [\]
    escapes inside), and [\c] the character [c] itself. *)
Inductive class_item :=
| CChar (c : ascii)
| CRange (lo hi : ascii).

Inductive glob_tok :=
| TChar (c : ascii)
| TAny
| TStar
| TClass (negated : bool) (items : list class_item).

Definition ascii_eqb (a b : ascii) : bool := bool_decide (a = b).

Definition is_meta (c : ascii) : bool :=
  ascii_eqb c "*" || ascii_eqb c "?" || ascii_eqb c "[" || ascii_eqb c "\".

(** [mode = Some (neg, items)] while the scan is inside a class. *)
Fixpoint glob_parse (mode : option (bool * list class_item)) (p : string)
  : list glob_tok :=
  match mode, p with
  | None, EmptyString => []
  | None, String c p' =>
      if ascii_eqb c "*" then TStar :: glob_parse None p'
      else if ascii_eqb c "?" then TAny :: glob_parse None p'
      else if ascii_eqb c "\" then
        match p' with
        | String d p'' => TChar d :: glob_parse None p''
        | EmptyString => [TChar c]
        end
      else if ascii_eqb c "[" then
        match p' with
        | String d p'' =>
            if ascii_eqb d "^" then glob_parse (Some (true, [])) p''
            else glob_parse (Some (false, [])) p'
        | EmptyString => [TClass false []]
        end
      else TChar c :: glob_parse None p'
  | Some (neg, items), EmptyString => [TClass neg (rev items)]
  | Some (neg, items), String c p' =>
      if ascii_eqb c "\" then
        match p' with
        | String d p'' => glob_parse (Some (neg, CChar d :: items)) p''
        | EmptyString => [TClass neg (rev (CChar c :: items))]
        end
      else if ascii_eqb c "]" then TClass neg (rev items) :: glob_parse None p'
      else
        match p' with
        | String d (String hi p''') =>
            if ascii_eqb d "-"
            then glob_parse (Some (neg, CRange c hi :: items)) p'''
            else glob_parse (Some (neg, CChar c :: items)) p'
        | _ => glob_parse (Some (neg, CChar c :: items)) p'
        end
  end.

Definition item_matches (c : ascii) (it : class_item) : bool :=
  match it with
  | CChar d => ascii_eqb c d
  | CRange lo hi =>
      let l := N.min (N_of_ascii lo) (N_of_ascii hi) in
      let h := N.max (N_of_ascii lo) (N_of_ascii hi) in
      (l <=? N_of_ascii c)%N && (N_of_ascii c <=? h)%N
  end.

Fixpoint toks_match (ts : list glob_tok) (s : string) : bool :=
  match ts with
  | [] => match s with EmptyString => true | _ => false end
  | TStar :: ts' =>
      (fix star (s : string) : bool :=
         toks_match ts' s
         || match s with
            | EmptyString => false
            | String _ s' => star s'
            end) s
  | TAny :: ts' =>
      match s with
      | String _ s' => toks_match ts' s'
      | EmptyString => false
      end
  | TChar c :: ts' =>
      match s with
      | String d s' => ascii_eqb c d && toks_match ts' s'
      | EmptyString => false
      end
  | TClass neg items :: ts' =>
      match s with
      | String d s' =>
          xorb neg (existsb (item_matches d) items) && toks_match ts' s'
      | EmptyString => false
      end
  end.

Definition glob_match (pattern key : string) : bool :=
  toks_match (glob_parse None pattern) key.

(** *** Commands *)

Definition GET (k : string) (s : server) : option string :=
  value <$> lookup_live k s.

(** The server keeps an expire time as a signed 64-bit number of
    milliseconds.  From this number of seconds on, the milliseconds of a
    time to live no longer fit once they are added to the clock. *)
Definition max_seconds : Z := 9223372036854775.

(** [SETEX key seconds value]; the server refuses a time that is not
    positive, and a time from [max_seconds] on.  (How close below
    [max_seconds] the server starts to refuse depends on its clock; the
    properties below that store with a time of their own choice keep that
    time below 2^32 seconds.) *)
Definition SETEX (k : string) (seconds : Z) (v : string) (s : server)
  : result unit * server :=
  if (seconds <=? 0) || (max_seconds <=? seconds)
  then (Raise (Exn ResponseError "invalid expire time in 'setex' command"), s)
  else (Ok tt, Server (<[k := Entry v (Some (now s + seconds))]> (store s)) (now s)).

Definition DEL (ks : list string) (s : server) : server :=
  Server (foldr delete (store s) ks) (now s).

Definition KEYS (pattern : string) (s : server) : list string :=
  filter (fun k => glob_match pattern k && bool_decide (is_Some (lookup_live k s)))
         (map_to_list (store s)).*1.

(** *** The client handle

    [script] fixes, command by command, what happens to the next
    commands on the wire; once it is used up they reach the server.  A
    command that fails is not executed by the server. *)
Inductive fault :=
| Reaches             (* the command reaches the server and is answered *)
| ConnectionFails     (* [redis.exceptions.ConnectionError] *)
| TimesOut.           (* [redis.exceptions.TimeoutError] after 1 s *)

Record client := Client { server_of : server; script : list fault }.

Definition command {A} (f : server -> result A * server) : M client A :=
  fun c =>
    match script c with
    | ConnectionFails :: rest =>
        (Raise (Exn ConnectionError "Error connecting to redis"),
         Client (server_of c) rest)
    | TimesOut :: rest =>
        (Raise (Exn TimeoutError "Timeout reading from socket"),
         Client (server_of c) rest)
    | Reaches :: rest =>
        match f (server_of c) with (r, s') => (r, Client s' rest) end
    | [] =>
        match f (server_of c) with (r, s') => (r, Client s' []) end
    end.

Definition ping : M client unit := command (fun s => (Ok tt, s)).
Definition get (k : string) : M client (option string) :=
  command (fun s => (Ok (GET k s), s)).
Definition setex (k : string) (seconds : Z) (v : string) : M client unit :=
  command (SETEX k seconds v).
Definition delete_keys (ks : list string) : M client unit :=
  command (fun s => (Ok tt, DEL ks s)).
Definition keys (pattern : string) : M client (list string) :=
  command (fun s => (Ok (KEYS pattern s), s)).

End Redis.

(* ===================================================================== *)
(** ** Library functions taken as interfaces                             *)
(* ===================================================================== *)

(** [json.dumps] / [json.loads] at one Python type.  Three facts about the
    [json] module are used: decoding an encoded value gives the value back,
    an encoded value is never the empty text, and a decoding error is an
    [Exception]. *)
Class JsonCodec (A : Type) := {
  json_dumps : A -> string;
  json_loads : string -> result A;
  json_loads_dumps : forall a, json_loads (json_dumps a) = Ok a;
  json_dumps_truthy : forall a, truthy_str (json_dumps a) = true;
  json_loads_error : forall s e, json_loads s = Raise e -> is_Exception e = true
}.

(** [hashlib.sha256(text.encode('utf-8')).hexdigest()].  The statements
    below hold for whatever function stands here; the instance is SHA-256
    itself (FIPS 180-4) on the bytes of the text. *)
Class Sha256 := sha256hex : string -> string.

Module SHA256.
Local Open Scope N_scope.

Definition mask32 : N := 0xFFFFFFFF.
Definition add32 (a b : N) : N := N.land (a + b) mask32.
Definition rotr (n x : N) : N :=
  N.lor (N.shiftr x n) (N.land (N.shiftl x (32 - n)) mask32).
Definition not32 (x : N) : N := N.lxor x mask32.

Definition Ch (x y z : N) : N := N.lxor (N.land x y) (N.land (not32 x) z).
Definition Maj (x y z : N) : N :=
  N.lxor (N.lxor (N.land x y) (N.land x z)) (N.land y z).
Definition Sigma0 (x : N) : N := N.lxor (N.lxor (rotr 2 x) (rotr 13 x)) (rotr 22 x).
Definition Sigma1 (x : N) : N := N.lxor (N.lxor (rotr 6 x) (rotr 11 x)) (rotr 25 x).
Definition sigma0 (x : N) : N := N.lxor (N.lxor (rotr 7 x) (rotr 18 x)) (N.shiftr x 3).
Definition sigma1 (x : N) : N := N.lxor (N.lxor (rotr 17 x) (rotr 19 x)) (N.shiftr x 10).

(** The constants of the standard are the first 32 bits of the fractional
    parts of the cube roots (round constants) and of the square roots
    (initial hash value) of the first primes; they are computed here. *)
Definition is_prime (n : N) : bool :=
  (1 <? n) && List.forallb (fun d => negb (n mod d =? 0))
                (List.map N.of_nat (List.seq 2 (N.to_nat n - 2))).

Definition first_primes (count : nat) : list N :=
  List.firstn count (List.filter is_prime (List.map N.of_nat (List.seq 2 310))).

(** The integer cube root of a number below 2^108, bit by bit. *)
Definition cube_root (n : N) : N :=
  List.fold_left
    (fun r bit => let r' := r + N.shiftl 1 (N.of_nat bit) in
                  if r' * r' * r' <=? n then r' else r)
    (rev (List.seq 0 36)) 0.

Definition K : list N :=
  Eval vm_compute in
    List.map (fun p => N.land (cube_root (N.shiftl p 96)) mask32) (first_primes 64).

Definition H0 : list N :=
  Eval vm_compute in
    List.map (fun p => N.land (N.sqrt (N.shiftl p 64)) mask32) (first_primes 8).

(** Big-endian 32-bit words of a block. *)
Fixpoint words (bytes : list N) : list N :=
  match bytes with
  | b0 :: b1 :: b2 :: b3 :: rest =>
      (N.shiftl b0 24 + N.shiftl b1 16 + N.shiftl b2 8 + b3) :: words rest
  | _ => []
  end.

(** The message schedule: [w] holds W(t-1), W(t-2), ..., newest first. *)
Fixpoint schedule (n : nat) (w : list N) : list N :=
  match n with
  | O => w
  | S n' =>
      let at_ (i : nat) := List.nth i w 0 in
      schedule n'
        (add32 (add32 (sigma1 (at_ 1%nat)) (at_ 6%nat))
               (add32 (sigma0 (at_ 14%nat)) (at_ 15%nat)) :: w)
  end.

Definition round (s : list N) (kw : N * N) : list N :=
  match s with
  | [a; b; c; d; e; f; g; h] =>
      let t1 := add32 (add32 (add32 h (Sigma1 e)) (add32 (Ch e f g) (fst kw))) (snd kw) in
      let t2 := add32 (Sigma0 a) (Maj a b c) in
      [add32 t1 t2; a; b; c; add32 d t1; e; f; g]
  | _ => s
  end.

Definition compress (h : list N) (block : list N) : list N :=
  let w := rev (schedule 48 (rev (words block))) in
  let s := List.fold_left round (List.combine K w) h in
  List.map (fun p => add32 (fst p) (snd p)) (List.combine h s).

Definition be_bytes (n : nat) (x : N) : list N :=
  List.map (fun i => N.land (N.shiftr x (8 * N.of_nat i)) 0xFF) (rev (List.seq 0 n)).

Definition pad (msg : list N) : list N :=
  let len := N.of_nat (length msg) in
  let zeros := N.to_nat ((119 - len mod 64) mod 64) in
  msg ++ [0x80] ++ List.repeat 0 zeros ++ be_bytes 8 (8 * len).

(** Feed the padded message block by block. *)
Definition absorb (st : list N * list N) (b : N) : list N * list N :=
  let '(h, acc) := st in
  let acc' := b :: acc in
  if Nat.eqb (length acc') 64 then (compress h (rev acc'), []) else (h, acc').

Definition digest (msg : list N) : list N :=
  fst (List.fold_left absorb (pad msg) (H0, [])).

Definition hex_digit (x : N) : ascii :=
  ascii_of_N (if x <? 10 then 48 + x else 87 + x).

Definition hex_word (x : N) : list ascii :=
  List.map (fun i => hex_digit (N.land (N.shiftr x (4 * N.of_nat i)) 0xF)) (rev (List.seq 0 8)).

(** [text.encode('utf-8')]: a character of a Rocq string stands for the
    code point of the same number, so a code point below 128 is one byte
    and one from 128 to 255 is the two bytes [110000xx 10xxxxxx]. *)
Definition utf8_char (c : ascii) : list N :=
  let n := N_of_ascii c in
  if n <? 128 then [n]
  else [N.lor 0xC0 (N.shiftr n 6); N.lor 0x80 (N.land n 0x3F)].

Definition utf8 (text : string) : list N :=
  List.concat (List.map utf8_char (list_ascii_of_string text)).

Definition hexdigest (text : string) : string :=
  string_of_list_ascii (List.concat (List.map hex_word (digest (utf8 text)))).

End SHA256.

#[global] Instance sha256_instance : Sha256 := SHA256.hexdigest.

(** Texts are kept as Rocq strings, a character standing for the code
    point of the same number.  The client encodes the keys and values it
    is handed and hands back the bytes ([decode_responses=False]), which
    [json.loads] decodes again: the stored bytes are written as the text
    they encode. *)
Definition str_len (s : string) : Z := Z.of_nat (String.length s).

Fixpoint str_take (n : Z) (s : string) : string :=
  match s with
  | EmptyString => EmptyString
  | String c s' => if n <=? 0 then EmptyString else String c (str_take (n - 1) s')
  end.

(* ===================================================================== *)
(** ** app/services/cache.py                                             *)
(* ===================================================================== *)

Module RedisCache.

Record t := Make { client : option Redis.client; enabled : bool }.

(** [__init__]: [handle] is the connection object [redis.Redis(...)]
    returns; the constructor pings once and, when that raises, leaves
    the cache disabled for good. *)
Definition init (handle : Redis.client) : t :=
  match Redis.ping handle with
  | (Ok _, c) => Make (Some c) true
  | (Raise _, _) => Make None false
  end.

(** [if not self.enabled or not self.client] *)
Definition unavailable (self : t) : bool :=
  negb (enabled self) || negb (bool_decide (is_Some (client self))).

(** A call [self.client.<command>(...)]. *)
Definition call {A} (m : M Redis.client A) : M t A :=
  fun self =>
    match client self with
    | Some c => match m c with (r, c') => (r, Make (Some c') (enabled self)) end
    | None => (Raise (Exn TypeError "'NoneType' object has no attribute"), self)
    end.

Definition get (key : string) : M t (option string) :=
  fun self =>
    if unavailable self then (Ok None, self)
    else
      try_except
        (let* value := call (Redis.get key) in
         match value with
         | Some v => if truthy_str v then ret (Some v) else ret None
         | None => ret None
         end)
        (fun _ => ret None)
        self.

(** The default of the parameter [ttl_seconds]. *)
Definition default_ttl_seconds : Z := 3600.

Definition set (key value : string) (ttl_seconds : Z) : M t bool :=
  fun self =>
    if unavailable self then (Ok false, self)
    else
      try_except
        (perform call (Redis.setex key ttl_seconds value) then ret true)
        (fun _ => ret false)
        self.

Definition delete (key : string) : M t bool :=
  fun self =>
    if unavailable self then (Ok false, self)
    else
      try_except
        (perform call (Redis.delete_keys [key]) then ret true)
        (fun _ => ret false)
        self.

Definition delete_pattern (pattern : string) : M t bool :=
  fun self =>
    if unavailable self then (Ok false, self)
    else
      try_except
        (let* keys := call (Redis.keys pattern) in
         perform (if truthy_list keys then call (Redis.delete_keys keys) else ret tt)
         then ret true)
        (fun _ => ret false)
        self.

End RedisCache.

Module SessionCache.
Section WithJson.
Context {json : Type} `{!JsonCodec json}.

Definition _session_key (session_id : string) : string :=
  "session:" +:+ session_id.

Definition _session_memories_key (session_id : string) : string :=
  "session:" +:+ session_id +:+ ":memories".

Definition _session_description_key (session_id : string) : string :=
  "session:" +:+ session_id +:+ ":description".

Definition warm_session_cache (session_id : string)
    (session_data memories : json) : M RedisCache.t unit :=
  try_except
    (perform RedisCache.set (_session_key session_id) (json_dumps session_data) 3600 then
     perform RedisCache.set (_session_memories_key session_id) (json_dumps memories) 600 then
     ret tt)
    (fun _ => ret tt).

Definition get_session (session_id : string) : M RedisCache.t (option json) :=
  try_except
    (let* cached := RedisCache.get (_session_key session_id) in
     match cached with
     | Some c =>
         if truthy_str c
         then let* j := lift_result (json_loads c) in ret (Some j)
         else ret None
     | None => ret None
     end)
    (fun _ => ret None).

Definition get_session_memories (session_id : string) : M RedisCache.t (option json) :=
  try_except
    (let* cached := RedisCache.get (_session_memories_key session_id) in
     match cached with
     | Some c =>
         if truthy_str c
         then let* j := lift_result (json_loads c) in ret (Some j)
         else ret None
     | None => ret None
     end)
    (fun _ => ret None).

Definition invalidate_session_memories (session_id : string) : M RedisCache.t unit :=
  perform RedisCache.delete (_session_memories_key session_id) then ret tt.

Definition invalidate_session (session_id : string) : M RedisCache.t unit :=
  perform RedisCache.delete_pattern ("session:" +:+ session_id +:+ ":*") then
  perform RedisCache.delete (_session_key session_id) then
  ret tt.

Definition get_session_description (session_id : string) : M RedisCache.t (option string) :=
  try_except
    (let* cached := RedisCache.get (_session_description_key session_id) in
     match cached with
     | Some c => if truthy_str c then ret (Some c) else ret None
     | None => ret None
     end)
    (fun _ => ret None).

(** The docstring reads "no TTL - permanent until invalidated"; the call
    passes no [ttl_seconds], so the default of [RedisCache.set] applies. *)
Definition set_session_description (session_id description : string)
  : M RedisCache.t unit :=
  try_except
    (perform RedisCache.set (_session_description_key session_id) description
                            RedisCache.default_ttl_seconds
     then ret tt)
    (fun _ => ret tt).

Definition invalidate_session_description (session_id : string) : M RedisCache.t unit :=
  perform RedisCache.delete (_session_description_key session_id) then ret tt.

End WithJson.
End SessionCache.

Module EmbeddingCache.
Section WithCodec.
Context {pyfloat : Type} `{!JsonCodec (list pyfloat)} `{!Sha256}.

Definition _embedding_key (text : string) : string :=
  "embed:v1:" +:+ sha256hex text.

Definition get_embedding (text : string) : M RedisCache.t (option (list pyfloat)) :=
  try_except
    (let cache_key := _embedding_key text in
     let* cached := RedisCache.get cache_key in
     match cached with
     | Some c =>
         if truthy_str c
         then let* v := lift_result (json_loads c) in ret (Some v)
         else ret None
     | None => ret None
     end)
    (fun _ => ret None).

(** The default of the parameter [ttl_seconds]. *)
Definition default_ttl_seconds : Z := 86400.

Definition save_embedding (text : string) (embedding : list pyfloat)
    (ttl_seconds : Z) : M RedisCache.t unit :=
  try_except
    (let cache_key := _embedding_key text in
     perform RedisCache.set cache_key (json_dumps embedding) ttl_seconds then
     ret tt)
    (fun _ => ret tt).

End WithCodec.
End EmbeddingCache.

(* ===================================================================== *)
(** ** The application state                                             *)
(* ===================================================================== *)

(** An element of the list [asyncio.gather(..., return_exceptions=True)]
    returns: the value of the awaitable, or the exception object it raised.
    [gather] keeps the instances of [Exception] and a [CancelledError] as
    results; a [KeyboardInterrupt] or a [SystemExit] is not kept: it leaves
    the task and the event loop, so nothing after it is run and the caller
    of [gather] ends with it.  The awaitables are run one after the other,
    in the order in which they are passed; what the later ones had done
    when an earlier one left the loop is not modelled, and no property
    below depends on it. *)
Inductive gathered (A : Type) :=
| Value (a : A)
| ExcObject (e : exn).
Arguments Value {A} a.
Arguments ExcObject {A} e.

Definition gather_one {S A} (m : M S A) : M S (gathered A) :=
  fun s =>
    match m s with
    | (Ok a, s') => (Ok (Value a), s')
    | (Raise e, s') =>
        if leaves_the_loop e then (Raise e, s') else (Ok (ExcObject e), s')
    end.

Inductive level := DEBUG | INFO | WARNING | ERROR.

Section App.
Context {pyfloat : Type} `{!JsonCodec (list pyfloat)} `{!Sha256}.

Local Abbreviation vector := (list pyfloat).

(** *** The datastore (table [session_memories])

    The datastore is an external collaborator.  [insert(...).execute()]
    sends the row as JSON: a row holding an exception object cannot be
    encoded and the call raises before anything is sent.  Otherwise the
    next entry of [replies] tells what the service does with the request
    (once used up, requests are stored and returned). *)
Record memory_row := MemoryRow {
  row_session_id : string;
  row_user_id : string;
  row_original_text : string;
  row_processed_text : gathered string;
  row_source : option string;
  row_embedding : option (gathered vector)   (* [None]: no "embedding" key *)
}.

Record stored_row := StoredRow { row_id : string; row_data : memory_row }.

Inductive insert_reply :=
| ReplyError       (* the request fails: [execute()] raises *)
| ReplyEmpty       (* the row is stored, [response.data] is empty *)
| ReplyRow.        (* the row is stored and returned with its id *)

Record Datastore := MkDatastore {
  session_memories : list stored_row;
  replies : list insert_reply
}.

Definition serialisable (r : memory_row) : bool :=
  match row_processed_text r, row_embedding r with
  | Value _, None => true
  | Value _, Some (Value _) => true
  | _, _ => false
  end.

Definition fresh_id (d : Datastore) : string :=
  "mem-" +:+ pretty (length (session_memories d)).

Definition insert_execute (r : memory_row) : M Datastore (list stored_row) :=
  fun d =>
    if negb (serialisable r)
    then (Raise (Exn TypeError "Object of type Exception is not JSON serializable"), d)
    else
      let stored := StoredRow (fresh_id d) r in
      match replies d with
      | ReplyError :: rest =>
          (Raise (Exn APIError "request failed"),
           MkDatastore (session_memories d) rest)
      | ReplyEmpty :: rest =>
          (Ok [], MkDatastore (session_memories d ++ [stored]) rest)
      | ReplyRow :: rest =>
          (Ok [stored], MkDatastore (session_memories d ++ [stored]) rest)
      | [] =>
          (Ok [stored], MkDatastore (session_memories d ++ [stored]) [])
      end.

Record World := MkWorld {
  cache : RedisCache.t;            (* the global [redis_cache] *)
  db : Datastore;
  api_calls : list string;         (* requests sent to the embedding provider *)
  log : list (level * string)
}.

Definition on_cache {A} (m : M RedisCache.t A) : M World A :=
  zoom cache (fun c w => MkWorld c (db w) (api_calls w) (log w)) m.

Definition on_db {A} (m : M Datastore A) : M World A :=
  zoom db (fun d w => MkWorld (cache w) d (api_calls w) (log w)) m.

Definition logging (l : level) (message : string) : M World unit :=
  modify (fun w => MkWorld (cache w) (db w) (api_calls w) (log w ++ [(l, message)])).

(** *** app/services/embeddings.py *)

(** [has_cache] tells whether an [EmbeddingCache] was injected
    ([self.cache] is not [None]); [api] is what the provider answers to a
    request ([response.data[0].embedding], or an error). *)
Definition embeddings_create (api : string -> result vector) (text : string)
  : M World vector :=
  fun w =>
    (api text, MkWorld (cache w) (db w) (api_calls w ++ [text]) (log w)).

(** The part of [create_embedding] after the cache lookup ("Cache miss -
    generate embedding via API", then "Save to cache"). *)
Definition generate (has_cache : bool) (api : string -> result vector)
    (text : string) : M World vector :=
  let* embedding := embeddings_create api text in
  perform (if has_cache
           then on_cache (EmbeddingCache.save_embedding text embedding
                            EmbeddingCache.default_ttl_seconds)
           else ret tt) then
  ret embedding.

(** [if len(text) > max_chars: text = text[:max_chars]] *)
Definition truncate (text : string) : string :=
  let max_chars := 30000 in
  if max_chars <? str_len text then str_take max_chars text else text.

Definition create_embedding (has_cache : bool) (api : string -> result vector)
    (text : string) : M World vector :=
  try_except
    (let text := truncate text in
     let* cached_embedding :=
       (if has_cache
        then on_cache (EmbeddingCache.get_embedding text)
        else ret None) in
     match cached_embedding with
     | Some v => if truthy_list v then ret v else generate has_cache api text
     | None => generate has_cache api text
     end)
    (fun e => raise (Exn Exception_ ("Failed to generate embedding: " +:+ msg e))).

(** *** app/services/claude.py: [process_text]

    [claude] is what the summarization provider answers (the stripped
    text of the first content block, or an error). *)
Definition process_text (claude : string -> result string) (text : string)
  : M World string :=
  try_except
    (lift_result (claude text))
    (fun e => raise (Exn Exception_ ("Claude API error: " +:+ msg e))).

(** *** app/services/sessions.py: [save_memory] *)

(** [if embedding:] on what the caller passes. *)
Definition truthy_embedding (e : option (gathered vector)) : bool :=
  match e with
  | None => false
  | Some (Value v) => truthy_list v
  | Some (ExcObject _) => true
  end.

Definition save_memory (session_id user_id original_text : string)
    (processed_text : gathered string) (source : option string)
    (embedding : option (gathered vector)) : M World (option stored_row) :=
  try_except
    (let data :=
       MemoryRow session_id user_id original_text processed_text source
                 (if truthy_embedding embedding then embedding else None) in
     let* response_data := on_db (insert_execute data) in
     ret (head response_data))
    (fun e =>
       perform logging ERROR ("Error saving memory: " +:+ msg e) then
       raise (Exn Exception_ ("Failed to save memory: " +:+ msg e))).

(** *** app/routes/memories.py: [smart_copy] *)

Record SmartCopyRequest := MkRequest {
  text : string;
  session_id : string;
  user_id : string;
  source : option string
}.

Record SmartCopyResponse := MkResponse {
  status : string;
  memory_id : string;
  original_length : Z;
  processed_length : Z;
  processed_text : string
}.

(** [len(processed_text)] and the response model both need a [str]. *)
Definition build_response (request : SmartCopyRequest) (memory : stored_row)
    (processed : gathered string) : M World SmartCopyResponse :=
  match processed with
  | Value p =>
      ret (MkResponse "saved" (row_id memory) (str_len (text request)) (str_len p) p)
  | ExcObject _ =>
      raise (Exn TypeError "object of type 'Exception' has no len()")
  end.

(** The two awaitables passed to [gather] contain no suspension point, so
    they run one after the other, in argument order. *)
Definition smart_copy (has_cache : bool) (claude : string -> result string)
    (api : string -> result vector) (request : SmartCopyRequest)
  : M World SmartCopyResponse :=
  fun w =>
    match
      (let* r0 := gather_one (process_text claude (text request)) in
       let* r1 := gather_one (create_embedding has_cache api (text request)) in
       let processed := r0 in
       let embedding :=
         match r1 with
         | Value v => Some (Value v)
         | ExcObject e => if is_Exception e then None else Some (ExcObject e)
         end in
       perform (match r1 with
                | ExcObject e =>
                    if is_Exception e
                    then logging WARNING ("Failed to generate embedding: " +:+ msg e)
                    else ret tt
                | Value _ => ret tt
                end) then
       let* memory := save_memory (session_id request) (user_id request)
                        (text request) processed (source request) embedding in
       match memory with
       | None => raise (Exn (HTTPException 500) "Failed to save memory")
       | Some m =>
           perform on_cache (SessionCache.invalidate_session_memories (session_id request)) then
           perform on_cache (SessionCache.invalidate_session_description (session_id request)) then
           build_response request m processed
       end) w
    with
    | (Ok r, w') => (Ok r, w')
    | (Raise e, w') =>
        if is_HTTPException e then (Raise e, w')
        else if is_Exception e
             then (Raise (Exn (HTTPException 500) ("Smart copy failed: " +:+ msg e)), w')
             else (Raise e, w')
    end.

End App.

(* ===================================================================== *)
(** ** app/services/task_queue.py                                        *)
(* ===================================================================== *)

(** The queue runs on one asyncio event loop: a coroutine runs alone from
    one suspension point ([await]) to the next.  The state records where
    every coroutine is suspended, and an [event] resumes one of them for
    one such uninterrupted segment.  Which event comes next is the
    scheduler's choice, so properties are stated over all event lists. *)
Module TaskQueue.

(** What awaiting [task_func( *args, **kwargs)] ends with. *)
Inductive outcome :=
| Returns
| Raises (e : exn).

Record task := Task { task_id : string; func : outcome }.

(** Where a worker coroutine [_worker(i)] is suspended. *)
Inductive position :=
| AtLoopHead          (* created by [start], not run yet *)
| InGet               (* in [await asyncio.wait_for(self.queue.get(), timeout=1.0)] *)
| InTask (t : task)   (* in [await task_func( *args, **kwargs)] *)
| Finished.           (* the coroutine is over *)

(** [cancel_requested]: [worker.cancel()] was called and the
    [CancelledError] is delivered when the worker is next resumed. *)
Record worker := Worker { at_ : position; cancel_requested : bool }.

(** Where the pending call of [stop()] is.  [queue.join()] waits on the
    event [_finished] of the queue; [task_done] sets the event when the
    counter reaches zero, which resolves the future [join()] is suspended
    on.  From then on [join()] returns when it is resumed, whatever has
    been enqueued in between. *)
Inductive stop_phase :=
| NotCalled
| Joining             (* in [await self.queue.join()], the event not set *)
| Woken               (* in [join()], its future resolved by [task_done] *)
| Gathering           (* in [await asyncio.gather( *self.workers, ...)] *)
| Returned.

Record t := Make {
  queue : list task;          (* items of the [asyncio.Queue] *)
  unfinished_tasks : nat;     (* its counter: [put] adds one, [task_done] takes one *)
  num_workers : nat;
  workers : list worker;
  is_running : bool;
  stop_at : stop_phase;
  log : list (level * string)
}.

Definition init (num_workers : nat) : t :=
  Make [] 0 num_workers [] false NotCalled [].

Definition set_worker (i : nat) (w : worker) (q : t) : t :=
  Make (queue q) (unfinished_tasks q) (num_workers q) (<[i := w]> (workers q))
       (is_running q) (stop_at q) (log q).

Definition logger (l : level) (m : string) (q : t) : t :=
  Make (queue q) (unfinished_tasks q) (num_workers q) (workers q)
       (is_running q) (stop_at q) (log q ++ [(l, m)]).

Definition start (q : t) : t :=
  if is_running q then q
  else
    let q1 := logger INFO ("Starting background task queue with "
                           +:+ pretty (num_workers q) +:+ " workers") q in
    Make (queue q1) (unfinished_tasks q1) (num_workers q1)
         (workers q1 ++ replicate (num_workers q1) (Worker AtLoopHead false))
         true (stop_at q1) (log q1).

(** [enqueue]: [uuid] is the value [uuid.uuid4()] draws.  The queue is
    unbounded, so [put] never waits. *)
Definition enqueue (uuid : string) (task_func : outcome) (q : t) : string * t :=
  let q1 := Make (queue q ++ [Task uuid task_func]) (S (unfinished_tasks q))
                 (num_workers q) (workers q) (is_running q) (stop_at q) (log q) in
  (uuid, logger DEBUG ("Enqueued task " +:+ uuid) q1).

(** *** The worker loop, segment by segment *)

(** From the test [while self.is_running] to the next suspension point. *)
Definition loop_head (i : nat) (q : t) : t :=
  if is_running q
  then set_worker i (Worker InGet false) q
  else set_worker i (Worker Finished false)
         (logger INFO ("Worker " +:+ pretty i +:+ " stopped") q).

(** The first run of the coroutine: the log line, then the loop. *)
Definition worker_begin (i : nat) (q : t) : t :=
  loop_head i (logger INFO ("Worker " +:+ pretty i +:+ " started") q).

(** [except asyncio.CancelledError: ...; break] and the line after the loop. *)
Definition cancelled_break (i : nat) (q : t) : t :=
  set_worker i (Worker Finished false)
    (logger INFO ("Worker " +:+ pretty i +:+ " stopped")
       (logger INFO ("Worker " +:+ pretty i +:+ " cancelled") q)).

(** [if self._unfinished_tasks == 0: self._finished.set()] at the end of
    [task_done], with the counter at [n]: a pending [join()] is woken. *)
Definition finished_set (n : nat) (s : stop_phase) : stop_phase :=
  match n, s with
  | O, Joining => Woken
  | _, _ => s
  end.

(** [finally: self.queue.task_done()], then [k].  [task_done] raises
    [ValueError] when the counter is already zero; the outer
    [except Exception] logs it and the loop goes on. *)
Definition task_done_then (i : nat) (k : t -> t) (q : t) : t :=
  match unfinished_tasks q with
  | O =>
      loop_head i
        (logger ERROR ("Worker " +:+ pretty i
                       +:+ " error: task_done() called too many times") q)
  | S n =>
      k (Make (queue q) n (num_workers q) (workers q) (is_running q)
              (finished_set n (stop_at q)) (log q))
  end.

(** The awaited task function has ended with [func t]. *)
Definition task_ended (i : nat) (t0 : task) (q : t) : t :=
  match func t0 with
  | Returns =>
      task_done_then i (loop_head i)
        (logger INFO ("Worker " +:+ pretty i +:+ " completed task " +:+ task_id t0) q)
  | Raises e =>
      if is_Exception e
      then
        task_done_then i (loop_head i)
          (logger ERROR ("Worker " +:+ pretty i +:+ " task " +:+ task_id t0
                         +:+ " failed: " +:+ msg e) q)
      else
        match cls e with
        | CancelledError => task_done_then i (cancelled_break i) q
        | _ => task_done_then i (set_worker i (Worker Finished false)) q
        end
  end.

(** An item has arrived for the pending [queue.get()]. *)
Definition got_item (i : nat) (t0 : task) (rest : list task) (q : t) : t :=
  set_worker i (Worker (InTask t0) false)
    (logger INFO ("Worker " +:+ pretty i +:+ " processing task " +:+ task_id t0)
       (Make rest (unfinished_tasks q) (num_workers q) (workers q)
             (is_running q) (stop_at q) (log q))).

(** The [CancelledError] of [worker.cancel()] arrives at the suspension
    point. *)
Definition deliver_cancel (i : nat) (p : position) (q : t) : option t :=
  match p with
  | AtLoopHead => Some (set_worker i (Worker Finished false) q)
  | InGet => Some (cancelled_break i q)
  | InTask _ => Some (task_done_then i (cancelled_break i) q)
  | Finished => None
  end.

(** *** [stop()], segment by segment *)

Definition cancel (w : worker) : worker :=
  match at_ w with
  | Finished => w
  | p => Worker p true
  end.

(** After [await self.queue.join()]: cancel the workers, then wait in
    [gather]. *)
Definition after_join (q : t) : t :=
  Make (queue q) (unfinished_tasks q) (num_workers q) (cancel <$> workers q)
       (is_running q) Gathering (log q).

(** After [gather]: [self.workers = []] and return. *)
Definition after_gather (q : t) : t :=
  Make (queue q) (unfinished_tasks q) (num_workers q) []
       (is_running q) Returned (log q).

(** The call of [stop()] up to its first suspension point:
    [queue.join()] returns at once when the counter is zero, and waits
    for the event otherwise. *)
Definition stop (q : t) : t :=
  if negb (is_running q)
  then Make (queue q) (unfinished_tasks q) (num_workers q) (workers q)
            (is_running q) Returned (log q)
  else
    let q1 := logger INFO "Stopping background task queue"
                (Make (queue q) (unfinished_tasks q) (num_workers q) (workers q)
                      false (stop_at q) (log q)) in
    match unfinished_tasks q1 with
    | O => after_join q1
    | S _ => Make (queue q1) (unfinished_tasks q1) (num_workers q1) (workers q1)
                  (is_running q1) Joining (log q1)
    end.

Definition all_finished (ws : list worker) : bool :=
  forallb (fun w => match at_ w with Finished => true | _ => false end) ws.

(** *** Events *)

Inductive event :=
| Resume (i : nat)        (* worker [i] is resumed: item, task end or cancel *)
| Timeout (i : nat)       (* the 1.0 s of [wait_for] run out for worker [i] *)
| Enqueue (uuid : string) (task_func : outcome)   (* some caller enqueues *)
| StopResume.             (* the pending [stop()] is resumed *)

Definition fire (ev : event) (q : t) : option t :=
  match ev with
  | Resume i =>
      match workers q !! i with
      | Some (Worker p true) => deliver_cancel i p q
      | Some (Worker AtLoopHead false) => Some (worker_begin i q)
      | Some (Worker InGet false) =>
          match queue q with
          | t0 :: rest => Some (got_item i t0 rest q)
          | [] => None
          end
      | Some (Worker (InTask t0) false) => Some (task_ended i t0 q)
      | Some (Worker Finished false) => None
      | None => None
      end
  | Timeout i =>
      match workers q !! i with
      | Some (Worker InGet false) => Some (loop_head i q)
      | _ => None
      end
  | Enqueue uuid f => Some (snd (enqueue uuid f q))
  | StopResume =>
      match stop_at q with
      | Woken => Some (after_join q)
      | Gathering =>
          if all_finished (workers q) then Some (after_gather q) else None
      | _ => None
      end
  end.

(** Run a schedule; [None] when an event of it is not enabled. *)
Fixpoint run (evs : list event) (q : t) : option t :=
  match evs with
  | [] => Some q
  | ev :: evs' =>
      match fire ev q with
      | Some q' => run evs' q'
      | None => None
      end
  end.

(** How many workers are suspended at a position of the kind [p]. *)
Fixpoint count_workers (p : position -> bool) (ws : list worker) : nat :=
  match ws with
  | [] => 0
  | w :: ws' => (if p (at_ w) then 1 else 0) + count_workers p ws'
  end.

Definition count_at (p : position -> bool) (q : t) : nat :=
  count_workers p (workers q).

Definition in_get (p : position) : bool :=
  match p with InGet => true | _ => false end.

Definition in_task (p : position) : bool :=
  match p with InTask _ => true | _ => false end.

End TaskQueue.

(* ===================================================================== *)
(** ** Text operations of Python's [str]                                 *)
(* ===================================================================== *)

(** The operations the services apply to texts.  A character of a Rocq
    string stands for the code point of the same number, so these are
    Python's operations on the texts whose code points are below 256. *)
Module Str.

(** ["\n"] *)
Definition nl : string := String "010" EmptyString.

(** The characters [str.isspace] accepts: tab to carriage return, the four
    separators 28 to 31, the space, NEL and the no-break space. *)
Definition is_space (c : ascii) : bool :=
  let n := N_of_ascii c in
  ((9 <=? n) && (n <=? 13) || (28 <=? n) && (n <=? 32) || (n =? 133) || (n =? 160))%N.

Fixpoint lstrip (s : string) : string :=
  match s with
  | EmptyString => EmptyString
  | String c s' => if is_space c then lstrip s' else s
  end.

Fixpoint rstrip (s : string) : string :=
  match s with
  | EmptyString => EmptyString
  | String c s' =>
      match rstrip s' with
      | EmptyString => if is_space c then EmptyString else String c EmptyString
      | r => String c r
      end
  end.

(** [s.strip()] *)
Definition strip (s : string) : string := rstrip (lstrip s).

(** [str.lower] on one character: the letters A to Z and the upper-case
    letters of Latin-1 (192 to 222, the multiplication sign 215 apart). *)
Definition lower_char (c : ascii) : ascii :=
  let n := N_of_ascii c in
  if ((65 <=? n) && (n <=? 90) || (192 <=? n) && (n <=? 222) && negb (n =? 215))%N
  then ascii_of_N (n + 32)
  else c.

(** [s.lower()] *)
Fixpoint lower (s : string) : string :=
  match s with
  | EmptyString => EmptyString
  | String c s' => String (lower_char c) (lower s')
  end.

(** [s.split(sep)] for a separator of one character: never an empty
    list. *)
Fixpoint split_on (sep : ascii) (s : string) : list string :=
  match s with
  | EmptyString => [EmptyString]
  | String c s' =>
      if Redis.ascii_eqb c sep then EmptyString :: split_on sep s'
      else match split_on sep s' with
           | w :: ws => String c w :: ws
           | [] => [String c EmptyString]
           end
  end.

(** The word that starts at the head of [s] (empty when [s] starts with
    white space) and the words after it. *)
Fixpoint split_from (s : string) : string * list string :=
  match s with
  | EmptyString => (EmptyString, [])
  | String c s' =>
      let '(w, ws) := split_from s' in
      if is_space c
      then (EmptyString, match w with EmptyString => ws | _ => w :: ws end)
      else (String c w, ws)
  end.

(** [s.split()]: the runs of characters that are not white space. *)
Definition split (s : string) : list string :=
  let '(w, ws) := split_from s in
  match w with EmptyString => ws | _ => w :: ws end.

Fixpoint startswith (s prefix : string) : bool :=
  match prefix, s with
  | EmptyString, _ => true
  | String p prefix', String c s' => Redis.ascii_eqb p c && startswith s' prefix'
  | String _ _, EmptyString => false
  end.

(** [sub in s] *)
Fixpoint contains (sub s : string) : bool :=
  startswith s sub
  || match s with
     | EmptyString => false
     | String _ s' => contains sub s'
     end.

(** [s.replace(c, "")] for a character [c]. *)
Fixpoint remove_char (c : ascii) (s : string) : string :=
  match s with
  | EmptyString => EmptyString
  | String d s' => if Redis.ascii_eqb d c then remove_char c s' else String d (remove_char c s')
  end.

(** [sep.join(l)] *)
Definition join (sep : string) (l : list string) : string := String.concat sep l.

End Str.

(** [list.sort(key=..., reverse=True)]: the stable sort into descending
    order of the keys.  An element goes in front of the first element whose
    key is not above its own, so elements of equal keys keep their order. *)
Fixpoint insert_descending {A} (key : A -> QArith_base.Q) (x : A) (l : list A) : list A :=
  match l with
  | [] => [x]
  | y :: l' =>
      if QArith_base.Qle_bool (key y) (key x) then x :: y :: l'
      else y :: insert_descending key x l'
  end.

Definition sort_descending {A} (key : A -> QArith_base.Q) (l : list A) : list A :=
  foldr (insert_descending key) [] l.

(** An exception of a class that the code below meets only in
    [except Exception] handlers ([ValueError], [AttributeError],
    pydantic's [ValidationError]): the handlers use its text alone, and it
    is carried as an instance of [Exception]. *)
Definition an_Exception (message : string) : exn := Exn Exception_ message.

(** [try: m  except HTTPException: raise  except Exception as e:
    raise HTTPException(status_code=500, detail=detail e)] *)
Definition http_500_unless_http {S A} (detail : exn -> string) (m : M S A) : M S A :=
  fun s =>
    match m s with
    | (Ok a, s') => (Ok a, s')
    | (Raise e, s') =>
        if is_HTTPException e then (Raise e, s')
        else if is_Exception e
             then (Raise (Exn (HTTPException 500) (detail e)), s')
             else (Raise e, s')
    end.

(* ===================================================================== *)
(** ** app/routes/memories.py: the background copy                       *)
(* ===================================================================== *)

Section Background.
Context {pyfloat : Type} `{!JsonCodec (list pyfloat)} `{!Sha256}.

Local Abbreviation vector := (list pyfloat).

(** [process_smart_copy_background]: the task [smart_copy_async] puts on
    the queue.  [embedding_svc] and [service] are the objects the route
    was given; as in [smart_copy] they are the embedding service (with
    [has_cache] and [api]) and the session service over the datastore of
    the world.  The argument [source] is [request.source or "mac-app"]. *)
Definition process_smart_copy_background (has_cache : bool)
    (claude : string -> result string) (api : string -> result vector)
    (text session_id user_id source : string) : M World unit :=
  perform logging INFO ("Background processing Smart Copy for session " +:+ session_id) then
  try_except
    (let* r0 := gather_one (process_text claude text) in
     let* r1 := gather_one (create_embedding has_cache api text) in
     let processed_text := r0 in
     let embedding :=
       match r1 with
       | Value v => Some (Value v)
       | ExcObject e => if is_Exception e then None else Some (ExcObject e)
       end in
     perform (match r1 with
              | ExcObject e =>
                  if is_Exception e
                  then logging WARNING ("Failed to generate embedding: " +:+ msg e)
                  else ret tt
              | Value _ => ret tt
              end) then
     let* memory := save_memory session_id user_id text processed_text (Some source)
                      embedding in
     perform on_cache (SessionCache.invalidate_session_memories session_id) then
     perform on_cache (SessionCache.invalidate_session_description session_id) then
     match memory with
     | Some m => logging INFO ("Background Smart Copy completed: " +:+ row_id m)
     | None => raise (Exn TypeError "'NoneType' object is not subscriptable")
     end)
    (fun e => logging ERROR ("Background Smart Copy failed: " +:+ msg e)).

End Background.

(* ===================================================================== *)
(** ** The datastore as the session service queries it                   *)
(* ===================================================================== *)

(** The Supabase client is a collaborator outside the repository.  A
    request is what a chain [table(...)....execute()] or [rpc(...).execute()]
    of [sessions.py] sends; its index is the type of [response.data] (of
    [response.count] for the counting request).  Rows are typed by the
    columns the request selects.  A client answers every request with data
    or with an error; nothing more is assumed of it. *)
Module Supabase.
Section Rows.
Context {pyfloat : Type}.

(** A row of [sessions] with the ids of the joined memories
    ([select("*, session_memories(id)")]). *)
Record session_row := SessionRow {
  s_id : string;
  s_user_id : string;
  s_name : string;
  s_icon : string;
  s_description : option string;
  s_created_at : string;
  s_updated_at : option string;
  s_session_memories : list string
}.

(** [select("id, processed_text, created_at")] *)
Record memory_view := MemoryView {
  m_id : string;
  m_processed_text : string;
  m_created_at : string
}.

(** [select("id, processed_text")] *)
Record text_row := TextRow {
  t_id : string;
  t_processed_text : string
}.

(** A row of the function [match_session_memories]. *)
Record match_row := MatchRow {
  x_id : string;
  x_processed_text : string;
  x_created_at : string;
  x_similarity : QArith_base.Q
}.

Inductive query : Type -> Type :=
| SelectSession (session_id : string) : query (list session_row)
    (* sessions: select "*, session_memories(id)", eq id, limit 1 *)
| SelectMemories (session_id : string) (first last : Z) : query (list memory_view)
    (* session_memories: eq session_id, order created_at ascending, range first last *)
| CountMemories (session_id : string) : query (option Z)
    (* session_memories: select "id" with count="exact", eq session_id *)
| SelectTexts (session_id : string) : query (list text_row)
    (* session_memories: select "id, processed_text", eq session_id *)
| UpdateSession (session_id : string) (data : list (string * string))
    : query (list session_row)
| DeleteSession (session_id : string) : query unit
| MatchSessionMemories (query_embedding : list pyfloat) (p_session_id : string)
    (match_threshold : QArith_base.Q) (match_count : Z) : query (list match_row)
| FindSimilarMemories (check_embedding : list pyfloat) (p_session_id : string)
    (similarity_threshold : QArith_base.Q) (max_results : Z) : query (list match_row)
| SelectWithoutEmbedding : query (list text_row)
    (* session_memories: select "id, processed_text", embedding is null *)
| UpdateEmbedding (memory_id : string) (embedding : list pyfloat) : query unit.

Definition client : Type := forall A : Type, query A -> result A.

End Rows.
End Supabase.

(* ===================================================================== *)
(** ** The state of the services                                         *)
(* ===================================================================== *)

Section Backend.
Context {pyfloat : Type} `{!JsonCodec (list pyfloat)} `{!Sha256}.

Local Abbreviation vector := (list pyfloat).

(** What leaves the process besides the cache commands and the embedding
    requests of the world: requests to the datastore and to the
    summarization provider, in the order they are sent. *)
Inductive request :=
| ToDatastore {A : Type} (q : @Supabase.query pyfloat A)
| ToClaude (input : string).

Record Backend := MkBackend {
  world : @World pyfloat;
  requests : list request
}.

Definition on_world {A} (m : M World A) : M Backend A :=
  zoom world (fun w b => MkBackend w (requests b)) m.

(** [....execute()] *)
Definition execute {A} (db : @Supabase.client pyfloat) (q : Supabase.query A)
  : M Backend A :=
  fun b => (db A q, MkBackend (world b) (requests b ++ [ToDatastore q])).

(** [self.client.messages.create(...)] with the prompt built around
    [input]; [claude input] is the text of the first content block of the
    answer, or the error of the call. *)
Definition messages_create (claude : string -> result string) (input : string)
  : M Backend string :=
  fun b => (claude input, MkBackend (world b) (requests b ++ [ToClaude input])).

(** A loop [for x in l: acc = body acc x]. *)
Fixpoint for_each {S A B} (l : list A) (acc : B) (body : B -> A -> M S B) : M S B :=
  match l with
  | [] => ret acc
  | x :: l' => let* acc' := body acc x in for_each l' acc' body
  end.

End Backend.

(* ===================================================================== *)
(** ** app/services/sessions.py: the other methods                       *)
(* ===================================================================== *)

Module SessionService.
Section Service.
Context {pyfloat : Type} `{!JsonCodec (list pyfloat)} `{!Sha256}.

Local Abbreviation vector := (list pyfloat).

(** [self.db] *)
Variable db : @Supabase.client pyfloat.

(** The dict [get_session] returns: the row without its key
    ["session_memories"], with the key ["memory_count"]. *)
Record session := Session {
  id : string;
  user_id : string;
  name : string;
  icon : string;
  description : option string;
  created_at : string;
  updated_at : option string;
  memory_count : Z
}.

(** [except Exception as e: logger.error(...); raise Exception(...)] *)
Definition failed {A} (logged raised : string) (e : exn) : M (@Backend pyfloat) A :=
  perform on_world (logging ERROR (logged +:+ msg e)) then
  raise (Exn Exception_ (raised +:+ msg e)).

Definition get_session (session_id : string) : M (@Backend pyfloat) (option session) :=
  try_except
    (let* data := execute db (Supabase.SelectSession session_id) in
     match data with
     | [] => ret None
     | r :: _ =>
         let memories := Supabase.s_session_memories r in
         ret (Some (Session (Supabase.s_id r) (Supabase.s_user_id r) (Supabase.s_name r)
                            (Supabase.s_icon r) (Supabase.s_description r)
                            (Supabase.s_created_at r) (Supabase.s_updated_at r)
                            (if truthy_list memories
                             then Z.of_nat (length memories) else 0)))
     end)
    (failed "Error fetching session: " "Failed to fetch session: ").

(** [data] holds the fields that are not [None], in the order the code
    adds them. *)
Definition update_session (session_id : string) (name icon description : option string)
  : M (@Backend pyfloat) (option (@Supabase.session_row)) :=
  try_except
    (let data :=
       ((match name with Some v => [("name", v)] | None => [] end)
        ++ (match icon with Some v => [("icon", v)] | None => [] end)
        ++ (match description with Some v => [("description", v)] | None => [] end))%list in
     if negb (truthy_list data) then ret None
     else
       let* rows := execute db (Supabase.UpdateSession session_id data) in
       ret (head rows))
    (failed "Error updating session: " "Failed to update session: ").

Definition delete_session (session_id : string) : M (@Backend pyfloat) bool :=
  try_except
    (perform execute db (Supabase.DeleteSession session_id) then ret true)
    (failed "Error deleting session: " "Failed to delete session: ").

(** The dict [get_session_memories] returns. *)
Record memories_page := MemoriesPage {
  memories : list (@Supabase.memory_view);
  total : Z
}.

Definition get_session_memories (session_id : string) (limit offset : Z)
  : M (@Backend pyfloat) memories_page :=
  try_except
    (let* data := execute db (Supabase.SelectMemories session_id offset (offset + limit - 1)) in
     let* count := execute db (Supabase.CountMemories session_id) in
     ret (MemoriesPage data
            (match count with
             | Some n => if n =? 0 then 0 else n
             | None => 0
             end)))
    (failed "Error fetching memories: " "Failed to fetch memories: ").

(** A result of a search: the key ["created_at"] is there for the vector
    search only. *)
Record found := Found {
  found_id : string;
  found_processed_text : string;
  found_created_at : option string;
  relevance_score : QArith_base.Q
}.

(** [sum(1 for word in query_words if word in text_lower)] *)
Definition count_matches (query_words : list string) (text_lower : string) : nat :=
  length (List.filter (fun word => Str.contains word text_lower) query_words).

(** The body of the loop of [search_memories]: what one memory adds to
    [results].  [matches / len(query_words)] is a quotient of two small
    integers and is kept exact. *)
Definition scored (query_words : list string) (memory : @Supabase.text_row)
  : list found :=
  let text_lower := Str.lower (Supabase.t_processed_text memory) in
  let matches := count_matches query_words text_lower in
  if (0 <? matches)%nat
  then
    let relevance :=
      if truthy_list query_words
      then QArith_base.Qmake (Z.of_nat matches) (Pos.of_nat (length query_words))
      else QArith_base.Qmake 0 1 in
    [Found (Supabase.t_id memory) (Supabase.t_processed_text memory) None relevance]
  else [].

Definition search_memories (session_id query : string) : M (@Backend pyfloat) (list found) :=
  try_except
    (let* data := execute db (Supabase.SelectTexts session_id) in
     let query_lower := Str.lower query in
     let query_words := Str.split query_lower in
     let results := concat (map (scored query_words) data) in
     ret (sort_descending relevance_score results))
    (failed "Error searching memories: " "Failed to search memories: ").

Definition vector_search_memories (session_id : string) (query_embedding : vector)
    (match_threshold : QArith_base.Q) (limit : Z) : M (@Backend pyfloat) (list found) :=
  try_except
    (let* data := execute db (Supabase.MatchSessionMemories query_embedding session_id
                                match_threshold limit) in
     ret (map (fun memory =>
                 Found (Supabase.x_id memory) (Supabase.x_processed_text memory)
                       (Some (Supabase.x_created_at memory)) (Supabase.x_similarity memory))
              data))
    (failed "Error in vector search: " "Failed to perform vector search: ").

(** A result of [find_duplicate_memories]. *)
Record similar := Similar {
  similar_id : string;
  similar_processed_text : string;
  similarity : QArith_base.Q
}.

(** "Don't fail the whole operation if duplicate detection fails". *)
Definition find_duplicate_memories (session_id : string) (embedding : vector)
    (similarity_threshold : QArith_base.Q) : M (@Backend pyfloat) (list similar) :=
  try_except
    (let* data := execute db (Supabase.FindSimilarMemories embedding session_id
                                similarity_threshold 5) in
     ret (map (fun memory =>
                 Similar (Supabase.x_id memory) (Supabase.x_processed_text memory)
                         (Supabase.x_similarity memory))
              data))
    (fun e =>
       perform on_world (logging ERROR ("Error finding duplicates: " +:+ msg e)) then
       ret []).

End Service.
End SessionService.

(* ===================================================================== *)
(** ** app/services/claude.py: descriptions and tags                     *)
(* ===================================================================== *)

Module ClaudeService.
Section Service.
Context {pyfloat : Type} `{!JsonCodec (list pyfloat)} `{!Sha256}.

(** [claude memory_text] is the stripped text of the answer to the prompt
    built around [memory_text]. *)
Definition generate_session_description (claude : string -> result string)
    (memories : list string) : M (@Backend pyfloat) string :=
  if negb (truthy_list memories) then ret "No memories yet in this session."
  else
    let memory_text := Str.join (Str.nl +:+ Str.nl) (take 20 memories) in
    try_except
      (messages_create claude memory_text)
      (fun e => raise (Exn Exception_
                         ("Claude API error generating description: " +:+ msg e))).

(** The two list comprehensions of [generate_tags]. *)
Definition parse_tags (tags_text : string) : list string :=
  let tags := map (fun tag => Str.remove_char "#" (Str.lower (Str.strip tag)))
                  (Str.split_on "," tags_text) in
  take 5 (List.filter (fun tag => truthy_str tag && (1 <? str_len tag)) tags).

(** [claude input] is the text of the answer to the prompt built around
    [text[:500]], before [.strip()]. *)
Definition generate_tags (claude : string -> result string) (text : string)
  : M (@Backend pyfloat) (list string) :=
  try_except
    (let* answer := messages_create claude (str_take 500 text) in
     let tags_text := Str.strip answer in
     ret (parse_tags tags_text))
    (fun e =>
       perform on_world (logging WARNING ("Failed to generate tags: " +:+ msg e)) then
       ret []).

End Service.
End ClaudeService.

(* ===================================================================== *)
(** ** app/services/embeddings.py: the batch call                        *)
(* ===================================================================== *)

Section Batch.
Context {pyfloat : Type} `{!JsonCodec (list pyfloat)} `{!Sha256}.

Local Abbreviation vector := (list pyfloat).

(** One request for the whole batch; [api_batch] is what the provider
    answers ([[item.embedding for item in response.data]], or an error).
    The texts of the request are added to [api_calls] in their order.  As
    for [create_embedding], the lines of the module's logger are left
    out. *)
Definition embeddings_create_batch (api_batch : list string -> result (list vector))
    (texts : list string) : M (@World pyfloat) (list vector) :=
  fun w => (api_batch texts, MkWorld (cache w) (db w) (api_calls w ++ texts) (log w)).

Definition create_embeddings_batch (api_batch : list string -> result (list vector))
    (texts : list string) : M (@World pyfloat) (list vector) :=
  try_except
    (perform (if 2048 <? Z.of_nat (length texts)
              then raise (an_Exception "Batch size cannot exceed 2048 texts")
              else ret tt) then
     let max_chars := 30000 in
     let truncated_texts :=
       map (fun text => if max_chars <? str_len text then str_take max_chars text else text)
           texts in
     let* embeddings := embeddings_create_batch api_batch truncated_texts in
     ret embeddings)
    (fun e => raise (Exn Exception_ ("Failed to generate batch embeddings: " +:+ msg e))).

End Batch.

(* ===================================================================== *)
(** ** app/routes/sessions.py                                            *)
(* ===================================================================== *)

Module SessionRoutes.
Section Routes.
Context {pyfloat : Type} `{!JsonCodec (list pyfloat)} `{!Sha256}.

(** [service = SessionService(db)] *)
Variable db : @Supabase.client pyfloat.

Record DeleteResponse := MkDeleteResponse {
  delete_status : string;
  deleted_id : string
}.

Definition update_session (session_id : string) (name icon description : option string)
  : M (@Backend pyfloat) (@Supabase.session_row) :=
  http_500_unless_http msg
    (let* result := SessionService.update_session db session_id name icon description in
     match result with
     | None => raise (Exn (HTTPException 404) "Session not found")
     | Some r => ret r
     end).

(** This handler has no [except HTTPException: raise]. *)
Definition delete_session (session_id : string) : M (@Backend pyfloat) DeleteResponse :=
  try_except
    (perform SessionService.delete_session db session_id then
     perform on_world (on_cache (SessionCache.invalidate_session session_id)) then
     ret (MkDeleteResponse "deleted" session_id))
    (fun e => raise (Exn (HTTPException 500) (msg e))).

Record SessionPreviewResponse := MkPreview {
  session_name : string;
  preview_memory_count : Z;
  preview_description : string;
  recent_memories : list string
}.

(** The model's [Field(default_factory=list, max_length=3)]. *)
Definition validated (r : SessionPreviewResponse) : M (@Backend pyfloat) SessionPreviewResponse :=
  if (3 <? length (recent_memories r))%nat
  then raise (an_Exception "List should have at most 3 items after validation")
  else ret r.

(** [mem["processed_text"][:100] + ("..." if len(...) > 100 else "")] *)
Definition shortened (processed_text : string) : string :=
  str_take 100 processed_text +:+ (if 100 <? str_len processed_text then "..." else "").

(** [if not description] on an [Optional[str]]. *)
Definition truthy_opt (s : option string) : bool :=
  match s with
  | Some v => truthy_str v
  | None => false
  end.

(** [claude] is the provider of [claude_service]. *)
Definition get_session_preview (claude : string -> result string) (session_id : string)
  : M (@Backend pyfloat) SessionPreviewResponse :=
  http_500_unless_http msg
    (let* session := SessionService.get_session db session_id in
     match session with
     | None => raise (Exn (HTTPException 404) "Session not found")
     | Some session =>
         let* memories_result := SessionService.get_session_memories db session_id 3 0 in
         let memories := SessionService.memories memories_result in
         let recent_memories :=
           map (fun mem => shortened (Supabase.m_processed_text mem)) memories in
         let* description :=
           match SessionService.description session with
           | Some d =>
               if truthy_str d then ret d
               else ret ""
           | None => ret ""
           end in
         let* description :=
           if negb (truthy_opt (SessionService.description session))
           then
             let* cached_description :=
               on_world (on_cache (SessionCache.get_session_description session_id)) in
             if truthy_opt cached_description
             then
               perform on_world (logging INFO ("Using cached description for session "
                                               +:+ session_id)) then
               ret (default "" cached_description)
             else
               perform on_world (logging INFO ("Generating description for session "
                                               +:+ session_id)) then
               if truthy_list memories
               then
                 let* all_memories_result :=
                   SessionService.get_session_memories db session_id 20 0 in
                 let memory_texts :=
                   map Supabase.m_processed_text
                       (SessionService.memories all_memories_result) in
                 let* description :=
                   ClaudeService.generate_session_description claude memory_texts in
                 perform on_world
                           (on_cache (SessionCache.set_session_description session_id
                                        description)) then
                 ret description
               else ret "No memories yet in this session."
           else ret description in
         validated (MkPreview (SessionService.name session)
                              (SessionService.memory_count session)
                              description recent_memories)
     end).

End Routes.
End SessionRoutes.

(* ===================================================================== *)
(** ** app/routes/memories.py: paste and search                          *)
(* ===================================================================== *)

Module MemoryRoutes.
Section Routes.
Context {pyfloat : Type} `{!JsonCodec (list pyfloat)} `{!Sha256}.

Local Abbreviation vector := (list pyfloat).

(** [service = SessionService(db)]; [embedding_svc] is the embedding
    service with [has_cache] and the provider [api]. *)
Variable db : @Supabase.client pyfloat.
Variable has_cache : bool.
Variable api : string -> result vector.

Record SmartPasteResponse := MkPaste {
  formatted_text : string;
  paste_memory_count : Z;
  paste_session_name : string
}.

(** The double quote, character 34. *)
Definition dquote : string := String "034" EmptyString.

(** [[f"{idx}. {memory['processed_text']}" for idx, memory in
    enumerate(memories, start=1)]] *)
Definition numbered (memories : list string) : list string :=
  imap (fun i text => pretty (S i) +:+ ". " +:+ text) memories.

(** The text built under "Format for pasting"; [memories] are the values
    of ["processed_text"]. *)
Definition format_paste (name icon : string) (query : option string)
    (memories : list string) : string :=
  if negb (truthy_list memories)
  then "[Session Context: " +:+ name +:+ " " +:+ icon +:+ "]" +:+ Str.nl +:+ Str.nl
       +:+ "No memories yet." +:+ Str.nl +:+ Str.nl +:+ "[End Session Context]"
  else
    let header :=
      match query with
      | Some q =>
          if truthy_str q
          then "[Session Context: " +:+ name +:+ " " +:+ icon +:+ " - Filtered by: "
               +:+ dquote +:+ q +:+ dquote +:+ "]" +:+ Str.nl +:+ Str.nl
               +:+ "Relevant Context:" +:+ Str.nl +:+ Str.nl
          else "[Session Context: " +:+ name +:+ " " +:+ icon +:+ "]" +:+ Str.nl +:+ Str.nl
               +:+ "Recent History:" +:+ Str.nl +:+ Str.nl
      | None =>
          "[Session Context: " +:+ name +:+ " " +:+ icon +:+ "]" +:+ Str.nl +:+ Str.nl
          +:+ "Recent History:" +:+ Str.nl +:+ Str.nl
      end in
    let memory_texts := numbered memories in
    let footer := Str.nl +:+ Str.nl +:+ "[End Session Context]" in
    header +:+ Str.join (Str.nl +:+ Str.nl) memory_texts +:+ footer.

(** [result = await service.get_session_memories(session_id, limit=limit)]
    and the texts of [result["memories"]]: the first [limit] memories of
    the session in ascending order of [created_at], which are the oldest
    ones when the session holds more (the comments of the route call them
    the most recent memories). *)
Definition first_memories (session_id : string) (limit : Z)
  : M (@Backend pyfloat) (list string) :=
  let* result := SessionService.get_session_memories db session_id limit 0 in
  ret (map Supabase.m_processed_text (SessionService.memories result)).

Definition smart_paste (session_id : string) (query : option string) (limit : Z)
  : M (@Backend pyfloat) SmartPasteResponse :=
  http_500_unless_http (fun e => "Smart paste failed: " +:+ msg e)
    (let* session := SessionService.get_session db session_id in
     match session with
     | None => raise (Exn (HTTPException 404) "Session not found")
     | Some session =>
         let* memories :=
           if SessionRoutes.truthy_opt query
           then
             try_except
               (let* query_embedding :=
                  on_world (create_embedding has_cache api (default "" query)) in
                let* results :=
                  SessionService.vector_search_memories db session_id query_embedding
                    (QArith_base.Qmake 3 10) limit in
                ret (map SessionService.found_processed_text results))
               (fun e =>
                  perform on_world (logging WARNING
                                      ("Semantic search failed in smart paste: " +:+ msg e)) then
                  first_memories session_id limit)
           else first_memories session_id limit in
         let formatted_text :=
           format_paste (SessionService.name session) (SessionService.icon session)
                        query memories in
         ret (MkPaste formatted_text (Z.of_nat (length memories))
                      (SessionService.name session))
     end).

Record SearchResult := MkSearchResult {
  result_id : string;
  result_processed_text : string;
  result_relevance_score : QArith_base.Q
}.

Record SearchResponse := MkSearchResponse {
  results : list SearchResult;
  search_total : Z
}.

(** [mode] is ["vector"] or ["text"] (the route's pattern); this handler
    has no [except HTTPException: raise]. *)
Definition search_session (session_id query mode : string) (limit : Z)
  : M (@Backend pyfloat) SearchResponse :=
  try_except
    (let* results :=
       if bool_decide (mode = "vector")
       then
         try_except
           (let* query_embedding := on_world (create_embedding has_cache api query) in
            SessionService.vector_search_memories db session_id query_embedding
              (QArith_base.Qmake 3 10) limit)
           (fun e =>
              perform on_world (logging WARNING
                                  ("Vector search failed, falling back to text search: "
                                   +:+ msg e)) then
              SessionService.search_memories db session_id query)
       else SessionService.search_memories db session_id query in
     let search_results :=
       map (fun r => MkSearchResult (SessionService.found_id r)
                                    (SessionService.found_processed_text r)
                                    (SessionService.relevance_score r))
           results in
     ret (MkSearchResponse search_results (Z.of_nat (length search_results))))
    (fun e => raise (Exn (HTTPException 500) ("Search failed: " +:+ msg e))).

End Routes.
End MemoryRoutes.

(* ===================================================================== *)
(** ** migrate_embeddings.py                                             *)
(* ===================================================================== *)

Module Migration.
Section Script.
Context {pyfloat : Type} `{!JsonCodec (list pyfloat)} `{!Sha256}.

Local Abbreviation vector := (list pyfloat).

(** [db.get_client()] *)
Variable db : @Supabase.client pyfloat.

(** The name [embedding_service] the script imports from
    [app.services.embeddings]: an embedding service, or [None]. *)
Variable embedding_service : option (string -> M (@World pyfloat) vector).

Definition logger_info (message : string) : M (@Backend pyfloat) unit :=
  on_world (logging INFO message).

(** [memories[i:i + batch_size] for i in range(0, total, batch_size)] *)
Fixpoint batches {A} (fuel batch_size : nat) (l : list A) : list (list A) :=
  match fuel, l with
  | S fuel', _ :: _ => take batch_size l :: batches fuel' batch_size (drop batch_size l)
  | _, _ => []
  end.

(** The body of the inner loop; the counters are [(success_count,
    error_count)]. *)
Definition migrate_one (total : nat) (counts : Z * Z) (memory : @Supabase.text_row)
  : M (@Backend pyfloat) (Z * Z) :=
  let '(success_count, error_count) := counts in
  try_except
    (let* embedding :=
       match embedding_service with
       | Some create_embedding => on_world (create_embedding (Supabase.t_processed_text memory))
       | None =>
           raise (an_Exception "'NoneType' object has no attribute 'create_embedding'")
       end in
     perform execute db (Supabase.UpdateEmbedding (Supabase.t_id memory) embedding) then
     let success_count := success_count + 1 in
     perform (if success_count mod 10 =? 0
              then logger_info ("Progress: " +:+ pretty success_count +:+ "/"
                                +:+ pretty total +:+ " completed")
              else ret tt) then
     ret (success_count, error_count))
    (fun e =>
       perform on_world (logging ERROR ("Failed to process memory "
                                        +:+ Supabase.t_id memory +:+ ": " +:+ msg e)) then
       ret (success_count, error_count + 1)).

(** One turn of the outer loop: the batch, then [asyncio.sleep(1)]. *)
Definition migrate_batch (total : nat) (counts : Z * Z)
    (numbered_batch : nat * list (@Supabase.text_row)) : M (@Backend pyfloat) (Z * Z) :=
  let '(index, batch) := numbered_batch in
  let batch_size := 100%nat in
  perform logger_info ("Processing batch " +:+ pretty (S index) +:+ "/"
                       +:+ pretty ((total + batch_size - 1) / batch_size)%nat) then
  for_each batch counts (migrate_one total).

(** The script returns nothing; the counters it logs at the end are
    returned here besides being logged ([(0, 0)] when there is nothing to
    migrate).  The check mark and the cross of two log lines are the bytes
    of their UTF-8 encoding. *)
Definition migrate_embeddings : M (@Backend pyfloat) (Z * Z) :=
  perform logger_info "Starting embedding migration..." then
  fun b =>
    match
      (let* data := execute db Supabase.SelectWithoutEmbedding in
       let memories := data in
       let total := length memories in
       if (total =? 0)%nat
       then
         perform logger_info "No memories need migration. All done!" then
         ret (0, 0)
       else
         perform logger_info ("Found " +:+ pretty total +:+ " memories without embeddings") then
         let batch_size := 100%nat in
         let* counts :=
           for_each (imap (fun i batch => (i, batch)) (batches total batch_size memories))
                    (0, 0) (migrate_batch total) in
         let '(success_count, error_count) := counts in
         perform logger_info "==================================================" then
         perform logger_info "Migration complete!" then
         perform logger_info ("✓ Successful: " +:+ pretty success_count) then
         perform logger_info ("✗ Failed: " +:+ pretty error_count) then
         perform logger_info ("Total processed: " +:+ pretty (success_count + error_count)
                              +:+ "/" +:+ pretty total) then
         perform logger_info "==================================================" then
         ret counts) b
    with
    | (Ok counts, b') => (Ok counts, b')
    | (Raise e, b') =>
        if is_Exception e
        then (Raise e, snd (on_world (logging ERROR ("Migration failed: " +:+ msg e)) b'))
        else (Raise e, b')
    end.

End Script.

(** [embedding_service = None  # Initialized in main.py]: the value the
    script imports, as it never runs the startup handler of [main.py]. *)
Definition embedding_service_at_import {pyfloat : Type}
  : option (string -> M (@World pyfloat) (list pyfloat)) := None.

End Migration.

(* ===================================================================== *)
(** ** Situations the properties speak of                                *)
(* ===================================================================== *)

(** A live cache backend: the startup ping was answered and every later
    command reaches the server [srv]. *)
Definition live (srv : Redis.server) : RedisCache.t :=
  RedisCache.init (Redis.Client srv []).
Arguments live : simpl never.

(** The next command on the wire fails. *)
Definition next_command_fails (c : Redis.client) : Prop :=
  exists f rest, Redis.script c = f :: rest /\ f <> Redis.Reaches.


(** A degraded cache: the backend did not answer the
    startup ping of the constructor, or the operation's command fails with
    a connection error or timeout. *)
Definition degraded (c : RedisCache.t) : Prop :=
  (exists handle, next_command_fails handle /\ c = RedisCache.init handle)
  \/ (exists h, RedisCache.client c = Some h /\ next_command_fails h).

(** The wall clock of the server moves on by [dt] seconds. *)
Definition elapse (dt : Z) (c : RedisCache.t) : RedisCache.t :=
  match RedisCache.client c with
  | Some h =>
      RedisCache.Make
        (Some (Redis.Client (Redis.advance dt (Redis.server_of h)) (Redis.script h)))
        (RedisCache.enabled c)
  | None => c
  end.

Definition world_elapse {pyfloat : Type} (dt : Z) (w : @World pyfloat) : @World pyfloat :=
  MkWorld (elapse dt (cache w)) (db w) (api_calls w) (log w).

(** The datastore stores the next row and returns it. *)
Definition accepts {pyfloat : Type} (d : @Datastore pyfloat) : bool :=
  match replies d with
  | [] | ReplyRow :: _ => true
  | _ => false
  end.

(** The world from which [save_memory] starts: the one the embedding leg
    left, with the warning logged when that leg raised an [Exception]. *)
Definition before_save {pyfloat : Type} (r1 : result (list pyfloat))
    (w1 : @World pyfloat) : @World pyfloat :=
  match r1 with
  | Raise e =>
      if is_Exception e
      then MkWorld (cache w1) (db w1) (api_calls w1)
                   (log w1 ++ [(WARNING, "Failed to generate embedding: " +:+ msg e)])
      else w1
  | Ok _ => w1
  end.

(** The value [smart_copy] passes as [embedding]. *)
Definition passed_embedding {pyfloat : Type} (r1 : result (list pyfloat))
  : option (gathered (list pyfloat)) :=
  match r1 with
  | Ok v => Some (Value v)
  | Raise e => if is_Exception e then None else Some (ExcObject e)
  end.

(** The state of the queue without its log. *)
Definition queue_core (q : TaskQueue.t) :=
  (TaskQueue.queue q, TaskQueue.unfinished_tasks q, TaskQueue.workers q,
   TaskQueue.is_running q, TaskQueue.stop_at q).

(** The counter of the [asyncio.Queue] counts the items still queued and
    the tasks being executed. *)
Definition counter_sound (q : TaskQueue.t) : Prop :=
  TaskQueue.unfinished_tasks q
  = (length (TaskQueue.queue q) + TaskQueue.count_at TaskQueue.in_task q)%nat.

(** [stop()] waits in [queue.join()] with the flag lowered while more items
    are queued than workers wait in [queue.get()]. *)
Definition stop_is_stuck (q : TaskQueue.t) : Prop :=
  TaskQueue.is_running q = false
  /\ TaskQueue.stop_at q = TaskQueue.Joining
  /\ counter_sound q
  /\ Forall (fun w => TaskQueue.cancel_requested w = false) (TaskQueue.workers q)
  /\ (TaskQueue.count_at TaskQueue.in_get q < length (TaskQueue.queue q))%nat.

(** The server of a cache object, when it has one. *)
Definition server_of_cache (c : RedisCache.t) : option Redis.server :=
  Redis.server_of <$> RedisCache.client c.

(** A session id is pattern-free when none of its characters is special
    in a glob pattern. *)
Fixpoint pattern_free (s : string) : bool :=
  match s with
  | EmptyString => true
  | String c s' => negb (Redis.is_meta c) && pattern_free s'
  end.

(** What the cache lookup of [create_embedding] hands back to the code
    after [if cached_embedding:]: a stored vector that is not empty, when
    a cache was injected and answers. *)
Definition cached_vector {pyfloat : Type} `{!JsonCodec (list pyfloat)} `{!Sha256}
    (has_cache : bool) (text : string) (w : @World pyfloat) : option (list pyfloat) :=
  if has_cache
  then match fst (EmbeddingCache.get_embedding (truncate text) (cache w)) with
       | Ok (Some v) => if truthy_list v then Some v else None
       | _ => None
       end
  else None.

(** The effect of one worker step on the queue: the worker at [i] is
    replaced by [w] and the counter is lowered by [d], which wakes a
    pending [join()] when it reaches zero; the rest is as it was. *)
Definition steps_to (i : nat) (w : TaskQueue.worker) (d : nat) (q q' : TaskQueue.t) : Prop :=
  TaskQueue.queue q' = TaskQueue.queue q
  /\ (TaskQueue.unfinished_tasks q' + d = TaskQueue.unfinished_tasks q)%nat
  /\ TaskQueue.workers q' = <[i := w]> (TaskQueue.workers q)
  /\ TaskQueue.is_running q' = TaskQueue.is_running q
  /\ TaskQueue.stop_at q'
     = match d with
       | O => TaskQueue.stop_at q
       | S _ => TaskQueue.finished_set (TaskQueue.unfinished_tasks q') (TaskQueue.stop_at q)
       end
  /\ TaskQueue.num_workers q' = TaskQueue.num_workers q.

(** A task function that ends by returning or by raising an instance of
    [Exception]. *)
Definition ends_in_the_handler (o : TaskQueue.outcome) : bool :=
  match o with
  | TaskQueue.Returns => true
  | TaskQueue.Raises e => is_Exception e
  end.

Definition enqueues_in_the_handler (ev : TaskQueue.event) : bool :=
  match ev with
  | TaskQueue.Enqueue _ f => ends_in_the_handler f
  | _ => true
  end.

Definition is_enqueue (ev : TaskQueue.event) : bool :=
  match ev with
  | TaskQueue.Enqueue _ _ => true
  | _ => false
  end.

(** The worker coroutine is not over. *)
Definition at_work (p : TaskQueue.position) : bool :=
  match p with
  | TaskQueue.Finished => false
  | _ => true
  end.

(** A worker of an intact pool: in its loop, not cancelled, and executing
    only a task that ends in the handler. *)
Definition in_its_loop (w : TaskQueue.worker) : Prop :=
  TaskQueue.cancel_requested w = false
  /\ match TaskQueue.at_ w with
     | TaskQueue.Finished => False
     | TaskQueue.InTask t0 => ends_in_the_handler (TaskQueue.func t0) = true
     | _ => True
     end.

(** The queue runs, [stop()] was not called, and every worker is in its
    loop. *)
Definition pool_intact (n : nat) (q : TaskQueue.t) : Prop :=
  TaskQueue.is_running q = true
  /\ TaskQueue.stop_at q = TaskQueue.NotCalled
  /\ length (TaskQueue.workers q) = n
  /\ Forall in_its_loop (TaskQueue.workers q)
  /\ Forall (fun t0 => ends_in_the_handler (TaskQueue.func t0) = true) (TaskQueue.queue q).

(** How far the pending [stop()] is from returning: the workers that are
    not over yet, and the waits [stop()] still has before it. *)
Definition stop_rank (s : TaskQueue.stop_phase) : nat :=
  match s with
  | TaskQueue.NotCalled => 3
  | TaskQueue.Joining => 2
  | TaskQueue.Woken => 2
  | TaskQueue.Gathering => 1
  | TaskQueue.Returned => 0
  end.

Definition stop_distance (q : TaskQueue.t) : nat :=
  (TaskQueue.count_at at_work q + stop_rank (TaskQueue.stop_at q))%nat.

(** [stop()] is under way and nothing is queued; it waits in [join()]
    only while the counter is above zero. *)
Definition stopping_with_an_empty_queue (q : TaskQueue.t) : Prop :=
  TaskQueue.is_running q = false
  /\ TaskQueue.queue q = []
  /\ counter_sound q
  /\ TaskQueue.stop_at q <> TaskQueue.NotCalled
  /\ (TaskQueue.stop_at q = TaskQueue.Returned -> TaskQueue.workers q = [])
  /\ (TaskQueue.stop_at q = TaskQueue.Joining -> TaskQueue.unfinished_tasks q <> 0%nat).


(** Every element's key is at least the key of each later element. *)
Fixpoint is_descending {A} (key : A -> QArith_base.Q) (l : list A) : Prop :=
  match l with
  | [] => True
  | a :: l' =>
      Forall (fun b => QArith_base.Qle (key b) (key a)) l' /\ is_descending key l'
  end.

(** A text made of white space only (the empty text included). *)
Fixpoint only_white_space (s : string) : bool :=
  match s with
  | EmptyString => true
  | String c s' => Str.is_space c && only_white_space s'
  end.


(** The inputs sent to the summarization provider, in their order. *)
Definition claude_inputs {pyfloat : Type} (l : list (@request pyfloat)) : list string :=
  omap (fun r => match r with
                 | ToClaude input => Some input
                 | ToDatastore _ => None
                 end) l.

(** The state of the services once [dt] seconds have passed. *)
Definition backend_elapse {pyfloat : Type} (dt : Z) (b : @Backend pyfloat) : @Backend pyfloat :=
  MkBackend (world_elapse dt (world b)) (requests b).

(** A call that ends by returning or by raising an instance of
    [Exception]. *)
Definition raises_exceptions_only {S A} (m : M S A) : Prop :=
  forall s e, fst (m s) = Raise e -> is_Exception e = true.
(* ===================================================================== *)
(** ** Instances for the closed examples                                 *)
(* ===================================================================== *)

(** The general statements hold for every JSON codec.  The closed examples
    need one: JSON arrays over the two numbers 0 and 1, printed as Python
    prints them. *)
Module Sample.

Inductive num := N0 | N1.

Definition tok (d : num) : ascii :=
  match d with N0 => "0" | N1 => "1" end%char.

Definition untok (c : ascii) : option num :=
  if Redis.ascii_eqb c "0" then Some N0
  else if Redis.ascii_eqb c "1" then Some N1
  else None.

Fixpoint dumps_tail (l : list num) : string :=
  match l with
  | [] => "]"
  | d :: l' => String "," (String " " (String (tok d) (dumps_tail l')))
  end.

Definition dumps (l : list num) : string :=
  match l with
  | [] => "[]"
  | d :: l' => String "[" (String (tok d) (dumps_tail l'))
  end.

Fixpoint loads_tail (s : string) : option (list num) :=
  match s with
  | String c1 EmptyString => if Redis.ascii_eqb c1 "]" then Some [] else None
  | String c1 (String c2 (String c3 rest)) =>
      if Redis.ascii_eqb c1 "," && Redis.ascii_eqb c2 " "
      then match untok c3, loads_tail rest with
           | Some d, Some l => Some (d :: l)
           | _, _ => None
           end
      else None
  | _ => None
  end.

Definition loads (s : string) : result (list num) :=
  let error := Raise (Exn JSONDecodeError "Expecting value") in
  match s with
  | String c1 (String c2 rest) =>
      if Redis.ascii_eqb c1 "[" then
        if Redis.ascii_eqb c2 "]" then
          match rest with EmptyString => Ok [] | _ => error end
        else
          match untok c2, loads_tail rest with
          | Some d, Some l => Ok (d :: l)
          | _, _ => error
          end
      else error
  | _ => error
  end.

Lemma untok_tok d : untok (tok d) = Some d.
Proof. destruct d; reflexivity. Qed.

Lemma loads_tail_dumps_tail l : loads_tail (dumps_tail l) = Some l.
Proof.
  induction l as [|d l IH]; [reflexivity|].
  cbn [dumps_tail loads_tail].
  change (Redis.ascii_eqb "," "," && Redis.ascii_eqb " " " ") with true.
  cbv iota. rewrite untok_tok, IH. reflexivity.
Qed.

Lemma loads_dumps l : loads (dumps l) = Ok l.
Proof.
  destruct l as [|d l]; [reflexivity|].
  unfold dumps, loads.
  change (Redis.ascii_eqb "[" "[") with true. cbv iota.
  replace (Redis.ascii_eqb (tok d) "]") with false by (destruct d; reflexivity).
  rewrite untok_tok, loads_tail_dumps_tail. reflexivity.
Qed.

Lemma dumps_truthy l : truthy_str (dumps l) = true.
Proof. destruct l; reflexivity. Qed.

Lemma loads_error s e : loads s = Raise e -> is_Exception e = true.
Proof.
  unfold loads. intros H.
  repeat match type of H with
         | context [match ?x with _ => _ end] => destruct x
         end; try discriminate; injection H as <-; reflexivity.
Qed.

#[global] Instance json_codec : JsonCodec (list num) :=
  {| json_dumps := dumps;
     json_loads := loads;
     json_loads_dumps := loads_dumps;
     json_dumps_truthy := dumps_truthy;
     json_loads_error := loads_error |}.

End Sample.

(** A datastore for the closed examples: one session and its memories, in
    the order of their creation.  The vector functions are not installed
    in it. *)
Module Samples.

Definition for_session {A} (session : @Supabase.session_row) (session_id : string)
    (l : list A) : list A :=
  if bool_decide (session_id = Supabase.s_id session) then l else [].

Definition datastore (session : @Supabase.session_row)
    (memories : list (@Supabase.memory_view)) : @Supabase.client Sample.num :=
  fun A q =>
    match q in Supabase.query A return result A with
    | Supabase.SelectSession session_id => Ok (for_session session session_id [session])
    | Supabase.SelectMemories session_id first last =>
        Ok (for_session session session_id
              (take (Z.to_nat (last - first + 1)) (drop (Z.to_nat first) memories)))
    | Supabase.CountMemories session_id =>
        Ok (Some (Z.of_nat (length (for_session session session_id memories))))
    | Supabase.SelectTexts session_id =>
        Ok (for_session session session_id
              (map (fun m => Supabase.TextRow (Supabase.m_id m) (Supabase.m_processed_text m))
                   memories))
    | Supabase.UpdateSession session_id _ => Ok (for_session session session_id [session])
    | Supabase.DeleteSession _ => Ok tt
    | Supabase.MatchSessionMemories _ _ _ _ =>
        Raise (Exn APIError "Could not find the function match_session_memories")
    | Supabase.FindSimilarMemories _ _ _ _ =>
        Raise (Exn APIError "Could not find the function find_similar_memories")
    | Supabase.SelectWithoutEmbedding =>
        Ok (map (fun m => Supabase.TextRow (Supabase.m_id m) (Supabase.m_processed_text m))
                memories)
    | Supabase.UpdateEmbedding _ _ => Ok tt
    end.

Definition work : @Supabase.session_row :=
  Supabase.SessionRow "abc" "u1" "Work" "W" None "2025-01-01T10:00:00" None ["m1"; "m2"; "m3"].

Definition notes : list (@Supabase.memory_view) :=
  [Supabase.MemoryView "m1" "Redis cache keys expire after one hour" "2025-01-01T10:01:00";
   Supabase.MemoryView "m2" "The task queue has two workers" "2025-01-01T10:02:00";
   Supabase.MemoryView "m3" "Cache invalidation runs after the insert" "2025-01-01T10:03:00"].

(** A world with a live, empty cache and an empty table. *)
Definition fresh : @Backend Sample.num :=
  MkBackend (MkWorld (live (Redis.Server ∅ 0)) (MkDatastore [] []) [] []) [].

End Samples.

(* ===================================================================== *)
(** ** The models of the collaborators on known values                   *)
(* ===================================================================== *)

Example sha256_of_the_empty_text :
  sha256hex "" = "e3b0c44298fc1c149afbf4c8996fb92427ae41e4649b934ca495991b7852b855".
Proof. vm_compute. reflexivity. Qed.

Example sha256_of_abc :
  sha256hex "abc" = "ba7816bf8f01cfea414140de5dae2223b00361a396177a9cb410ff61f20015ad".
Proof. vm_compute. reflexivity. Qed.

(** [hashlib.sha256("caf\u00e9".encode("utf-8")).hexdigest()]: the last
    character is hashed as the two bytes [c3 a9]. *)
Example sha256_of_a_text_outside_ascii :
  sha256hex (String "c" (String "a" (String "f" (String "233" EmptyString))))
  = "850f7dc43910ff890f8879c0ed26fe697c93a067ad93a7d50f466a7028a9bf4e".
Proof. vm_compute. reflexivity. Qed.

Example embedding_key_of_hello :
  EmbeddingCache._embedding_key "hello"
  = "embed:v1:2cf24dba5fb0a30e26e83b2ac5b9e29e1b161e5c1fa7425e73043362938b9824".
Proof. vm_compute. reflexivity. Qed.

(** The patterns of the Redis documentation of [KEYS]. *)
Example glob_question_mark :
  Redis.glob_match "h?llo" "hello" = true /\ Redis.glob_match "h?llo" "hallo" = true
  /\ Redis.glob_match "h?llo" "hllo" = false.
Proof. repeat split. Qed.

Example glob_star :
  Redis.glob_match "h*llo" "hllo" = true /\ Redis.glob_match "h*llo" "heeeello" = true
  /\ Redis.glob_match "h*llo" "hell" = false.
Proof. repeat split. Qed.

Example glob_class :
  Redis.glob_match "h[ae]llo" "hello" = true /\ Redis.glob_match "h[ae]llo" "hallo" = true
  /\ Redis.glob_match "h[ae]llo" "hillo" = false.
Proof. repeat split. Qed.

Example glob_negated_class :
  Redis.glob_match "h[^e]llo" "hallo" = true /\ Redis.glob_match "h[^e]llo" "hbllo" = true
  /\ Redis.glob_match "h[^e]llo" "hello" = false.
Proof. repeat split. Qed.

Example glob_range :
  Redis.glob_match "h[a-b]llo" "hallo" = true /\ Redis.glob_match "h[a-b]llo" "hbllo" = true
  /\ Redis.glob_match "h[a-b]llo" "hcllo" = false.
Proof. repeat split. Qed.

Example glob_session_keys :
  Redis.glob_match "session:abc:*" "session:abc:memories" = true
  /\ Redis.glob_match "session:abc:*" "session:abc:description" = true
  /\ Redis.glob_match "session:abc:*" "session:abc" = false
  /\ Redis.glob_match "session:abc:*" "session:abcd:memories" = false.
Proof. repeat split. Qed.

Example json_of_a_sample_vector :
  json_dumps [Sample.N1; Sample.N0] = "[1, 0]"
  /\ json_loads "[1, 0]" = Ok [Sample.N1; Sample.N0]
  /\ json_dumps ([] : list Sample.num) = "[]".
Proof. repeat split. Qed.

(** A key written with [SETEX key 600 value] at time 0 is there at 599 s
    and gone at 600 s. *)
Example setex_expiry :
  let after_write := snd (Redis.SETEX "k" 600 "v" (Redis.Server ∅ 0)) in
  Redis.GET "k" (Redis.advance 599 after_write) = Some "v"
  /\ Redis.GET "k" (Redis.advance 600 after_write) = None.
Proof. vm_compute. split; reflexivity. Qed.

(* ===================================================================== *)
(** ** Facts about the monad and the server                              *)
(* ===================================================================== *)

Lemma command_reaches {A} (f : Redis.server -> result A * Redis.server) srv :
  Redis.command f (Redis.Client srv []) =
  (fst (f srv), Redis.Client (snd (f srv)) []).
Proof. unfold Redis.command; simpl. destruct (f srv); reflexivity. Qed.

Lemma command_fails {A} (f : Redis.server -> result A * Redis.server) c :
  next_command_fails c ->
  exists e c', Redis.command f c = (Raise e, c') /\ is_Exception e = true.
Proof.
  intros (flt & rest & Hs & Hne). unfold Redis.command. rewrite Hs.
  destruct flt; [congruence | |]; eexists _, _; split; reflexivity.
Qed.

Lemma live_eq srv : live srv = RedisCache.Make (Some (Redis.Client srv [])) true.
Proof. reflexivity. Qed.

Lemma get_live k srv :
  RedisCache.get k (live srv) =
  (Ok (match Redis.GET k srv with
       | Some v => if truthy_str v then Some v else None
       | None => None
       end), live srv).
Proof.
  rewrite live_eq. unfold RedisCache.get, try_except, bind, RedisCache.call; simpl.
  destruct (Redis.GET k srv) as [v|]; [destruct (truthy_str v)|]; reflexivity.
Qed.

Lemma set_live k v ttl srv :
  0 < ttl < Redis.max_seconds ->
  RedisCache.set k v ttl (live srv) =
  (Ok true,
   live (Redis.Server (<[k := Redis.Entry v (Some (Redis.now srv + ttl))]> (Redis.store srv))
                      (Redis.now srv))).
Proof.
  intros Httl. rewrite !live_eq.
  unfold RedisCache.set, try_except, bind, RedisCache.call; simpl.
  unfold Redis.setex, Redis.command, Redis.SETEX; simpl.
  destruct (Z.leb_spec ttl 0); [lia|].
  destruct (Z.leb_spec Redis.max_seconds ttl); [lia|]. reflexivity.
Qed.

Lemma delete_live k srv :
  RedisCache.delete k (live srv) = (Ok true, live (Redis.DEL [k] srv)).
Proof.
  rewrite !live_eq. unfold RedisCache.delete, try_except, bind, RedisCache.call; simpl.
  reflexivity.
Qed.

Lemma DEL_nil srv : Redis.DEL [] srv = srv.
Proof. destruct srv; reflexivity. Qed.

Lemma delete_pattern_live p srv :
  RedisCache.delete_pattern p (live srv) =
  (Ok true, live (Redis.DEL (Redis.KEYS p srv) srv)).
Proof.
  rewrite !live_eq.
  unfold RedisCache.delete_pattern, try_except, bind, RedisCache.call; simpl.
  destruct (Redis.KEYS p srv) as [|k ks] eqn:E; simpl.
  - rewrite DEL_nil. reflexivity.
  - reflexivity.
Qed.

Lemma lookup_foldr_delete (m : gmap string Redis.entry) ks k :
  foldr delete m ks !! k = if bool_decide (k ∈ ks) then None else m !! k.
Proof.
  induction ks as [|a ks IH]; simpl.
  - reflexivity.
  - destruct (decide (a = k)) as [->|Hne].
    + rewrite lookup_delete_eq.
      rewrite bool_decide_eq_true_2 by (apply elem_of_cons; left; reflexivity).
      reflexivity.
    + rewrite lookup_delete_ne by exact Hne. rewrite IH.
      assert (Hiff : k ∈ a :: ks <-> k ∈ ks).
      { rewrite elem_of_cons. split; [intros [Heq|Hin]; [congruence | exact Hin] | auto]. }
      rewrite (bool_decide_ext _ _ Hiff). reflexivity.
Qed.

Lemma GET_DEL ks srv k :
  Redis.GET k (Redis.DEL ks srv) =
  if bool_decide (k ∈ ks) then None else Redis.GET k srv.
Proof.
  unfold Redis.GET, Redis.lookup_live, Redis.DEL; simpl.
  rewrite lookup_foldr_delete. destruct (bool_decide (k ∈ ks)); reflexivity.
Qed.

Lemma GET_SETEX_same k v ttl srv :
  Redis.GET k (Redis.Server (<[k := Redis.Entry v (Some (Redis.now srv + ttl))]> (Redis.store srv))
                            (Redis.now srv)) =
  if bool_decide (0 < ttl) then Some v else None.
Proof.
  unfold Redis.GET, Redis.lookup_live; simpl. rewrite lookup_insert_eq.
  unfold Redis.alive; simpl.
  destruct (decide (0 < ttl)).
  - rewrite !bool_decide_eq_true_2 by lia. reflexivity.
  - rewrite !bool_decide_eq_false_2 by lia. reflexivity.
Qed.

(* ===================================================================== *)
(** ** KeyValueStore: best-effort operations                             *)
(* ===================================================================== *)

Lemma init_down handle :
  next_command_fails handle -> RedisCache.init handle = RedisCache.Make None false.
Proof.
  intros H. unfold RedisCache.init, Redis.ping.
  destruct (command_fails (fun s => (Ok tt, s)) handle H) as (e & c' & -> & _).
  reflexivity.
Qed.

Lemma init_up srv script :
  RedisCache.init (Redis.Client srv (Redis.Reaches :: script)) =
  RedisCache.Make (Some (Redis.Client srv script)) true.
Proof. reflexivity. Qed.

(** An operation on a cache whose next command fails: the [except] branch
    is taken. *)
Lemma call_fails {A} (m : Redis.server -> result A * Redis.server) c h :
  RedisCache.client c = Some h -> next_command_fails h ->
  exists e c', RedisCache.call (Redis.command m) c = (Raise e, c')
               /\ is_Exception e = true.
Proof.
  intros Hc Hf. unfold RedisCache.call. rewrite Hc.
  destruct (command_fails m h Hf) as (e & h' & -> & He). eauto.
Qed.

Lemma get_fails key c h :
  RedisCache.client c = Some h -> next_command_fails h ->
  fst (RedisCache.get key c) = Ok None.
Proof.
  intros Hc Hf. unfold RedisCache.get.
  destruct (RedisCache.unavailable c); [reflexivity|].
  unfold try_except, bind, Redis.get.
  destruct (call_fails (fun s => (Ok (Redis.GET key s), s)) c h Hc Hf)
    as (e & c' & -> & ->).
  reflexivity.
Qed.

Lemma set_fails key value ttl c h :
  RedisCache.client c = Some h -> next_command_fails h ->
  fst (RedisCache.set key value ttl c) = Ok false.
Proof.
  intros Hc Hf. unfold RedisCache.set.
  destruct (RedisCache.unavailable c); [reflexivity|].
  unfold try_except, bind, Redis.setex.
  destruct (call_fails (Redis.SETEX key ttl value) c h Hc Hf) as (e & c' & -> & ->).
  reflexivity.
Qed.

Lemma delete_fails key c h :
  RedisCache.client c = Some h -> next_command_fails h ->
  fst (RedisCache.delete key c) = Ok false.
Proof.
  intros Hc Hf. unfold RedisCache.delete.
  destruct (RedisCache.unavailable c); [reflexivity|].
  unfold try_except, bind, Redis.delete_keys.
  destruct (call_fails (fun s => (Ok tt, Redis.DEL [key] s)) c h Hc Hf)
    as (e & c' & -> & ->).
  reflexivity.
Qed.

Lemma delete_pattern_fails pattern c h :
  RedisCache.client c = Some h -> next_command_fails h ->
  fst (RedisCache.delete_pattern pattern c) = Ok false.
Proof.
  intros Hc Hf. unfold RedisCache.delete_pattern.
  destruct (RedisCache.unavailable c); [reflexivity|].
  unfold try_except, bind, Redis.keys.
  destruct (call_fails (fun s => (Ok (Redis.KEYS pattern s), s)) c h Hc Hf)
    as (e & c' & -> & ->).
  reflexivity.
Qed.

(** The second command of [delete_pattern] ([DEL] of the keys found) fails. *)
Lemma delete_pattern_fails_late pattern srv f rest :
  f <> Redis.Reaches -> Redis.KEYS pattern srv <> [] ->
  fst (RedisCache.delete_pattern pattern
         (RedisCache.Make (Some (Redis.Client srv (Redis.Reaches :: f :: rest))) true))
  = Ok false.
Proof.
  intros Hf Hk. unfold RedisCache.delete_pattern, try_except, bind; simpl.
  destruct (Redis.KEYS pattern srv) as [|k ks]; [congruence|]. simpl.
  destruct f; [congruence| |]; reflexivity.
Qed.

(** No operation raises, whatever the state of the cache object and of
    the connection. *)
Lemma operations_never_raise c key value ttl pattern :
  is_Ok (fst (RedisCache.get key c)) = true
  /\ is_Ok (fst (RedisCache.set key value ttl c)) = true
  /\ is_Ok (fst (RedisCache.delete key c)) = true
  /\ is_Ok (fst (RedisCache.delete_pattern pattern c)) = true.
Proof.
  destruct c as [[[srv scr]|] en].
  2:{ destruct en; repeat split; reflexivity. }
  destruct en; [|repeat split; reflexivity].
  repeat split.
  - unfold RedisCache.get, try_except, bind; simpl.
    destruct scr as [|[] scr]; simpl; try reflexivity;
      destruct (Redis.GET key srv) as [v|]; [destruct (truthy_str v)| | destruct (truthy_str v)|];
      reflexivity.
  - unfold RedisCache.set, try_except, bind, Redis.setex, Redis.command, Redis.SETEX; simpl.
    destruct scr as [|[] scr]; simpl; try reflexivity;
      destruct (ttl <=? 0), (Redis.max_seconds <=? ttl); reflexivity.
  - unfold RedisCache.delete, try_except, bind; simpl.
    destruct scr as [|[] scr]; reflexivity.
  - unfold RedisCache.delete_pattern, try_except, bind; simpl.
    destruct scr as [|[] scr]; simpl; try reflexivity;
      destruct (Redis.KEYS pattern srv) as [|k ks]; simpl; try reflexivity.
    destruct scr as [|[] scr]; reflexivity.
Qed.

(** C5. On a cache that is degraded (backend down at startup, or the
    command of the operation hits a connection error or timeout), [get]
    returns the absent result [None] and [set], [delete] and
    [delete_pattern] return [False]; the result is a returned value, so
    nothing is raised to the caller. *)
Theorem C5_degraded_operations_return_absent
    (c : RedisCache.t) (key value pattern : string) (ttl : Z) :
  degraded c ->
  fst (RedisCache.get key c) = Ok None
  /\ fst (RedisCache.set key value ttl c) = Ok false
  /\ fst (RedisCache.delete key c) = Ok false
  /\ fst (RedisCache.delete_pattern pattern c) = Ok false.
Proof.
  intros [(handle & Hf & ->) | (h & Hc & Hf)].
  - rewrite (init_down handle Hf). repeat split; reflexivity.
  - repeat split.
    + exact (get_fails key c h Hc Hf).
    + exact (set_fails key value ttl c h Hc Hf).
    + exact (delete_fails key c h Hc Hf).
    + exact (delete_pattern_fails pattern c h Hc Hf).
Qed.

(** The scenario of the specification: the backend is down at startup;
    [get("session:abc")] is absent and [set] is [False]. *)
Lemma C5_witness_down_at_startup :
  let c := RedisCache.init (Redis.Client (Redis.Server ∅ 0) [Redis.ConnectionFails]) in
  fst (RedisCache.get "session:abc" c) = Ok None
  /\ fst (RedisCache.set "session:abc" "{}" 3600 c) = Ok false
  /\ fst (RedisCache.delete "session:abc" c) = Ok false
  /\ fst (RedisCache.delete_pattern "session:abc:*" c) = Ok false.
Proof.
  apply (C5_degraded_operations_return_absent
           (RedisCache.init (Redis.Client (Redis.Server ∅ 0) [Redis.ConnectionFails]))
           "session:abc" "{}" "session:abc:*" 3600).
  left. exists (Redis.Client (Redis.Server ∅ 0) [Redis.ConnectionFails]).
  split; [|reflexivity].
  exists Redis.ConnectionFails, []. split; [reflexivity | discriminate].
Defined.

(* ===================================================================== *)
(** ** SessionCache on a live backend                                    *)
(* ===================================================================== *)

Lemma elapse_live dt srv : elapse dt (live srv) = live (Redis.advance dt srv).
Proof. reflexivity. Qed.

Lemma GET_after_SETEX_and_wait k v ttl dt srv :
  Redis.GET k
    (Redis.advance dt
       (Redis.Server (<[k := Redis.Entry v (Some (Redis.now srv + ttl))]> (Redis.store srv))
                     (Redis.now srv))) =
  if bool_decide (dt < ttl) then Some v else None.
Proof.
  unfold Redis.GET, Redis.lookup_live, Redis.advance; simpl.
  rewrite lookup_insert_eq. unfold Redis.alive; simpl.
  destruct (decide (dt < ttl)).
  - rewrite !bool_decide_eq_true_2 by lia. reflexivity.
  - rewrite !bool_decide_eq_false_2 by lia. reflexivity.
Qed.

Lemma set_session_description_live sid d srv :
  SessionCache.set_session_description sid d (live srv) =
  (Ok tt,
   live (Redis.Server
           (<[SessionCache._session_description_key sid :=
                Redis.Entry d (Some (Redis.now srv + 3600))]> (Redis.store srv))
           (Redis.now srv))).
Proof.
  unfold SessionCache.set_session_description, try_except, bind.
  rewrite set_live by (unfold RedisCache.default_ttl_seconds, Redis.max_seconds; lia).
  reflexivity.
Qed.

Lemma get_session_description_live sid srv :
  SessionCache.get_session_description sid (live srv) =
  (Ok (match Redis.GET (SessionCache._session_description_key sid) srv with
       | Some v => if truthy_str v then Some v else None
       | None => None
       end), live srv).
Proof.
  unfold SessionCache.get_session_description, try_except, bind.
  rewrite get_live.
  destruct (Redis.GET _ srv) as [v|]; [|reflexivity].
  destruct (truthy_str v) eqn:E; [rewrite E|]; reflexivity.
Qed.

(** Within the hour the description is served from the cache. *)
Lemma description_readable_within_ttl sid d srv dt :
  truthy_str d = true -> dt < 3600 ->
  fst (SessionCache.get_session_description sid
         (elapse dt (snd (SessionCache.set_session_description sid d (live srv)))))
  = Ok (Some d).
Proof.
  intros Hd Hdt. rewrite set_session_description_live; simpl snd.
  rewrite elapse_live, get_session_description_live; simpl fst.
  rewrite GET_after_SETEX_and_wait, bool_decide_eq_true_2 by lia.
  rewrite Hd. reflexivity.
Qed.

(** C1 (the code departs from the specification). [set_session_description] passes
    no [ttl_seconds], so the entry is written with the default of 3600
    seconds: once an hour or more has passed, with no invalidation at all,
    [get_session_description] misses. *)
Theorem C1_description_expires_after_one_hour
    (sid d : string) (srv : Redis.server) (dt : Z) :
  3600 <= dt ->
  fst (SessionCache.get_session_description sid
         (elapse dt (snd (SessionCache.set_session_description sid d (live srv)))))
  = Ok None.
Proof.
  intros Hdt. rewrite set_session_description_live; simpl snd.
  rewrite elapse_live, get_session_description_live; simpl fst.
  rewrite GET_after_SETEX_and_wait, bool_decide_eq_false_2 by lia.
  reflexivity.
Qed.

(** The scenario of the specification: the description of session "abc" is
    cached once and the clock is advanced by 24 hours. *)
Lemma C1_witness_24_hours :
  fst (SessionCache.get_session_description "abc"
         (elapse 86400
            (snd (SessionCache.set_session_description "abc" "Notes on the cache layer"
                    (live (Redis.Server ∅ 0))))))
  = Ok None.
Proof.
  apply (C1_description_expires_after_one_hour
           "abc" "Notes on the cache layer" (Redis.Server ∅ 0) 86400).
  lia.
Defined.

(* ===================================================================== *)
(** ** Empty values and cache misses                                     *)
(* ===================================================================== *)

(** [RedisCache.get] on any cache object: an empty stored value is
    reported as [None]. *)
Lemma get_empty_value_is_miss c h key :
  RedisCache.client c = Some h ->
  Redis.GET key (Redis.server_of h) = Some "" ->
  fst (RedisCache.get key c) = Ok None.
Proof.
  intros Hc Hv. destruct c as [cl en]; simpl in Hc; subst cl.
  destruct h as [srv scr]; simpl in Hv.
  unfold RedisCache.get. destruct en; [|reflexivity].
  unfold try_except, bind; simpl.
  destruct scr as [|[] scr]; simpl; rewrite ?Hv; reflexivity.
Qed.

Section EmbeddingCacheFacts.
Context {pyfloat : Type} `{!JsonCodec (list pyfloat)} `{!Sha256}.

Lemma get_embedding_live text srv :
  EmbeddingCache.get_embedding text (live srv) =
  (Ok (match Redis.GET (EmbeddingCache._embedding_key text) srv with
       | Some c =>
           if truthy_str c
           then match json_loads c with Ok v => Some v | Raise _ => None end
           else None
       | None => None
       end), live srv).
Proof.
  unfold EmbeddingCache.get_embedding, try_except, bind, lift_result.
  rewrite get_live.
  destruct (Redis.GET _ srv) as [c|]; [|reflexivity].
  destruct (truthy_str c) eqn:E; [rewrite E|reflexivity].
  destruct (json_loads c) as [v|e] eqn:L; [reflexivity|].
  rewrite (json_loads_error c e L). reflexivity.
Qed.

Lemma save_embedding_live text v ttl srv :
  0 < ttl < Redis.max_seconds ->
  EmbeddingCache.save_embedding text v ttl (live srv) =
  (Ok tt,
   live (Redis.Server
           (<[EmbeddingCache._embedding_key text :=
                Redis.Entry (json_dumps v) (Some (Redis.now srv + ttl))]> (Redis.store srv))
           (Redis.now srv))).
Proof.
  intros Httl. unfold EmbeddingCache.save_embedding, try_except, bind.
  rewrite set_live by exact Httl. reflexivity.
Qed.

(** A stored encoded vector is handed back by [get_embedding] as it is,
    the empty one included. *)
Lemma get_embedding_stored text v srv :
  Redis.GET (EmbeddingCache._embedding_key text) srv = Some (json_dumps v) ->
  EmbeddingCache.get_embedding text (live srv) = (Ok (Some v), live srv).
Proof.
  intros Hv. rewrite get_embedding_live, Hv, json_dumps_truthy, json_loads_dumps.
  reflexivity.
Qed.

End EmbeddingCacheFacts.

(* ===================================================================== *)
(** ** EmbeddingService.create_embedding on a live backend               *)
(* ===================================================================== *)

Section CreateEmbeddingFacts.
Context {pyfloat : Type} `{!JsonCodec (list pyfloat)} `{!Sha256}.
Implicit Types (v : list pyfloat) (d : @Datastore pyfloat).

(** The cache misses, the provider is asked and its answer is stored. *)
Lemma generate_live api text v srv d calls lg :
  api text = Ok v ->
  generate true api text (MkWorld (live srv) d calls lg) =
  (Ok v,
   MkWorld
     (live (Redis.Server
              (<[EmbeddingCache._embedding_key text :=
                   Redis.Entry (json_dumps v) (Some (Redis.now srv + 86400))]>
                 (Redis.store srv))
              (Redis.now srv)))
     d (calls ++ [text]) lg).
Proof.
  intros Hapi. unfold generate, bind, embeddings_create, on_cache, zoom; simpl.
  rewrite Hapi. reflexivity.
Qed.

Lemma create_embedding_miss api text v srv d calls lg :
  Redis.GET (EmbeddingCache._embedding_key (truncate text)) srv = None ->
  api (truncate text) = Ok v ->
  create_embedding true api text (MkWorld (live srv) d calls lg) =
  (Ok v,
   MkWorld
     (live (Redis.Server
              (<[EmbeddingCache._embedding_key (truncate text) :=
                   Redis.Entry (json_dumps v) (Some (Redis.now srv + 86400))]>
                 (Redis.store srv))
              (Redis.now srv)))
     d (calls ++ [truncate text]) lg).
Proof.
  intros Hmiss Hapi. unfold create_embedding, try_except, bind.
  unfold on_cache at 1, zoom; simpl cache.
  rewrite get_embedding_live, Hmiss. cbn [fst snd db api_calls log cache].
  rewrite (generate_live api (truncate text) v srv d calls lg Hapi).
  reflexivity.
Qed.

Lemma create_embedding_hit api text v srv d calls lg :
  Redis.GET (EmbeddingCache._embedding_key (truncate text)) srv = Some (json_dumps v) ->
  truthy_list v = true ->
  create_embedding true api text (MkWorld (live srv) d calls lg) =
  (Ok v, MkWorld (live srv) d calls lg).
Proof.
  intros Hhit Hv. unfold create_embedding, try_except, bind.
  unfold on_cache, zoom; simpl cache.
  rewrite (get_embedding_stored (truncate text) v srv Hhit). rewrite Hv.
  reflexivity.
Qed.

(** A stored empty vector is read back, found falsy by
    [if cached_embedding:], and the provider is asked again. *)
Lemma create_embedding_empty_is_regenerated api text srv d calls lg :
  Redis.GET (EmbeddingCache._embedding_key (truncate text)) srv = Some (json_dumps []) ->
  api_calls (snd (create_embedding true api text (MkWorld (live srv) d calls lg)))
  = (calls ++ [truncate text])%list.
Proof.
  intros Hhit. unfold create_embedding, try_except, bind.
  unfold on_cache at 1, zoom; simpl cache.
  rewrite (get_embedding_stored (truncate text) [] srv Hhit). simpl truthy_list. cbv iota.
  unfold generate, bind, embeddings_create.
  destruct (api (truncate text)) as [v|e] eqn:Hapi.
  - unfold on_cache, zoom; simpl. reflexivity.
  - simpl. destruct (is_Exception e); reflexivity.
Qed.

End CreateEmbeddingFacts.

(* ===================================================================== *)
(** ** C8 and C10                                                        *)
(* ===================================================================== *)

Lemma truncate_short text : str_len text <= 30000 -> truncate text = text.
Proof.
  intros H. unfold truncate. destruct (Z.ltb_spec 30000 (str_len text)); [lia|reflexivity].
Qed.

(** C8. The embedding cache addresses a text by the key
    [embed:v1:{sha256hex(text)}].  On a live cache backend, when a first
    [create_embedding(text)] finds nothing cached and stores the vector [v]
    the provider answers (a real embedding, so not the empty list), a
    second call with the same text, made before the 86400 s of the entry
    run out, returns [v] and leaves the world as it is: the provider is
    not asked again, whatever it would answer. *)
Theorem C8_second_call_is_served_from_cache
    {pyfloat : Type} `{!JsonCodec (list pyfloat)} `{!Sha256}
    (text : string) (srv : Redis.server) (d : @Datastore pyfloat)
    (calls : list string) (lg : list (level * string))
    (api1 api2 : string -> result (list pyfloat)) (v : list pyfloat) (dt : Z) :
  Redis.GET (EmbeddingCache._embedding_key (truncate text)) srv = None ->
  api1 (truncate text) = Ok v ->
  v <> [] ->
  dt < 86400 ->
  let w0 := MkWorld (live srv) d calls lg in
  let w1 := snd (create_embedding true api1 text w0) in
  (forall t, EmbeddingCache._embedding_key t = "embed:v1:" +:+ sha256hex t)
  /\ fst (create_embedding true api1 text w0) = Ok v
  /\ (server_of_cache (cache w1)
        ≫= Redis.GET ("embed:v1:" +:+ sha256hex (truncate text))) = Some (json_dumps v)
  /\ create_embedding true api2 text (world_elapse dt w1) = (Ok v, world_elapse dt w1)
  /\ api_calls (snd (create_embedding true api2 text (world_elapse dt w1))) = api_calls w1.
Proof.
  intros Hmiss Hapi Hv Hdt w0 w1. subst w0 w1.
  rewrite (create_embedding_miss api1 text v srv d calls lg Hmiss Hapi).
  cbn [fst snd cache api_calls].
  assert (Hhit :
    create_embedding true api2 text
      (world_elapse dt
         (MkWorld
            (live (Redis.Server
                     (<[EmbeddingCache._embedding_key (truncate text) :=
                          Redis.Entry (json_dumps v) (Some (Redis.now srv + 86400))]>
                        (Redis.store srv))
                     (Redis.now srv)))
            d (calls ++ [truncate text]) lg))
    = (Ok v,
       world_elapse dt
         (MkWorld
            (live (Redis.Server
                     (<[EmbeddingCache._embedding_key (truncate text) :=
                          Redis.Entry (json_dumps v) (Some (Redis.now srv + 86400))]>
                        (Redis.store srv))
                     (Redis.now srv)))
            d (calls ++ [truncate text]) lg))).
  { unfold world_elapse; cbn [cache db api_calls log]. rewrite elapse_live.
    apply create_embedding_hit.
    - rewrite GET_after_SETEX_and_wait, bool_decide_eq_true_2 by lia. reflexivity.
    - destruct v; [congruence | reflexivity]. }
  repeat split.
  - unfold server_of_cache. rewrite live_eq. cbn.
    change ("embed:v1:" +:+ sha256hex (truncate text))
      with (EmbeddingCache._embedding_key (truncate text)).
    rewrite GET_SETEX_same. reflexivity.
  - exact Hhit.
  - rewrite Hhit. reflexivity.
Qed.

(** A text is embedded with the vector [1, 0]; an hour later the provider
    is down and the same text is asked for again. *)
Lemma C8_witness_hello :
  let w1 := snd (create_embedding true (fun _ => Ok [Sample.N1; Sample.N0]) "hello"
                   (MkWorld (live (Redis.Server ∅ 0)) (MkDatastore [] []) [] [])) in
  create_embedding true (fun _ => Raise (Exn APIError "503")) "hello" (world_elapse 3600 w1)
  = (Ok [Sample.N1; Sample.N0], world_elapse 3600 w1).
Proof.
  apply (C8_second_call_is_served_from_cache
           "hello" (Redis.Server ∅ 0) (MkDatastore [] []) [] []
           (fun _ => Ok [Sample.N1; Sample.N0])
           (fun _ => Raise (Exn APIError "503"))
           [Sample.N1; Sample.N0] 3600).
  - reflexivity.
  - reflexivity.
  - discriminate.
  - lia.
Defined.

(** C10, as the code has it.  [RedisCache.get] reports a stored empty
    string as absent ([None]).  [EmbeddingCache.get_embedding] does not do
    so for a stored empty list: the text ["[]"] is truthy, it is decoded and
    the empty list itself is returned, not [None]; it is the caller
    [create_embedding] that finds the empty list falsy and asks the
    provider again. *)
Theorem C10_empty_string_is_a_miss_empty_list_is_returned
    {pyfloat : Type} `{!JsonCodec (list pyfloat)} `{!Sha256}
    (c : RedisCache.t) (h : Redis.client) (key text : string)
    (srv : Redis.server) (d : @Datastore pyfloat)
    (calls : list string) (lg : list (level * string))
    (api : string -> result (list pyfloat)) :
  RedisCache.client c = Some h ->
  Redis.GET key (Redis.server_of h) = Some "" ->
  Redis.GET (EmbeddingCache._embedding_key (truncate text)) srv
    = Some (json_dumps ([] : list pyfloat)) ->
  fst (RedisCache.get key c) = Ok None
  /\ fst (EmbeddingCache.get_embedding (truncate text) (live srv)) = Ok (Some [])
  /\ api_calls (snd (create_embedding true api text (MkWorld (live srv) d calls lg)))
     = (calls ++ [truncate text])%list.
Proof.
  intros Hc Hempty Hlist. repeat split.
  - exact (get_empty_value_is_miss c h key Hc Hempty).
  - rewrite (get_embedding_stored (truncate text) [] srv Hlist). reflexivity.
  - exact (create_embedding_empty_is_regenerated api text srv d calls lg Hlist).
Qed.

(** The empty list is saved for the text "hello" and read back with
    [get_embedding]: the result is the list, not the miss result [None]. *)
Lemma C10_counterexample_empty_list_is_not_a_miss :
  fst (EmbeddingCache.get_embedding "hello"
         (snd (EmbeddingCache.save_embedding "hello" ([] : list Sample.num) 86400
                 (live (Redis.Server ∅ 0)))))
  <> Ok None.
Proof. vm_compute. discriminate. Qed.

Lemma C10_witness_empty_values :
  let key := EmbeddingCache._embedding_key "hello" in
  let srv := Redis.Server {[ key := Redis.Entry "[]" None ]} 0 in
  fst (RedisCache.get "session:abc:description"
         (live (Redis.Server {[ "session:abc:description" := Redis.Entry "" None ]} 0)))
  = Ok None
  /\ fst (EmbeddingCache.get_embedding (truncate "hello") (live srv))
     = Ok (Some ([] : list Sample.num))
  /\ api_calls
       (snd (create_embedding true (fun _ => Ok [Sample.N1]) "hello"
               (MkWorld (live srv) (MkDatastore [] []) [] [])))
     = [truncate "hello"].
Proof.
  intros key srv.
  apply (C10_empty_string_is_a_miss_empty_list_is_returned
           (live (Redis.Server {[ "session:abc:description" := Redis.Entry "" None ]} 0))
           (Redis.Client (Redis.Server {[ "session:abc:description" := Redis.Entry "" None ]} 0) [])
           "session:abc:description" "hello" srv
           (MkDatastore [] []) [] [] (fun _ => Ok [Sample.N1])).
  - reflexivity.
  - reflexivity.
  - reflexivity.
Defined.

(* ===================================================================== *)
(** ** Glob patterns and [KEYS]                                          *)
(* ===================================================================== *)

Lemma toks_match_star s : Redis.toks_match [Redis.TStar] s = true.
Proof. induction s as [|a s IH]; [reflexivity|]. cbn in *. exact IH. Qed.

Lemma glob_parse_literal c p :
  Redis.is_meta c = false ->
  Redis.glob_parse None (String c p) = Redis.TChar c :: Redis.glob_parse None p.
Proof.
  unfold Redis.is_meta. intros H.
  apply orb_false_elim in H as [H Hb].
  apply orb_false_elim in H as [H Hc].
  apply orb_false_elim in H as [Ha Hq].
  cbn [Redis.glob_parse]. rewrite Ha, Hq, Hb, Hc. reflexivity.
Qed.

(** A pattern made of ordinary characters followed by [*] matches exactly
    the keys that start with these characters. *)
Lemma glob_literal_star lit k :
  pattern_free lit = true ->
  Redis.glob_match (lit +:+ "*") k = true <-> exists rest, k = lit +:+ rest.
Proof.
  unfold Redis.glob_match. revert k.
  induction lit as [|c lit IH]; intros k Hfree.
  - cbn. rewrite toks_match_star. split; [eauto | reflexivity].
  - cbn [pattern_free] in Hfree. apply andb_true_iff in Hfree as [Hc Hfree].
    apply negb_true_iff in Hc.
    change (String c lit +:+ "*") with (String c (lit +:+ "*")).
    rewrite (glob_parse_literal c _ Hc).
    destruct k as [|d k]; cbn [Redis.toks_match].
    + split; [discriminate | intros [rest Hr]; discriminate].
    + rewrite andb_true_iff. unfold Redis.ascii_eqb at 1.
      rewrite bool_decide_eq_true, (IH k Hfree).
      split.
      * intros [-> [rest ->]]. exists rest. reflexivity.
      * intros [rest Hr]. injection Hr as -> ->. eauto.
Qed.

Lemma str_app_assoc a b c : (a +:+ b) +:+ c = a +:+ (b +:+ c).
Proof.
  induction a as [|x a IH]; [reflexivity|].
  change (String x ((a +:+ b) +:+ c) = String x (a +:+ b +:+ c)).
  rewrite IH. reflexivity.
Qed.

Lemma pattern_free_app a b :
  pattern_free (a +:+ b) = pattern_free a && pattern_free b.
Proof.
  induction a as [|c a IH]; [reflexivity|].
  change (String c a +:+ b) with (String c (a +:+ b)).
  cbn [pattern_free]. rewrite IH, andb_assoc. reflexivity.
Qed.

Lemma elem_of_KEYS p srv k :
  k ∈ Redis.KEYS p srv <->
  Redis.glob_match p k = true /\ is_Some (Redis.GET k srv).
Proof.
  unfold Redis.KEYS. rewrite list_elem_of_filter, list_elem_of_fmap.
  rewrite andb_True, bool_decide_spec.
  unfold Redis.GET. rewrite fmap_is_Some.
  split.
  - intros [[Hm Hl] _]. split; [apply Is_true_true_1; exact Hm | exact Hl].
  - intros [Hm Hl]. split; [split; [apply Is_true_true_2; exact Hm | exact Hl]|].
    destruct Hl as [e He]. unfold Redis.lookup_live in He.
    destruct (Redis.store srv !! k) as [e'|] eqn:Hk; [|discriminate].
    exists (k, e'). split; [reflexivity|]. apply elem_of_map_to_list. exact Hk.
Qed.

(* ===================================================================== *)
(** ** SessionCache.invalidate_session                                   *)
(* ===================================================================== *)

Lemma invalidate_session_live sid srv :
  SessionCache.invalidate_session sid (live srv) =
  (Ok tt,
   live (Redis.DEL [SessionCache._session_key sid]
           (Redis.DEL (Redis.KEYS ("session:" +:+ sid +:+ ":*") srv) srv))).
Proof.
  unfold SessionCache.invalidate_session, bind.
  rewrite delete_pattern_live, delete_live. reflexivity.
Qed.

(** After the two deletions no live key of the session is left, provided
    the id is free of pattern characters. *)
Lemma session_keys_gone sid srv k :
  pattern_free sid = true ->
  k = SessionCache._session_key sid \/ (exists rest, k = "session:" +:+ sid +:+ ":" +:+ rest) ->
  Redis.GET k
    (Redis.DEL [SessionCache._session_key sid]
       (Redis.DEL (Redis.KEYS ("session:" +:+ sid +:+ ":*") srv) srv)) = None.
Proof.
  intros Hfree Hk. rewrite GET_DEL.
  destruct (bool_decide (k ∈ [SessionCache._session_key sid])) eqn:E1; [reflexivity|].
  apply bool_decide_eq_false in E1.
  destruct Hk as [-> | [rest ->]]; [exfalso; apply E1; set_solver|].
  rewrite GET_DEL.
  destruct (bool_decide (_ ∈ Redis.KEYS _ srv)) eqn:E2; [reflexivity|].
  apply bool_decide_eq_false in E2. rewrite elem_of_KEYS in E2.
  destruct (Redis.GET _ srv) as [v|] eqn:G; [|reflexivity].
  exfalso. apply E2. split; [|eauto].
  assert (Hp : pattern_free ("session:" +:+ sid +:+ ":") = true).
  { rewrite !pattern_free_app, Hfree. reflexivity. }
  replace ("session:" +:+ sid +:+ ":*") with (("session:" +:+ sid +:+ ":") +:+ "*")
    by (rewrite !str_app_assoc; reflexivity).
  apply glob_literal_star; [exact Hp|].
  exists rest. rewrite !str_app_assoc. reflexivity.
Qed.

Section SessionReads.
Context {json : Type} `{!JsonCodec json}.

Lemma get_session_live sid srv :
  SessionCache.get_session sid (live srv) =
  (Ok (match Redis.GET (SessionCache._session_key sid) srv with
       | Some c =>
           if truthy_str c
           then match json_loads c with Ok j => Some j | Raise _ => None end
           else None
       | None => None
       end), live srv).
Proof.
  unfold SessionCache.get_session, try_except, bind, lift_result.
  rewrite get_live.
  destruct (Redis.GET _ srv) as [c|]; [|reflexivity].
  destruct (truthy_str c) eqn:E; [rewrite E|reflexivity].
  destruct (json_loads c) as [v|e] eqn:L; [reflexivity|].
  rewrite (json_loads_error c e L). reflexivity.
Qed.

Lemma get_session_memories_live sid srv :
  SessionCache.get_session_memories sid (live srv) =
  (Ok (match Redis.GET (SessionCache._session_memories_key sid) srv with
       | Some c =>
           if truthy_str c
           then match json_loads c with Ok j => Some j | Raise _ => None end
           else None
       | None => None
       end), live srv).
Proof.
  unfold SessionCache.get_session_memories, try_except, bind, lift_result.
  rewrite get_live.
  destruct (Redis.GET _ srv) as [c|]; [|reflexivity].
  destruct (truthy_str c) eqn:E; [rewrite E|reflexivity].
  destruct (json_loads c) as [v|e] eqn:L; [reflexivity|].
  rewrite (json_loads_error c e L). reflexivity.
Qed.

(** What the specification says, for the session ids that hold no pattern
    character: after [invalidate_session] on a live backend the three
    reads of the session miss. *)
Lemma invalidate_session_pattern_free_id sid srv :
  pattern_free sid = true ->
  let c := snd (SessionCache.invalidate_session sid (live srv)) in
  fst (SessionCache.get_session sid c) = Ok None
  /\ fst (SessionCache.get_session_memories sid c) = Ok None
  /\ fst (SessionCache.get_session_description sid c) = Ok None.
Proof.
  intros Hfree c. subst c. rewrite invalidate_session_live. cbn [snd].
  rewrite get_session_live, get_session_memories_live, get_session_description_live.
  cbn [fst].
  rewrite !session_keys_gone; try exact Hfree.
  - repeat split.
  - right. exists "description". reflexivity.
  - right. exists "memories". reflexivity.
  - left. reflexivity.
Qed.

End SessionReads.

(** C7 (the code departs from the specification).  The session id is pasted into
    the pattern of [delete_pattern] as it is.  For the id ["[a]"] the
    pattern [session:[a]:*] reads [[a]] as a character class: it matches
    the keys of session ["a"], not those of session ["[a]"].  The cache of
    session ["[a]"] is warmed, its description is cached, and
    [invalidate_session("[a]")] runs on a live backend: the metadata key is
    deleted, the memories and the description are still served. *)
Theorem C7_invalidate_session_leaves_keys_of_bracket_id :
  let warmed :=
    snd (SessionCache.set_session_description "[a]" "about glob patterns"
           (snd (SessionCache.warm_session_cache "[a]" [Sample.N1] [Sample.N0; Sample.N1]
                   (live (Redis.Server ∅ 0))))) in
  let c := snd (SessionCache.invalidate_session "[a]" warmed) in
  fst (SessionCache.get_session (json := list Sample.num) "[a]" c) = Ok None
  /\ fst (SessionCache.get_session_memories "[a]" c) = Ok (Some [Sample.N0; Sample.N1])
  /\ fst (SessionCache.get_session_description "[a]" c) = Ok (Some "about glob patterns").
Proof. vm_compute. repeat split. Qed.

(* ===================================================================== *)
(** ** smart_copy: the enrichment legs                                   *)
(* ===================================================================== *)

Section SmartCopyFacts.
Context {pyfloat : Type} `{!JsonCodec (list pyfloat)} `{!Sha256}.
Implicit Types (w : @World pyfloat) (v : list pyfloat).

(** The cache operations touch the cache object only. *)
Lemma on_cache_frame {A} (m : M RedisCache.t A) w :
  db (snd (on_cache m w)) = db w
  /\ api_calls (snd (on_cache m w)) = api_calls w
  /\ log (snd (on_cache m w)) = log w
  /\ cache (snd (on_cache m w)) = snd (m (cache w))
  /\ fst (on_cache m w) = fst (m (cache w)).
Proof. unfold on_cache, zoom. destruct (m (cache w)). repeat split. Qed.

(** The embedding leg leaves the datastore and the log alone. *)
Lemma create_embedding_frame has_cache api t w :
  db (snd (create_embedding has_cache api t w)) = db w
  /\ log (snd (create_embedding has_cache api t w)) = log w.
Proof.
  assert (G : forall w0, db (snd (generate has_cache api (truncate t) w0)) = db w0
                         /\ log (snd (generate has_cache api (truncate t) w0)) = log w0).
  { intros w0. unfold generate, bind, embeddings_create.
    destruct (api (truncate t)) as [v|e]; cbn [fst snd]; [|split; reflexivity].
    destruct has_cache; [|split; reflexivity].
    destruct (on_cache_frame
                (EmbeddingCache.save_embedding (truncate t) v EmbeddingCache.default_ttl_seconds)
                (MkWorld (cache w0) (db w0) (api_calls w0 ++ [truncate t]) (log w0)))
      as (Hd & _ & Hl & _ & _).
    destruct (on_cache _ _) as [[[]|e] w1]; cbn [fst snd db log] in *; split; assumption. }
  unfold create_embedding, try_except, bind.
  destruct has_cache.
  - destruct (on_cache_frame (EmbeddingCache.get_embedding (truncate t)) w)
      as (Hd & _ & Hl & _ & _).
    destruct (on_cache (EmbeddingCache.get_embedding (truncate t)) w) as [[c|e] w1];
      cbn [fst snd] in *.
    + assert (Hg := G w1).
      destruct c as [v|]; [destruct (truthy_list v)|].
      * split; assumption.
      * destruct (generate true api (truncate t) w1) as [[v'|e] w2]; cbn [fst snd] in *;
          [|destruct (is_Exception e)]; cbn [fst snd raise];
          destruct Hg as [-> ->]; split; assumption.
      * destruct (generate true api (truncate t) w1) as [[v'|e] w2]; cbn [fst snd] in *;
          [|destruct (is_Exception e)]; cbn [fst snd raise];
          destruct Hg as [-> ->]; split; assumption.
    + destruct (is_Exception e); cbn [fst snd raise]; split; assumption.
  - cbn [ret]. assert (Hg := G w).
    destruct (generate false api (truncate t) w) as [[v'|e] w2]; cbn [fst snd] in *;
      [|destruct (is_Exception e)]; cbn [fst snd raise]; exact Hg.
Qed.

(** A row that holds an exception object is refused before any request
    is sent. *)
Lemma save_memory_exception_object sid uid orig e src emb w :
  exists m,
    save_memory sid uid orig (ExcObject e) src emb w =
    (Raise (Exn Exception_ ("Failed to save memory: " +:+ m)),
     MkWorld (cache w) (db w) (api_calls w)
             (log w ++ [(ERROR, "Error saving memory: " +:+ m)])).
Proof.
  eexists. unfold save_memory, try_except, bind, on_db, zoom, insert_execute.
  cbn. reflexivity.
Qed.

(** With a failed summarization the first element of the gathered list is
    an exception object, whatever the class of the failure. *)
Lemma leaves_the_loop_is_no_Exception e :
  leaves_the_loop e = true -> is_Exception e = false.
Proof. destruct e as [[] m]; cbn; congruence. Qed.

Lemma an_Exception_stays_in_the_loop e :
  is_Exception e = true -> leaves_the_loop e = false.
Proof. destruct e as [[] m]; cbn; congruence. Qed.

Lemma process_text_failure claude t e w :
  claude t = Raise e ->
  leaves_the_loop e = false ->
  exists e', gather_one (process_text claude t) w = (Ok (ExcObject e'), w).
Proof.
  intros Hc Hl. unfold gather_one, process_text, try_except, lift_result. rewrite Hc.
  destruct (is_Exception e); cbn; [|rewrite Hl]; eexists; reflexivity.
Qed.

Lemma process_text_leaves_the_loop claude t e w :
  claude t = Raise e ->
  leaves_the_loop e = true ->
  gather_one (process_text claude t) w = (Raise e, w).
Proof.
  intros Hc Hl. unfold gather_one, process_text, try_except, lift_result. rewrite Hc.
  rewrite (leaves_the_loop_is_no_Exception e Hl), Hl. reflexivity.
Qed.

Lemma smart_copy_summarization_failure has_cache claude api request w e :
  claude (text request) = Raise e ->
  leaves_the_loop e = false ->
  (forall e1, fst (create_embedding has_cache api (text request) w) = Raise e1 ->
              leaves_the_loop e1 = false) ->
  exists detail,
    smart_copy has_cache claude api request w =
    (Raise (Exn (HTTPException 500) ("Smart copy failed: Failed to save memory: " +:+ detail)),
     let w1 := snd (create_embedding has_cache api (text request) w) in
     MkWorld (cache w1) (db w1) (api_calls w1)
       ((match fst (create_embedding has_cache api (text request) w) with
         | Raise e1 =>
             if is_Exception e1
             then log w1 ++ [(WARNING, "Failed to generate embedding: " +:+ msg e1)]
             else log w1
         | Ok _ => log w1
         end)%list ++ [(ERROR, "Error saving memory: " +:+ detail)])).
Proof.
  intros Hc Hl Hleg. unfold smart_copy, bind.
  destruct (process_text_failure claude (text request) e w Hc Hl) as [e' ->].
  unfold gather_one at 1.
  destruct (create_embedding has_cache api (text request) w) as [[v|e1] w1]; cbn [fst snd] in *;
    [|rewrite (Hleg e1 eq_refl)].
  - cbn [ret].
    destruct (save_memory_exception_object (session_id request) (user_id request)
                (text request) e' (source request) (Some (Value v)) w1) as [m ->].
    exists m. destruct w1; reflexivity.
  - destruct (is_Exception e1) eqn:E1.
    + unfold logging, modify.
      destruct (save_memory_exception_object (session_id request) (user_id request)
                  (text request) e' (source request) None
                  (MkWorld (cache w1) (db w1) (api_calls w1)
                     (log w1 ++ [(WARNING, "Failed to generate embedding: " +:+ msg e1)])))
        as [m ->].
      exists m. reflexivity.
    + cbn [ret].
      destruct (save_memory_exception_object (session_id request) (user_id request)
                  (text request) e' (source request) (Some (ExcObject e1)) w1) as [m ->].
      exists m. destruct w1; reflexivity.
Qed.

(** Whatever the summarization provider raises, and whatever the embedding
    leg does, the call ends with an exception, the datastore is as before,
    and the cache is as the embedding leg left it (as it was, when the
    exception of the provider left the event loop before that leg ran). *)
Lemma smart_copy_summarization_never_succeeds has_cache claude api request w e :
  claude (text request) = Raise e ->
  let out := smart_copy has_cache claude api request w in
  (exists e', fst out = Raise e')
  /\ db (snd out) = db w
  /\ cache (snd out)
     = (if leaves_the_loop e then cache w
        else cache (snd (create_embedding has_cache api (text request) w))).
Proof.
  intros Hc out. subst out.
  destruct (leaves_the_loop e) eqn:Hl.
  - unfold smart_copy, bind.
    rewrite (process_text_leaves_the_loop claude (text request) e w Hc Hl).
    rewrite (leaves_the_loop_is_no_Exception e Hl).
    assert (Hh : is_HTTPException e = false) by (destruct e as [[] m]; cbn in *; congruence).
    rewrite Hh. cbn [fst snd]. split; [eauto|]. split; reflexivity.
  - destruct (create_embedding_frame has_cache api (text request) w) as [Hdb _].
    destruct (create_embedding has_cache api (text request) w) as [r1 w1] eqn:Hleg.
    assert (Hcase : (forall e1, r1 = Raise e1 -> leaves_the_loop e1 = false)
                    \/ exists e1, r1 = Raise e1 /\ leaves_the_loop e1 = true).
    { destruct r1 as [v|e1]; [left; discriminate|].
      destruct (leaves_the_loop e1) eqn:H1; [right; eauto|].
      left. intros e2 [= <-]. exact H1. }
    destruct Hcase as [Hcap | (e1 & -> & H1)].
    + destruct (smart_copy_summarization_failure has_cache claude api request w e Hc Hl)
        as [detail ->].
      { rewrite Hleg. exact Hcap. }
      rewrite Hleg. cbn [fst snd db cache]. cbn [fst snd db] in Hdb.
      split; [eauto|]. split; [exact Hdb | reflexivity].
    + unfold smart_copy, bind.
      destruct (process_text_failure claude (text request) e w Hc Hl) as [e' ->].
      unfold gather_one. rewrite Hleg, H1.
      rewrite (leaves_the_loop_is_no_Exception e1 H1).
      assert (Hh : is_HTTPException e1 = false) by (destruct e1 as [[] m]; cbn in *; congruence).
      rewrite Hh. cbn [fst snd] in *. split; [eauto|]. split; [exact Hdb | reflexivity].
Qed.

Lemma GET_SETEX_other k k' (val : string) deadline srv :
  k' <> k ->
  Redis.GET k' (Redis.Server (<[k := Redis.Entry val deadline]> (Redis.store srv)) (Redis.now srv))
  = Redis.GET k' srv.
Proof.
  intros Hne. unfold Redis.GET, Redis.lookup_live; simpl.
  rewrite lookup_insert_ne by congruence. reflexivity.
Qed.

Lemma generate_on_live has_cache api t srv d calls lg :
  exists srv',
    cache (snd (generate has_cache api t (MkWorld (live srv) d calls lg))) = live srv'
    /\ forall k, k <> EmbeddingCache._embedding_key t -> Redis.GET k srv' = Redis.GET k srv.
Proof.
  destruct (api t) as [v|e] eqn:Hapi.
  - destruct has_cache.
    + rewrite (generate_live api t v srv d calls lg Hapi). cbn [snd cache].
      eexists; split; [reflexivity|]. intros k Hk. apply GET_SETEX_other. exact Hk.
    + unfold generate, bind, embeddings_create. rewrite Hapi. cbn.
      exists srv. split; reflexivity.
  - unfold generate, bind, embeddings_create. rewrite Hapi. cbn.
    exists srv. split; reflexivity.
Qed.

(** On a live backend the embedding leg can only write the entry of the
    text's own embedding key. *)
Lemma create_embedding_on_live has_cache api t srv d calls lg :
  exists srv',
    cache (snd (create_embedding has_cache api t (MkWorld (live srv) d calls lg))) = live srv'
    /\ forall k, k <> EmbeddingCache._embedding_key (truncate t) ->
                 Redis.GET k srv' = Redis.GET k srv.
Proof.
  unfold create_embedding, try_except, bind.
  destruct has_cache.
  - unfold on_cache at 1, zoom. cbn [cache]. rewrite get_embedding_live. cbn [fst snd db api_calls log].
    destruct (generate_on_live true api (truncate t) srv d calls lg) as (srv' & Hc & Hk).
    match goal with
    | |- context [match ?o with Some v => _ | None => _ end] => destruct o as [v|]
    end.
    + destruct (truthy_list v).
      * exists srv. split; reflexivity.
      * destruct (generate true api (truncate t) _) as [[v'|e] w2]; cbn [fst snd] in *;
          [|destruct (is_Exception e)]; cbn [fst snd raise]; eauto.
    + destruct (generate true api (truncate t) _) as [[v'|e] w2]; cbn [fst snd] in *;
        [|destruct (is_Exception e)]; cbn [fst snd raise]; eauto.
  - cbn [ret].
    destruct (generate_on_live false api (truncate t) srv d calls lg) as (srv' & Hc & Hk).
    destruct (generate false api (truncate t) _) as [[v'|e] w2]; cbn [fst snd] in *;
      [|destruct (is_Exception e)]; cbn [fst snd raise]; eauto.
Qed.

Lemma embedding_key_is_no_session_key t rest :
  "session:" +:+ rest <> EmbeddingCache._embedding_key t.
Proof.
  intros Heq.
  apply (f_equal (fun s => match s with String c _ => c | EmptyString => " "%char end)) in Heq.
  discriminate Heq.
Qed.

End SmartCopyFacts.

(** C3. When the summarization call of [smart_copy] raises, the call fails:
    it ends with an exception, which is the status 500 whenever no
    exception leaves the event loop (a [KeyboardInterrupt] or [SystemExit]
    of a provider is not kept by [gather] and ends the call itself).  The
    datastore is as before (the row handed to [save_memory] holds the
    exception object and is refused before any insert), and the cache is
    as the embedding leg left it when the exception of the summarization
    stays inside the event loop.  In every case neither invalidation runs:
    on a live backend the session's memories and description entries are
    what they were. *)
Theorem C3_summarization_failure_fails_the_call
    {pyfloat : Type} `{!JsonCodec (list pyfloat)} `{!Sha256}
    (has_cache : bool) (claude : string -> result string)
    (api : string -> result (list pyfloat)) (request : SmartCopyRequest)
    (w : @World pyfloat) (e : exn) :
  claude (text request) = Raise e ->
  let leg := create_embedding has_cache api (text request) w in
  let out := smart_copy has_cache claude api request w in
  (exists e', fst out = Raise e')
  /\ (leaves_the_loop e = false ->
      (forall e1, fst leg = Raise e1 -> leaves_the_loop e1 = false) ->
      exists detail, fst out = Raise (Exn (HTTPException 500) detail))
  /\ db (snd out) = db w
  /\ (leaves_the_loop e = false -> cache (snd out) = cache (snd leg))
  /\ (forall srv, cache w = live srv ->
        exists srv',
          cache (snd out) = live srv'
          /\ Redis.GET (SessionCache._session_memories_key (session_id request)) srv'
             = Redis.GET (SessionCache._session_memories_key (session_id request)) srv
          /\ Redis.GET (SessionCache._session_description_key (session_id request)) srv'
             = Redis.GET (SessionCache._session_description_key (session_id request)) srv).
Proof.
  intros Hc leg out. subst leg out.
  destruct (smart_copy_summarization_never_succeeds has_cache claude api request w e Hc)
    as (Hr & Hdb & Hcache).
  split; [exact Hr|]. split.
  { intros Hl Hleg.
    destruct (smart_copy_summarization_failure has_cache claude api request w e Hc Hl Hleg)
      as [detail ->]. cbn [fst]. eauto. }
  split; [exact Hdb|]. split; [intros Hl; rewrite Hcache, Hl; reflexivity|].
  intros srv Hlive. rewrite Hcache. destruct (leaves_the_loop e).
  - exists srv. split; [exact Hlive|]. split; reflexivity.
  - destruct w as [c d calls lg]; cbn [cache] in Hlive; subst c.
    destruct (create_embedding_on_live has_cache api (text request) srv d calls lg)
      as (srv' & Hc' & Hk).
    exists srv'. split; [exact Hc'|].
    split; apply Hk; apply embedding_key_is_no_session_key.
Qed.

(** The summarization provider is overloaded while the cache of session
    "s1" is warm. *)
Lemma C3_witness_overloaded_provider :
  let srv := Redis.Server {[ "session:s1:memories" := Redis.Entry "[0, 1]" (Some 600);
                             "session:s1:description" := Redis.Entry "notes" (Some 3600) ]} 0 in
  let out := smart_copy true (fun _ => Raise (Exn APIError "overloaded"))
               (fun _ => Ok [Sample.N1; Sample.N0])
               (MkRequest "some text" "s1" "u1" (Some "mac-app"))
               (MkWorld (live srv) (MkDatastore [] []) [] []) in
  (exists detail, fst out = Raise (Exn (HTTPException 500) detail))
  /\ db (snd out) = MkDatastore [] [].
Proof.
  intros srv out.
  destruct (C3_summarization_failure_fails_the_call true
              (fun _ => Raise (Exn APIError "overloaded"))
              (fun _ => Ok [Sample.N1; Sample.N0])
              (MkRequest "some text" "s1" "u1" (Some "mac-app"))
              (MkWorld (live srv) (MkDatastore [] []) [] [])
              (Exn APIError "overloaded") eq_refl) as (_ & H1 & H2 & _).
  split; [|exact H2].
  apply H1; [reflexivity|]. intros e1 He1. vm_compute in He1. discriminate He1.
Defined.

(* ===================================================================== *)
(** ** smart_copy: persistence and invalidation                          *)
(* ===================================================================== *)

Lemma delete_returns key c : exists b c', RedisCache.delete key c = (Ok b, c').
Proof.
  destruct (operations_never_raise c key "" 0 "") as (_ & _ & Hd & _).
  destruct (RedisCache.delete key c) as [[b|e] c']; [eauto | discriminate].
Qed.

Lemma invalidate_session_memories_returns sid c :
  exists c', SessionCache.invalidate_session_memories sid c = (Ok tt, c').
Proof.
  unfold SessionCache.invalidate_session_memories, bind.
  destruct (delete_returns (SessionCache._session_memories_key sid) c) as (b & c' & ->).
  eauto.
Qed.

Lemma invalidate_session_description_returns sid c :
  exists c', SessionCache.invalidate_session_description sid c = (Ok tt, c').
Proof.
  unfold SessionCache.invalidate_session_description, bind.
  destruct (delete_returns (SessionCache._session_description_key sid) c) as (b & c' & ->).
  eauto.
Qed.

Section PersistFacts.
Context {pyfloat : Type} `{!JsonCodec (list pyfloat)} `{!Sha256}.
Implicit Types (w : @World pyfloat) (v : list pyfloat).

Lemma process_text_success claude t p w :
  claude t = Ok p -> gather_one (process_text claude t) w = (Ok (Value p), w).
Proof.
  intros Hc. unfold gather_one, process_text, try_except, lift_result. rewrite Hc.
  reflexivity.
Qed.

Lemma on_cache_invalidate_memories sid w :
  exists c',
    on_cache (SessionCache.invalidate_session_memories sid) w =
    (Ok tt, MkWorld c' (db w) (api_calls w) (log w)).
Proof.
  unfold on_cache, zoom.
  destruct (invalidate_session_memories_returns sid (cache w)) as [c' ->]. eauto.
Qed.

Lemma on_cache_invalidate_description sid w :
  exists c',
    on_cache (SessionCache.invalidate_session_description sid) w =
    (Ok tt, MkWorld c' (db w) (api_calls w) (log w)).
Proof.
  unfold on_cache, zoom.
  destruct (invalidate_session_description_returns sid (cache w)) as [c' ->]. eauto.
Qed.

(** [save_memory] raises plain [Exception]s only. *)
Lemma save_memory_raises sid uid orig pt src emb w e w2 :
  save_memory sid uid orig pt src emb w = (Raise e, w2) ->
  is_Exception e = true /\ is_HTTPException e = false.
Proof.
  unfold save_memory, try_except, bind, on_db, zoom, insert_execute.
  destruct (negb (serialisable _)); cbn.
  - intros Hx; injection Hx as <- _. split; reflexivity.
  - destruct (replies (db w)) as [|[] rest]; cbn; intros Hx; try discriminate.
    injection Hx as <- _. split; reflexivity.
Qed.

(** [smart_copy] once the summary [p] is there and the embedding leg has
    ended inside the event loop: the row is saved, then the memories entry
    is invalidated, then the description entry, then the response is
    built. *)
Lemma smart_copy_with_summary has_cache claude api request w p :
  claude (text request) = Ok p ->
  (forall e1, fst (create_embedding has_cache api (text request) w) = Raise e1 ->
              leaves_the_loop e1 = false) ->
  smart_copy has_cache claude api request w =
  let leg := create_embedding has_cache api (text request) w in
  match save_memory (session_id request) (user_id request) (text request) (Value p)
          (source request) (passed_embedding (fst leg)) (before_save (fst leg) (snd leg)) with
  | (Ok (Some m), w2) =>
      let w3 := snd (on_cache (SessionCache.invalidate_session_memories (session_id request)) w2) in
      let w4 := snd (on_cache (SessionCache.invalidate_session_description (session_id request)) w3) in
      (Ok (MkResponse "saved" (row_id m) (str_len (text request)) (str_len p) p), w4)
  | (Ok None, w2) => (Raise (Exn (HTTPException 500) "Failed to save memory"), w2)
  | (Raise e, w2) => (Raise (Exn (HTTPException 500) ("Smart copy failed: " +:+ msg e)), w2)
  end.
Proof.
  intros Hc Hleg. unfold smart_copy, bind. rewrite (process_text_success claude _ p w Hc).
  unfold gather_one at 1.
  destruct (create_embedding has_cache api (text request) w) as [r1 w1]. cbn [fst snd] in *.
  assert (Hfin : forall emb w0,
    (let (r0, w') :=
       let (r2, s'1) :=
         save_memory (session_id request) (user_id request) (text request) (Value p)
           (source request) emb w0 in
       match r2 with
       | Ok a1 =>
           match a1 with
           | Some m =>
               fun s : World =>
                 let (r3, s'2) :=
                   on_cache (SessionCache.invalidate_session_memories (session_id request)) s in
                 match r3 with
                 | Ok _ =>
                     let (r4, s'3) :=
                       on_cache (SessionCache.invalidate_session_description
                                   (session_id request)) s'2 in
                     match r4 with
                     | Ok _ => build_response request m (Value p) s'3
                     | Raise e => (Raise e, s'3)
                     end
                 | Raise e => (Raise e, s'2)
                 end
           | None => raise (Exn (HTTPException 500) "Failed to save memory")
           end s'1
       | Raise e => (Raise e, s'1)
       end in
     match r0 with
     | Ok r => (Ok r, w')
     | Raise e =>
         if is_HTTPException e then (Raise e, w')
         else if is_Exception e
              then (Raise (Exn (HTTPException 500) ("Smart copy failed: " +:+ msg e)), w')
              else (Raise e, w')
     end) =
    (let (r, w2) :=
       save_memory (session_id request) (user_id request) (text request) (Value p)
         (source request) emb w0 in
     match r with
     | Ok (Some m) =>
         (Ok (MkResponse "saved" (row_id m) (str_len (text request)) (str_len p) p),
          snd (on_cache (SessionCache.invalidate_session_description (session_id request))
                 (snd (on_cache (SessionCache.invalidate_session_memories (session_id request))
                         w2))))
     | Ok None => (Raise (Exn (HTTPException 500) "Failed to save memory"), w2)
     | Raise e => (Raise (Exn (HTTPException 500) ("Smart copy failed: " +:+ msg e)), w2)
     end)).
  { intros emb w0.
    destruct (save_memory _ _ _ _ _ emb w0) as [[[m|]|e] w2] eqn:Hs; cbn [raise].
    - destruct (on_cache_invalidate_memories (session_id request) w2) as [c3 E3].
      rewrite !E3. cbn [snd].
      destruct (on_cache_invalidate_description (session_id request)
                  (MkWorld c3 (db w2) (api_calls w2) (log w2))) as [c4 E4].
      rewrite !E4. reflexivity.
    - reflexivity.
    - destruct (save_memory_raises _ _ _ _ _ _ _ _ _ Hs) as [-> ->]. reflexivity. }
  destruct r1 as [v|e1].
  - cbn [before_save passed_embedding ret]. apply Hfin.
  - rewrite (Hleg e1 eq_refl). cbn [before_save passed_embedding]. destruct (is_Exception e1).
    + unfold logging, modify. apply Hfin.
    + cbn [ret]. apply Hfin.
Qed.



Lemma save_memory_stores sid uid orig p src emb w :
  (emb = None \/ exists v, emb = Some (Value v)) ->
  accepts (db w) = true ->
  let m := StoredRow (fresh_id (db w))
             (MemoryRow sid uid orig (Value p) src
                        (if truthy_embedding emb then emb else None)) in
  save_memory sid uid orig (Value p) src emb w =
  (Ok (Some m),
   MkWorld (cache w)
     (MkDatastore (session_memories (db w) ++ [m]) (tail (replies (db w))))
     (api_calls w) (log w)).
Proof.
  intros Hemb Hacc m. subst m.
  unfold save_memory, try_except, bind, on_db, zoom, insert_execute.
  assert (Hser : serialisable
            (MemoryRow sid uid orig (Value p) src
               (if truthy_embedding emb then emb else None)) = true).
  { destruct Hemb as [-> | [v ->]]; [reflexivity|].
    cbn. destruct (truthy_list v); reflexivity. }
  rewrite Hser. cbn [negb]. unfold accepts in Hacc.
  destruct (replies (db w)) as [|[] rest]; try discriminate; reflexivity.
Qed.

End PersistFacts.

(** C6. When the embedding call of [smart_copy] raises (an [Exception], as
    [create_embedding] documents) while the summarization returns [p], and
    the datastore stores the row, the call returns the "saved" response
    with the summary, the stored row has no embedding field, and the
    failure is logged as a warning. *)
Theorem C6_embedding_failure_is_not_fatal
    {pyfloat : Type} `{!JsonCodec (list pyfloat)} `{!Sha256}
    (has_cache : bool) (claude : string -> result string)
    (api : string -> result (list pyfloat)) (request : SmartCopyRequest)
    (w : @World pyfloat) (p : string) (e1 : exn) :
  claude (text request) = Ok p ->
  fst (create_embedding has_cache api (text request) w) = Raise e1 ->
  is_Exception e1 = true ->
  accepts (db w) = true ->
  let out := smart_copy has_cache claude api request w in
  let m := StoredRow (fresh_id (db w))
             (MemoryRow (session_id request) (user_id request) (text request)
                        (Value p) (source request) None) in
  fst out = Ok (MkResponse "saved" (row_id m) (str_len (text request)) (str_len p) p)
  /\ session_memories (db (snd out)) = (session_memories (db w) ++ [m])%list
  /\ row_embedding (row_data m) = None
  /\ log (snd out) = (log w ++ [(WARNING, "Failed to generate embedding: " +:+ msg e1)])%list.
Proof.
  intros Hc Hleg He1 Hacc out m. subst out.
  rewrite (smart_copy_with_summary has_cache claude api request w p Hc)
    by (intros e2 He2; rewrite Hleg in He2; injection He2 as <-;
        exact (an_Exception_stays_in_the_loop e1 He1)).
  cbv zeta.
  rewrite Hleg. cbn [before_save passed_embedding]. rewrite He1.
  destruct (create_embedding_frame has_cache api (text request) w) as [Hdb Hlog].
  set (w1 := snd (create_embedding has_cache api (text request) w)) in *.
  rewrite (save_memory_stores (session_id request) (user_id request) (text request) p
             (source request) None
             (MkWorld (cache w1) (db w1) (api_calls w1)
                (log w1 ++ [(WARNING, "Failed to generate embedding: " +:+ msg e1)]))
             (or_introl eq_refl)) by (cbn [db]; rewrite Hdb; exact Hacc).
  cbn [truthy_embedding db cache api_calls log].
  match goal with
  | |- context [on_cache (SessionCache.invalidate_session_memories ?s) ?w2] =>
      destruct (on_cache_invalidate_memories s w2) as [c3 E3]; rewrite !E3
  end.
  cbn [snd db api_calls log].
  match goal with
  | |- context [on_cache (SessionCache.invalidate_session_description ?s) ?w3] =>
      destruct (on_cache_invalidate_description s w3) as [c4 E4]; rewrite !E4
  end.
  cbn [fst snd db log session_memories]. rewrite Hdb, Hlog.
  repeat split.
Qed.

(** The embedding provider answers 503, the summarization works. *)
Lemma C6_witness_provider_down :
  let out := smart_copy true (fun _ => Ok "a summary")
               (fun _ => Raise (Exn APIError "503") : result (list Sample.num))
               (MkRequest "some text" "s1" "u1" (Some "mac-app"))
               (MkWorld (live (Redis.Server ∅ 0)) (MkDatastore [] []) [] []) in
  fst out = Ok (MkResponse "saved" "mem-0" 9 9 "a summary")
  /\ session_memories (db (snd out))
     = [StoredRow "mem-0" (MemoryRow "s1" "u1" "some text" (Value "a summary")
                                     (Some "mac-app") None)].
Proof.
  intros out.
  destruct (C6_embedding_failure_is_not_fatal true (fun _ => Ok "a summary")
              (fun _ => Raise (Exn APIError "503") : result (list Sample.num))
              (MkRequest "some text" "s1" "u1" (Some "mac-app"))
              (MkWorld (live (Redis.Server ∅ 0)) (MkDatastore [] []) [] [])
              "a summary" (Exn Exception_ "Failed to generate embedding: 503"))
    as (H1 & H2 & _);
    [reflexivity | vm_compute; reflexivity | reflexivity | reflexivity |].
  split; [exact H1 | exact H2].
Defined.












(* ===================================================================== *)
(** ** The worker loop                                                   *)
(* ===================================================================== *)

Section TaskQueueFacts.
Import TaskQueue.


Lemma set_worker_lookup_ne i j w q :
  i <> j -> workers (set_worker i w q) !! j = workers q !! j.
Proof. intros Hne. unfold set_worker; cbn. apply list_lookup_insert_ne. exact Hne. Qed.






End TaskQueueFacts.

(* ===================================================================== *)
(** ** stop() and the workers                                            *)
(* ===================================================================== *)

Section StopFacts.
Import TaskQueue.
Local Open Scope nat_scope.

Lemma count_workers_insert p ws i w0 w :
  ws !! i = Some w0 ->
  count_workers p (<[i := w]> ws) + (if p (at_ w0) then 1 else 0)
  = count_workers p ws + (if p (at_ w) then 1 else 0).
Proof.
  revert i. induction ws as [|a ws IH]; intros i Hi; [discriminate|].
  destruct i as [|i]; simpl in *.
  - injection Hi as ->. destruct (p (at_ w)), (p (at_ w0)); lia.
  - specialize (IH i Hi). destruct (p (at_ a)), (p (at_ w)), (p (at_ w0)); lia.
Qed.

Lemma stop_is_stuck_core q q' :
  queue_core q = queue_core q' -> stop_is_stuck q -> stop_is_stuck q'.
Proof.
  unfold queue_core, stop_is_stuck, counter_sound, count_at.
  intros Hcore. injection Hcore as -> -> -> -> ->. tauto.
Qed.

(** A worker that is resumed with the flag lowered leaves its loop. *)
Lemma loop_head_stopped_core i q :
  is_running q = false ->
  queue_core (loop_head i q) =
  (queue q, unfinished_tasks q, <[i := Worker Finished false]> (workers q),
   false, stop_at q).
Proof. intros Hr. unfold loop_head, queue_core. rewrite Hr. cbn. rewrite Hr. reflexivity. Qed.

Lemma task_ended_stopped_core i t0 q n :
  is_running q = false -> unfinished_tasks q = S n ->
  queue_core (task_ended i t0 q) =
  (queue q, n, <[i := Worker Finished false]> (workers q), false,
   finished_set n (stop_at q)).
Proof.
  intros Hr Hn. unfold task_ended.
  destruct (func t0) as [|e]; [|destruct (is_Exception e); [|destruct (cls e)]];
    unfold task_done_then, logger, cancelled_break, loop_head, queue_core;
    cbn; rewrite Hn; cbn; rewrite ?Hr; cbn; rewrite ?Hr; reflexivity.
Qed.

Lemma count_positive p ws i w0 :
  ws !! i = Some w0 -> p (at_ w0) = true -> 0 < count_workers p ws.
Proof.
  revert i. induction ws as [|a ws IH]; intros i Hi Hp; [discriminate|].
  destruct i as [|i]; simpl in *.
  - injection Hi as ->. rewrite Hp. lia.
  - specialize (IH i Hi Hp). destruct (p (at_ a)); lia.
Qed.

(** Once [stop()] is stuck it stays stuck, whatever is scheduled next:
    workers resumed, timeouts, further tasks enqueued. *)
Lemma stop_is_stuck_preserved ev q q' :
  stop_is_stuck q -> fire ev q = Some q' -> stop_is_stuck q'.
Proof.
  intros Hinv Hfire. pose proof Hinv as (Hr & Hs & Hc & Hcan & Hlt).
  unfold counter_sound, count_at in *.
  destruct ev as [i | i | uuid f | ]; cbn [fire] in Hfire.
  - (* a worker is resumed *)
    destruct (workers q !! i) as [[p c]|] eqn:Hw; [|discriminate].
    assert (c = false) as ->.
    { rewrite Forall_lookup in Hcan. exact (Hcan i _ Hw). }
    pose proof (count_workers_insert in_get (workers q) i _ (Worker Finished false) Hw) as Cg.
    pose proof (count_workers_insert in_task (workers q) i _ (Worker Finished false) Hw) as Ct.
    assert (Hcan' : Forall (fun w => cancel_requested w = false)
                      (<[i := Worker Finished false]> (workers q))).
    { apply Forall_insert; [exact Hcan | reflexivity]. }
    cbn [at_ in_get in_task] in Cg, Ct.
    destruct p as [| | t0 |].
    + injection Hfire as <-.
      unfold stop_is_stuck, counter_sound, count_at, worker_begin.
      pose proof (loop_head_stopped_core i
                    (logger INFO ("Worker " +:+ pretty i +:+ " started") q) Hr) as Hcore.
      unfold queue_core in Hcore. cbn [logger queue unfinished_tasks workers stop_at] in Hcore.
      injection Hcore as -> -> -> -> ->.
      cbn in Cg, Ct. repeat split; try assumption; lia.
    + destruct (queue q) as [|t1 rest] eqn:Hq; [discriminate|]. injection Hfire as <-.
      unfold got_item, logger, set_worker, stop_is_stuck, counter_sound, count_at.
      cbn [queue unfinished_tasks workers is_running stop_at].
      pose proof (count_workers_insert in_get (workers q) i _ (Worker (InTask t1) false) Hw) as Cg'.
      pose proof (count_workers_insert in_task (workers q) i _ (Worker (InTask t1) false) Hw) as Ct'.
      cbn [at_ in_get in_task] in Cg', Ct'. cbn [length] in *.
      repeat split; try assumption; try lia.
      apply Forall_insert; [exact Hcan | reflexivity].
    + injection Hfire as <-.
      assert (Hpos : 0 < count_workers in_task (workers q))
        by (eapply count_positive; [exact Hw | reflexivity]).
      destruct (unfinished_tasks q) as [|n] eqn:Hn; [lia|].
      unfold stop_is_stuck, counter_sound, count_at.
      pose proof (task_ended_stopped_core i t0 q n Hr Hn) as Hcore.
      unfold queue_core in Hcore. injection Hcore as -> -> -> -> ->.
      cbn in Cg, Ct. repeat split; try assumption; try lia.
      destruct n as [|n]; [lia | exact Hs].
    + discriminate.
  - (* the timeout of [wait_for] *)
    destruct (workers q !! i) as [[p c]|] eqn:Hw; [|discriminate].
    destruct p; try discriminate. destruct c; [discriminate|]. injection Hfire as <-.
    pose proof (count_workers_insert in_get (workers q) i _ (Worker Finished false) Hw) as Cg.
    pose proof (count_workers_insert in_task (workers q) i _ (Worker Finished false) Hw) as Ct.
    cbn [at_ in_get in_task] in Cg, Ct.
    unfold stop_is_stuck, counter_sound, count_at.
    pose proof (loop_head_stopped_core i q Hr) as Hcore.
    unfold queue_core in Hcore. injection Hcore as -> -> -> -> ->.
    repeat split; try assumption; try lia.
    apply Forall_insert; [exact Hcan | reflexivity].
  - (* a caller enqueues *)
    injection Hfire as <-.
    unfold enqueue, logger, stop_is_stuck, counter_sound, count_at.
    cbn [snd queue unfinished_tasks workers is_running stop_at].
    rewrite length_app. cbn [length]. repeat split; try assumption; lia.
  - (* [stop()] is resumed: [join()] has not been woken *)
    rewrite Hs in Hfire. discriminate.
Qed.

Lemma stop_is_stuck_run evs q q' :
  stop_is_stuck q -> run evs q = Some q' -> stop_is_stuck q'.
Proof.
  revert q. induction evs as [|ev evs IH]; intros q Hinv Hrun; cbn [run] in Hrun.
  - injection Hrun as <-. exact Hinv.
  - destruct (fire ev q) as [q1|] eqn:Hf; [|discriminate].
    apply (IH q1); [|exact Hrun]. exact (stop_is_stuck_preserved ev q q1 Hinv Hf).
Qed.

(** What [stop()] does hold to: it stays in [queue.join()] until
    [task_done] has brought the counter to zero, and it returns only when
    every worker is over. *)
Lemma stop_waits_in_join q : stop_at q = Joining -> fire StopResume q = None.
Proof. intros Hs. cbn [fire]. rewrite Hs. reflexivity. Qed.

Lemma join_is_woken_at_zero n s :
  finished_set n s = Woken -> s = Woken \/ (s = Joining /\ n = 0).
Proof. destruct n, s; cbn; intros E; try discriminate E; auto. Qed.

Lemma stop_leaves_join_once_woken q q' :
  stop_at q = Woken -> fire StopResume q = Some q' -> q' = after_join q.
Proof. intros Hs Hf. cbn [fire] in Hf. rewrite Hs in Hf. injection Hf as <-. reflexivity. Qed.

Lemma stop_returns_after_workers q q' :
  stop_at q = Gathering -> fire StopResume q = Some q' ->
  all_finished (workers q) = true /\ stop_at q' = Returned /\ workers q' = [].
Proof.
  intros Hs Hf. cbn [fire] in Hf. rewrite Hs in Hf.
  destruct (all_finished (workers q)); [|discriminate]. injection Hf as <-.
  repeat split.
Qed.

Lemma stop_gets_stuck q :
  is_running q = true ->
  counter_sound q ->
  Forall (fun w => cancel_requested w = false) (workers q) ->
  count_at in_get q < length (queue q) ->
  stop_is_stuck (stop q).
Proof.
  intros Hr Hc Hcan Hlt. unfold counter_sound, count_at in *.
  unfold stop. rewrite Hr. cbn [negb logger unfinished_tasks queue num_workers workers
                                is_running stop_at TaskQueue.log].
  destruct (unfinished_tasks q) as [|n] eqn:Hn; [lia|].
  unfold stop_is_stuck, counter_sound, count_at. cbn. repeat split; try assumption; lia.
Qed.

(** C2 (the code departs from the specification).  [stop()] lowers [is_running]
    before it waits in [queue.join()].  When more tasks are queued than
    workers are waiting in [queue.get()], then after any schedule of
    worker steps, timeouts and further enqueues, [stop()] is still waiting
    in [join()] and the queue still holds a task: every worker leaves its
    loop at the next test of [is_running], the queued tasks are claimed by
    nobody, and [stop()] neither cancels the workers nor returns. *)
Theorem C2_stop_never_drains_a_longer_queue
    (q : TaskQueue.t) (evs : list event) (q' : TaskQueue.t) :
  is_running q = true ->
  counter_sound q ->
  Forall (fun w => cancel_requested w = false) (workers q) ->
  count_at in_get q < length (queue q) ->
  run evs (stop q) = Some q' ->
  stop_at q' = Joining /\ queue q' <> [] /\ is_running q' = false.
Proof.
  intros Hr Hc Hcan Hlt Hrun.
  pose proof (stop_is_stuck_run evs (stop q) q' (stop_gets_stuck q Hr Hc Hcan Hlt) Hrun)
    as (Hr' & Hs' & _ & _ & Hlt').
  repeat split; try assumption.
  intros Hnil. rewrite Hnil in Hlt'. cbn in Hlt'. lia.
Qed.

(** Two workers are executing [t1] and [t2], a third task is queued, and
    [stop()] is called; then both tasks end. *)
Lemma C2_witness_third_task_is_never_claimed :
  let t1 := Task "id-1" Returns in
  let t2 := Task "id-2" Returns in
  let t3 := Task "id-3" Returns in
  let q := Make [t3] 3 2 [Worker (InTask t1) false; Worker (InTask t2) false]
                true NotCalled [] in
  exists q',
    run [Resume 0; Resume 1] (stop q) = Some q'
    /\ stop_at q' = Joining /\ queue q' <> [] /\ is_running q' = false.
Proof.
  intros t1 t2 t3 q. eexists. split; [vm_compute; reflexivity|].
  apply (C2_stop_never_drains_a_longer_queue q [Resume 0; Resume 1]).
  - reflexivity.
  - reflexivity.
  - repeat constructor.
  - cbn. lia.
  - vm_compute. reflexivity.
Defined.

(** The same run from a fresh queue, through [start] and [enqueue]: at the
    end both workers are over, the third task is still queued, [stop()] is
    in [join()], and no worker event, timeout or resumption of [stop()] is
    enabled any more. *)
Lemma stop_deadlock_from_a_fresh_queue :
  let q0 := snd (enqueue "id-3" Returns
              (snd (enqueue "id-2" Returns
                 (snd (enqueue "id-1" Returns (start (init 2))))))) in
  exists q1 q2,
    run [Resume 0; Resume 1; Resume 0; Resume 1] q0 = Some q1
    /\ run [Resume 0; Resume 1] (stop q1) = Some q2
    /\ workers q2 = [Worker Finished false; Worker Finished false]
    /\ queue q2 = [Task "id-3" Returns]
    /\ unfinished_tasks q2 = 1
    /\ stop_at q2 = Joining
    /\ fire (Resume 0) q2 = None /\ fire (Resume 1) q2 = None
    /\ fire (Timeout 0) q2 = None /\ fire (Timeout 1) q2 = None
    /\ fire StopResume q2 = None.
Proof.
  eexists. eexists. split; [vm_compute; reflexivity|].
  split; [vm_compute; reflexivity|]. vm_compute. repeat split.
Qed.

(** [join()] is woken when the last task ends; a task enqueued before
    [stop()] runs again does not hold it back: [stop()] cancels the
    workers and returns with the new task still queued. *)
Lemma join_returns_after_a_late_enqueue :
  let q := Make [] 1 1 [Worker (InTask (Task "id-1" Returns)) false] true NotCalled [] in
  exists q1 q2,
    stop_at (stop q) = Joining
    /\ run [Resume 0] (stop q) = Some q1
    /\ stop_at q1 = Woken /\ unfinished_tasks q1 = 0
    /\ run [Enqueue "id-2" Returns; StopResume; StopResume] q1 = Some q2
    /\ stop_at q2 = Returned
    /\ queue q2 = [Task "id-2" Returns] /\ unfinished_tasks q2 = 1.
Proof.
  eexists. eexists. split; [reflexivity|].
  split; [vm_compute; reflexivity|]. split; [reflexivity|]. split; [reflexivity|].
  split; [vm_compute; reflexivity|]. repeat split.
Qed.

(** With nothing queued and nothing running, [stop()] does return. *)
Lemma stop_returns_on_an_idle_queue :
  exists q1 q2,
    run [Resume 0; Resume 1] (start (init 2)) = Some q1
    /\ run [Resume 0; Resume 1; StopResume] (stop q1) = Some q2
    /\ stop_at q2 = Returned /\ workers q2 = [] /\ queue q2 = [].
Proof.
  eexists. eexists. split; [vm_compute; reflexivity|].
  split; [vm_compute; reflexivity|]. vm_compute. repeat split.
Qed.

End StopFacts.

(* ===================================================================== *)
(** ** The session cache: warming, round trips and lifetimes             *)
(* ===================================================================== *)

Lemma str_length_app a b : String.length (a +:+ b) = (String.length a + String.length b)%nat.
Proof.
  induction a as [|x a IH]; [reflexivity|].
  change (String x a +:+ b) with (String x (a +:+ b)). cbn [String.length]. rewrite IH. reflexivity.
Qed.

Lemma session_key_is_not_a_sub_key sid rest :
  SessionCache._session_key sid <> "session:" +:+ sid +:+ String ":" rest.
Proof.
  unfold SessionCache._session_key. intros Heq.
  apply (f_equal String.length) in Heq. rewrite !str_length_app in Heq.
  cbn [String.length] in Heq. lia.
Qed.

Section WarmFacts.
Context {json : Type} `{!JsonCodec json}.

Lemma warm_session_cache_live sid (data mems : json) srv :
  SessionCache.warm_session_cache sid data mems (live srv) =
  (Ok tt,
   live (Redis.Server
           (<[SessionCache._session_memories_key sid :=
                Redis.Entry (json_dumps mems) (Some (Redis.now srv + 600))]>
              (<[SessionCache._session_key sid :=
                   Redis.Entry (json_dumps data) (Some (Redis.now srv + 3600))]>
                 (Redis.store srv)))
           (Redis.now srv))).
Proof.
  unfold SessionCache.warm_session_cache, try_except, bind.
  rewrite set_live by (unfold Redis.max_seconds; lia).
  rewrite set_live by (unfold Redis.max_seconds; lia). reflexivity.
Qed.

(** X1. [warm_session_cache] then the two readers, on a live cache: [dt]
    seconds after the warming, [get_session] returns the session data that
    was stored while [dt < 3600] and [get_session_memories] the memories
    while [dt < 600]; from then on each of them misses. *)
Theorem warm_session_cache_round_trip sid (data mems : json) srv dt :
  let c := elapse dt (snd (SessionCache.warm_session_cache sid data mems (live srv))) in
  fst (SessionCache.get_session sid c)
  = Ok (if bool_decide (dt < 3600) then Some data else None)
  /\ fst (SessionCache.get_session_memories sid c)
     = Ok (if bool_decide (dt < 600) then Some mems else None).
Proof.
  intros c. subst c. rewrite warm_session_cache_live. cbn [snd].
  rewrite elapse_live, get_session_live, get_session_memories_live. cbn [fst].
  split.
  - unfold Redis.GET, Redis.lookup_live, Redis.advance. cbn [Redis.store Redis.now].
    rewrite lookup_insert_ne.
    2:{ intros Heq. symmetry in Heq. exact (session_key_is_not_a_sub_key sid "memories" Heq). }
    rewrite lookup_insert_eq. unfold Redis.alive. cbn.
    destruct (decide (dt < 3600)).
    + rewrite !bool_decide_eq_true_2 by lia. cbn.
      rewrite json_dumps_truthy, json_loads_dumps. reflexivity.
    + rewrite !bool_decide_eq_false_2 by lia. reflexivity.
  - unfold Redis.GET, Redis.lookup_live, Redis.advance. cbn [Redis.store Redis.now].
    rewrite lookup_insert_eq. unfold Redis.alive. cbn.
    destruct (decide (dt < 600)).
    + rewrite !bool_decide_eq_true_2 by lia. cbn.
      rewrite json_dumps_truthy, json_loads_dumps. reflexivity.
    + rewrite !bool_decide_eq_false_2 by lia. reflexivity.
Qed.

End WarmFacts.

Lemma invalidate_session_description_on_live sid srv :
  SessionCache.invalidate_session_description sid (live srv)
  = (Ok tt, live (Redis.DEL [SessionCache._session_description_key sid] srv)).
Proof.
  unfold SessionCache.invalidate_session_description, bind. rewrite delete_live. reflexivity.
Qed.

(** X2. A description that is not empty, stored on a live cache, is read
    back unchanged for the next 3600 seconds, and
    [invalidate_session_description] makes the next read a miss. *)
Theorem description_cache_round_trip (sid d : string) (srv : Redis.server) (dt : Z) :
  truthy_str d = true -> dt < 3600 ->
  let c := elapse dt (snd (SessionCache.set_session_description sid d (live srv))) in
  fst (SessionCache.get_session_description sid c) = Ok (Some d)
  /\ fst (SessionCache.get_session_description sid
            (snd (SessionCache.invalidate_session_description sid c))) = Ok None.
Proof.
  intros Hd Hdt c. subst c. rewrite set_session_description_live. cbn [snd].
  rewrite elapse_live. split.
  - rewrite get_session_description_live. cbn [fst].
    rewrite GET_after_SETEX_and_wait, bool_decide_eq_true_2 by lia. rewrite Hd. reflexivity.
  - rewrite invalidate_session_description_on_live. cbn [snd].
    rewrite get_session_description_live. cbn [fst].
    rewrite GET_DEL, bool_decide_eq_true_2 by (apply list_elem_of_here). reflexivity.
Qed.

Lemma description_cache_round_trip_witness :
  let c := elapse 3599 (snd (SessionCache.set_session_description "abc" "Notes on the cache layer"
                               (live (Redis.Server ∅ 0)))) in
  fst (SessionCache.get_session_description "abc" c) = Ok (Some "Notes on the cache layer")
  /\ fst (SessionCache.get_session_description "abc"
            (snd (SessionCache.invalidate_session_description "abc" c))) = Ok None.
Proof.
  apply (description_cache_round_trip "abc" "Notes on the cache layer" (Redis.Server ∅ 0) 3599).
  - reflexivity.
  - lia.
Defined.

Section EmbeddingRoundTrip.
Context {pyfloat : Type} `{!JsonCodec (list pyfloat)} `{!Sha256}.

(** X3. [save_embedding] then [get_embedding] of the same text, on a live
    cache and with [0 < ttl_seconds < 2^32]: the vector comes back unchanged
    while less than [ttl_seconds] seconds have passed, and the read misses
    from then on.  With a [ttl_seconds] of 9223372036854775 or more the
    server refuses the command and [save_embedding] stores nothing. *)
Theorem embedding_cache_round_trip text (v : list pyfloat) ttl srv dt :
  (0 < ttl < 2 ^ 32 ->
   fst (EmbeddingCache.get_embedding text
          (elapse dt (snd (EmbeddingCache.save_embedding text v ttl (live srv)))))
   = Ok (if bool_decide (dt < ttl) then Some v else None))
  /\ (Redis.max_seconds <= ttl ->
      EmbeddingCache.save_embedding text v ttl (live srv) = (Ok tt, live srv)).
Proof.
  split.
  - intros Httl.
    rewrite save_embedding_live by (unfold Redis.max_seconds; lia). cbn [snd].
    rewrite elapse_live, get_embedding_live. cbn [fst].
    rewrite GET_after_SETEX_and_wait.
    destruct (decide (dt < ttl)).
    + rewrite !bool_decide_eq_true_2 by lia.
      rewrite json_dumps_truthy, json_loads_dumps. reflexivity.
    + rewrite !bool_decide_eq_false_2 by lia. reflexivity.
  - intros Httl. rewrite live_eq.
    unfold EmbeddingCache.save_embedding, RedisCache.set, try_except, bind, RedisCache.call,
      Redis.setex, Redis.command, Redis.SETEX; simpl.
    destruct (Z.leb_spec Redis.max_seconds ttl) as [_|Hlt]; [|lia].
    rewrite orb_true_r. reflexivity.
Qed.

End EmbeddingRoundTrip.

Lemma embedding_cache_round_trip_witness :
  fst (EmbeddingCache.get_embedding "hello"
         (elapse 86399
            (snd (EmbeddingCache.save_embedding "hello" [Sample.N1; Sample.N0]
                    EmbeddingCache.default_ttl_seconds (live (Redis.Server ∅ 0))))))
  = Ok (Some [Sample.N1; Sample.N0])
  /\ fst (EmbeddingCache.get_embedding "hello"
         (elapse 86400
            (snd (EmbeddingCache.save_embedding "hello" [Sample.N1; Sample.N0]
                    EmbeddingCache.default_ttl_seconds (live (Redis.Server ∅ 0))))))
  = Ok None
  /\ EmbeddingCache.save_embedding "hello" [Sample.N1; Sample.N0] 9223372036854775807
       (live (Redis.Server ∅ 0))
     = (Ok tt, live (Redis.Server ∅ 0)).
Proof.
  split; [|split].
  - apply (proj1 (embedding_cache_round_trip "hello" [Sample.N1; Sample.N0] 86400
                    (Redis.Server ∅ 0) 86399)). lia.
  - apply (proj1 (embedding_cache_round_trip "hello" [Sample.N1; Sample.N0] 86400
                    (Redis.Server ∅ 0) 86400)). lia.
  - apply (proj2 (embedding_cache_round_trip "hello" [Sample.N1; Sample.N0]
                    9223372036854775807 (Redis.Server ∅ 0) 0)).
    unfold Redis.max_seconds. lia.
Defined.

(** X4. [RedisCache.set] with [ttl_seconds <= 0] on a live cache: the
    server refuses the command, the method swallows the error, returns
    [False] and stores nothing. *)
Theorem set_refuses_a_non_positive_ttl (key value : string) (ttl : Z) (srv : Redis.server) :
  ttl <= 0 ->
  RedisCache.set key value ttl (live srv) = (Ok false, live srv).
Proof.
  intros Httl. rewrite !live_eq.
  unfold RedisCache.set, try_except, bind, RedisCache.call; simpl.
  unfold Redis.setex, Redis.command, Redis.SETEX; simpl.
  destruct (Z.leb_spec ttl 0); [reflexivity | lia].
Qed.

Lemma set_refuses_a_non_positive_ttl_witness :
  RedisCache.set "session:abc" "{}" 0 (live (Redis.Server ∅ 0))
  = (Ok false, live (Redis.Server ∅ 0)).
Proof.
  apply (set_refuses_a_non_positive_ttl "session:abc" "{}" 0 (Redis.Server ∅ 0)). lia.
Defined.

(* ===================================================================== *)
(** ** What [invalidate_session] removes and what it leaves              *)
(* ===================================================================== *)

(** A pattern that starts with an ordinary character matches only keys
    that start with it. *)
Lemma glob_match_first_char c p k :
  Redis.is_meta c = false ->
  Redis.glob_match (String c p) k = true -> exists k', k = String c k'.
Proof.
  intros Hc. unfold Redis.glob_match. rewrite (glob_parse_literal c p Hc).
  destruct k as [|d k]; cbn [Redis.toks_match]; [discriminate|].
  rewrite andb_true_iff. unfold Redis.ascii_eqb at 1. rewrite bool_decide_eq_true.
  intros [-> _]. eauto.
Qed.

Lemma GET_after_invalidate_session sid srv k :
  k <> SessionCache._session_key sid ->
  Redis.glob_match ("session:" +:+ sid +:+ ":*") k = false ->
  Redis.GET k
    (Redis.DEL [SessionCache._session_key sid]
       (Redis.DEL (Redis.KEYS ("session:" +:+ sid +:+ ":*") srv) srv))
  = Redis.GET k srv.
Proof.
  intros Hne Hm. rewrite GET_DEL.
  rewrite bool_decide_eq_false_2.
  2:{ rewrite elem_of_cons. intros [|Hin]; [congruence|]. inversion Hin. }
  rewrite GET_DEL. rewrite bool_decide_eq_false_2; [reflexivity|].
  rewrite elem_of_KEYS. intros [Hm' _]. congruence.
Qed.

Section InvalidateSession.
Context {json : Type} `{!JsonCodec json}.
Context {pyfloat : Type} `{!JsonCodec (list pyfloat)} `{!Sha256}.

(** X5. [invalidate_session] never touches a cached embedding: on a live
    cache [get_embedding] answers after it what it answered before, for
    every session id and every text. *)
Theorem invalidate_session_keeps_the_embeddings (sid text : string) (srv : Redis.server) :
  fst (EmbeddingCache.get_embedding (pyfloat := pyfloat) text
         (snd (SessionCache.invalidate_session sid (live srv))))
  = fst (EmbeddingCache.get_embedding text (live srv)).
Proof.
  rewrite invalidate_session_live. cbn [snd]. rewrite !get_embedding_live. cbn [fst].
  rewrite GET_after_invalidate_session; [reflexivity | |].
  - intros Heq. symmetry in Heq. exact (embedding_key_is_no_session_key text sid Heq).
  - destruct (Redis.glob_match _ _) eqn:E; [|reflexivity].
    change ("session:" +:+ sid +:+ ":*")
      with (String "s" ("ession:" +:+ sid +:+ ":*")) in E.
    apply glob_match_first_char in E as [k' Hk]; [|reflexivity].
    unfold EmbeddingCache._embedding_key in Hk. discriminate Hk.
Qed.

(** X6. [invalidate_session] for an id without pattern characters, on a
    live cache: the session, its memories and its description are misses
    afterwards, and every key that is neither ["session:<id>"] nor starts
    with ["session:<id>:"] reads as before. *)
Theorem invalidate_session_removes_the_keys_of_the_session_only
    (sid : string) (srv : Redis.server) :
  pattern_free sid = true ->
  exists srv',
    snd (SessionCache.invalidate_session sid (live srv)) = live srv'
    /\ fst (SessionCache.get_session (json := json) sid (live srv')) = Ok None
    /\ fst (SessionCache.get_session_memories (json := json) sid (live srv')) = Ok None
    /\ fst (SessionCache.get_session_description sid (live srv')) = Ok None
    /\ forall k,
         k <> "session:" +:+ sid ->
         (forall rest, k <> "session:" +:+ sid +:+ ":" +:+ rest) ->
         Redis.GET k srv' = Redis.GET k srv.
Proof.
  intros Hfree. eexists. split; [rewrite invalidate_session_live; reflexivity|].
  rewrite get_session_live, get_session_memories_live, get_session_description_live.
  cbn [fst]. rewrite !session_keys_gone; try exact Hfree.
  - repeat split. intros k Hk Hsub. apply GET_after_invalidate_session; [exact Hk|].
    destruct (Redis.glob_match _ _) eqn:E; [|reflexivity]. exfalso.
    assert (Hp : pattern_free ("session:" +:+ sid +:+ ":") = true).
    { rewrite !pattern_free_app, Hfree. reflexivity. }
    replace ("session:" +:+ sid +:+ ":*") with (("session:" +:+ sid +:+ ":") +:+ "*") in E
      by (rewrite !str_app_assoc; reflexivity).
    apply (glob_literal_star _ _ Hp) in E as [rest Hr].
    apply (Hsub rest). rewrite Hr, !str_app_assoc. reflexivity.
  - right. exists "description". reflexivity.
  - right. exists "memories". reflexivity.
  - left. reflexivity.
Qed.

End InvalidateSession.

Lemma invalidate_session_removes_the_keys_of_the_session_only_witness :
  exists srv',
    snd (SessionCache.invalidate_session "abc"
           (live (Redis.Server (<["session:abcd:memories" := Redis.Entry "[1]" None]>
                                  (<["session:abc:memories" := Redis.Entry "[0]" None]> ∅)) 0)))
    = live srv'
    /\ fst (SessionCache.get_session_memories (json := list Sample.num) "abc" (live srv')) = Ok None
    /\ Redis.GET "session:abcd:memories" srv' = Some "[1]".
Proof.
  destruct (invalidate_session_removes_the_keys_of_the_session_only (json := list Sample.num) "abc"
              (Redis.Server (<["session:abcd:memories" := Redis.Entry "[1]" None]>
                               (<["session:abc:memories" := Redis.Entry "[0]" None]> ∅)) 0)
              eq_refl)
    as (srv' & H1 & _ & H3 & _ & H5).
  exists srv'. split; [exact H1|]. split; [exact H3|].
  rewrite H5; [reflexivity | discriminate | intros rest; discriminate].
Defined.

(* ===================================================================== *)
(** ** The cache object over its lifetime                                *)
(* ===================================================================== *)

(** A cache that was disabled at startup answers every operation with
    its neutral result and is left as it was. *)
Lemma a_cache_disabled_at_startup_stays_inert
    (handle : Redis.client) (key value pattern : string) (ttl : Z) :
  next_command_fails handle ->
  let c := RedisCache.init handle in
  RedisCache.get key c = (Ok None, c)
  /\ RedisCache.set key value ttl c = (Ok false, c)
  /\ RedisCache.delete key c = (Ok false, c)
  /\ RedisCache.delete_pattern pattern c = (Ok false, c)
  /\ server_of_cache c = None.
Proof.
  intros Hf c. subst c. rewrite (init_down handle Hf). repeat split.
Qed.

Lemma a_cache_disabled_at_startup_stays_inert_witness :
  let c := RedisCache.init (Redis.Client (Redis.Server ∅ 0) [Redis.TimesOut]) in
  RedisCache.get "session:abc" c = (Ok None, c)
  /\ RedisCache.set "session:abc" "{}" 3600 c = (Ok false, c)
  /\ RedisCache.delete "session:abc" c = (Ok false, c)
  /\ RedisCache.delete_pattern "session:abc:*" c = (Ok false, c)
  /\ server_of_cache c = None.
Proof.
  apply (a_cache_disabled_at_startup_stays_inert
           (Redis.Client (Redis.Server ∅ 0) [Redis.TimesOut]) "session:abc" "{}" "session:abc:*" 3600).
  exists Redis.TimesOut, []. split; [reflexivity | discriminate].
Defined.

(** X7. The guard [not self.enabled or not self.client] has the same
    value after [get], [set], [delete] and [delete_pattern] as before them,
    on every cache object: no operation disables a cache that failed, and
    none enables one that was disabled at startup. *)
Theorem no_operation_switches_the_cache_on_or_off
    (c : RedisCache.t) (key value pattern : string) (ttl : Z) :
  RedisCache.unavailable (snd (RedisCache.get key c)) = RedisCache.unavailable c
  /\ RedisCache.unavailable (snd (RedisCache.set key value ttl c)) = RedisCache.unavailable c
  /\ RedisCache.unavailable (snd (RedisCache.delete key c)) = RedisCache.unavailable c
  /\ RedisCache.unavailable (snd (RedisCache.delete_pattern pattern c))
     = RedisCache.unavailable c.
Proof.
  destruct c as [[[srv scr]|] en].
  2:{ destruct en; repeat split; reflexivity. }
  destruct en; [|repeat split; reflexivity].
  repeat split.
  - unfold RedisCache.get, try_except, bind; simpl.
    destruct scr as [|[] scr]; simpl; try reflexivity;
      destruct (Redis.GET key srv) as [v|]; [destruct (truthy_str v)| | destruct (truthy_str v)|];
      reflexivity.
  - unfold RedisCache.set, try_except, bind, Redis.setex, Redis.command, Redis.SETEX; simpl.
    destruct scr as [|[] scr]; simpl; try reflexivity;
      destruct (ttl <=? 0), (Redis.max_seconds <=? ttl); reflexivity.
  - unfold RedisCache.delete, try_except, bind; simpl.
    destruct scr as [|[] scr]; reflexivity.
  - unfold RedisCache.delete_pattern, try_except, bind; simpl.
    destruct scr as [|[] scr]; simpl; try reflexivity;
      destruct (Redis.KEYS pattern srv) as [|k ks]; simpl; try reflexivity.
    destruct scr as [|[] scr]; reflexivity.
Qed.

(* ===================================================================== *)
(** ** EmbeddingService.create_embedding on any cache                    *)
(* ===================================================================== *)

Lemma str_take_length n s : 0 <= n -> str_len (str_take n s) <= n.
Proof.
  revert n. induction s as [|c s IH]; intros n Hn; unfold str_len in *; cbn [str_take String.length].
  - cbn. lia.
  - destruct (Z.leb_spec n 0); cbn [String.length]; [lia|].
    specialize (IH (n - 1)). lia.
Qed.

Lemma str_take_all n s : str_len s <= n -> str_take n s = s.
Proof.
  revert n. induction s as [|c s IH]; intros n Hn; unfold str_len in *; cbn [str_take String.length] in *.
  - reflexivity.
  - destruct (Z.leb_spec n 0); [lia|]. rewrite IH by lia. reflexivity.
Qed.

Section CreateEmbeddingAnyCache.
Context {pyfloat : Type} `{!JsonCodec (list pyfloat)} `{!Sha256}.
Implicit Types (w : @World pyfloat) (v : list pyfloat).

Lemma truncate_length text : str_len (truncate text) <= 30000.
Proof.
  unfold truncate. destruct (Z.ltb_spec 30000 (str_len text)); [|lia].
  apply str_take_length. lia.
Qed.

Lemma truncate_idempotent text : truncate (truncate text) = truncate text.
Proof. apply truncate_short, truncate_length. Qed.

(** [get_embedding] and [save_embedding] return on every cache object. *)
Lemma get_embedding_returns text (c : RedisCache.t) :
  exists r, fst (EmbeddingCache.get_embedding (pyfloat := pyfloat) text c) = Ok r.
Proof.
  unfold EmbeddingCache.get_embedding, try_except, bind, lift_result.
  destruct (operations_never_raise c (EmbeddingCache._embedding_key text) "" 0 "") as (Hg & _).
  destruct (RedisCache.get _ c) as [[[s|]|e] c']; cbn [fst] in *; try discriminate; eauto.
  destruct (truthy_str s); eauto.
  destruct (json_loads s) as [v|e] eqn:L; eauto.
  rewrite (json_loads_error s e L). eauto.
Qed.

Lemma save_embedding_returns text v ttl (c : RedisCache.t) :
  fst (EmbeddingCache.save_embedding text v ttl c) = Ok tt.
Proof.
  unfold EmbeddingCache.save_embedding, try_except, bind.
  destruct (operations_never_raise c (EmbeddingCache._embedding_key text) (json_dumps v) ttl "")
    as (_ & Hs & _).
  destruct (RedisCache.set _ _ _ c) as [[b|e] c']; cbn [fst] in *; [reflexivity | discriminate].
Qed.

Lemma generate_result has_cache api text w :
  fst (generate has_cache api text w) = api text
  /\ api_calls (snd (generate has_cache api text w)) = (api_calls w ++ [text])%list.
Proof.
  unfold generate, bind, embeddings_create.
  destruct (api text) as [v|e]; cbn [fst snd]; [|split; reflexivity].
  destruct has_cache; [|split; reflexivity].
  match goal with
  | |- context [on_cache ?m ?w1] =>
      destruct (on_cache_frame m w1) as (_ & Hc & _ & _ & Hr);
      pose proof (save_embedding_returns text v EmbeddingCache.default_ttl_seconds (cache w1)) as Hs;
      destruct (on_cache m w1) as [[[]|e] w2]
  end; cbn [fst snd api_calls] in *.
  - split; [reflexivity | exact Hc].
  - rewrite Hs in Hr. discriminate.
Qed.

Lemma create_embedding_cases has_cache api text w :
  let out := create_embedding has_cache api text w in
  match cached_vector has_cache text w with
  | Some v => fst out = Ok v /\ api_calls (snd out) = api_calls w
  | None =>
      api_calls (snd out) = (api_calls w ++ [truncate text])%list
      /\ match api (truncate text) with
         | Ok v => fst out = Ok v
         | Raise e =>
             fst out = if is_Exception e
                       then Raise (Exn Exception_ ("Failed to generate embedding: " +:+ msg e))
                       else Raise e
         end
  end.
Proof.
  intros out. subst out. unfold cached_vector, create_embedding, try_except, bind.
  assert (G : forall w0,
    api_calls w0 = api_calls w ->
    let g := generate has_cache api (truncate text) w0 in
    api_calls (snd (match g with
                    | (Ok a, s') => (Ok a, s')
                    | (Raise e, s') =>
                        if is_Exception e
                        then raise (Exn Exception_ ("Failed to generate embedding: " +:+ msg e)) s'
                        else (Raise e, s')
                    end)) = (api_calls w ++ [truncate text])%list
    /\ match api (truncate text) with
       | Ok v => fst (match g with
                    | (Ok a, s') => (Ok a, s')
                    | (Raise e, s') =>
                        if is_Exception e
                        then raise (Exn Exception_ ("Failed to generate embedding: " +:+ msg e)) s'
                        else (Raise e, s')
                    end) = Ok v
       | Raise e => fst (match g with
                    | (Ok a, s') => (Ok a, s')
                    | (Raise e, s') =>
                        if is_Exception e
                        then raise (Exn Exception_ ("Failed to generate embedding: " +:+ msg e)) s'
                        else (Raise e, s')
                    end) = if is_Exception e
                       then Raise (Exn Exception_ ("Failed to generate embedding: " +:+ msg e))
                       else Raise e
       end).
  { intros w0 Hw0 g. subst g.
    destruct (generate_result has_cache api (truncate text) w0) as [Hr Hc].
    rewrite Hw0 in Hc.
    destruct (generate has_cache api (truncate text) w0) as [[v|e] w2]; cbn [fst snd] in *;
      rewrite <- Hr.
    - split; [exact Hc | reflexivity].
    - destruct (is_Exception e); cbn [fst snd raise]; split; auto. }
  destruct has_cache.
  - destruct (on_cache_frame (EmbeddingCache.get_embedding (truncate text)) w)
      as (_ & Hc & _ & _ & Hr).
    destruct (get_embedding_returns (truncate text) (cache w)) as [r Hret].
    rewrite Hret in *.
    destruct (on_cache (EmbeddingCache.get_embedding (truncate text)) w) as [[c|e] w1];
      cbn [fst snd] in *; [|discriminate].
    injection Hr as ->.
    destruct r as [v|]; [destruct (truthy_list v)|].
    + split; [reflexivity | exact Hc].
    + exact (G w1 Hc).
    + exact (G w1 Hc).
  - cbn [ret]. exact (G w eq_refl).
Qed.

(** A degraded cache answers the lookup with a miss. *)
Lemma cached_vector_degraded text w :
  degraded (cache w) -> cached_vector true text w = None.
Proof.
  intros Hd. unfold cached_vector, EmbeddingCache.get_embedding, try_except, bind.
  assert (Hg : fst (RedisCache.get (EmbeddingCache._embedding_key (truncate text)) (cache w))
               = Ok None).
  { destruct Hd as [(handle & Hf & Hc) | (h & Hc & Hf)].
    - rewrite Hc, (init_down handle Hf). reflexivity.
    - exact (get_fails _ (cache w) h Hc Hf). }
  destruct (RedisCache.get _ (cache w)) as [r c']. cbn [fst] in Hg. subst r. reflexivity.
Qed.

(** X8. [create_embedding] sends the provider no request or exactly one,
    for every cache state and every provider; the text of the request has at
    most 30000 characters and is the given text when that has no more. *)
Theorem create_embedding_asks_the_provider_at_most_once
    (has_cache : bool) (api : string -> result (list pyfloat)) (text : string) w :
  let out := create_embedding has_cache api text w in
  (api_calls (snd out) = api_calls w
   \/ api_calls (snd out) = (api_calls w ++ [truncate text])%list)
  /\ str_len (truncate text) <= 30000
  /\ (str_len text <= 30000 -> truncate text = text).
Proof.
  intros out. split; [|split; [apply truncate_length | apply truncate_short]].
  pose proof (create_embedding_cases has_cache api text w) as Hcase. cbv zeta in Hcase.
  destruct (cached_vector has_cache text w); [left | right]; apply Hcase.
Qed.

(** X9. Without an injected cache, or with a cache whose backend is down,
    [create_embedding] returns what the provider answers for the truncated
    text and sends exactly that one request. *)
Theorem create_embedding_works_without_a_usable_cache
    (has_cache : bool) (api : string -> result (list pyfloat)) (text : string) w v :
  has_cache = false \/ degraded (cache w) ->
  api (truncate text) = Ok v ->
  let out := create_embedding has_cache api text w in
  fst out = Ok v /\ api_calls (snd out) = (api_calls w ++ [truncate text])%list.
Proof.
  intros Hc Hapi out.
  pose proof (create_embedding_cases has_cache api text w) as Hcase. cbv zeta in Hcase.
  assert (Hnone : cached_vector has_cache text w = None).
  { destruct Hc as [-> | Hd]; [reflexivity|].
    destruct has_cache; [exact (cached_vector_degraded text w Hd) | reflexivity]. }
  rewrite Hnone, Hapi in Hcase. destruct Hcase as [H1 H2]. split; assumption.
Qed.

(** X10. When the cache has no vector for the text and the provider raises
    an instance of [Exception], [create_embedding] raises
    [Exception("Failed to generate embedding: " + str(e))]; the datastore is
    untouched and a live cache holds what it held. *)
Theorem create_embedding_wraps_the_provider_error
    (has_cache : bool) (api : string -> result (list pyfloat)) (text : string) w e :
  api (truncate text) = Raise e ->
  is_Exception e = true ->
  cached_vector has_cache text w = None ->
  let out := create_embedding has_cache api text w in
  fst out = Raise (Exn Exception_ ("Failed to generate embedding: " +:+ msg e))
  /\ db (snd out) = db w
  /\ (forall srv, cache w = live srv -> cache (snd out) = live srv).
Proof.
  intros Hapi He Hnone out.
  pose proof (create_embedding_cases has_cache api text w) as Hcase. cbv zeta in Hcase.
  rewrite Hnone, Hapi, He in Hcase. destruct Hcase as [_ Hcase]. split; [exact Hcase|].
  split; [apply create_embedding_frame|].
  intros srv Hsrv. subst out.
  unfold create_embedding, try_except, bind.
  destruct w as [c d calls lg]. cbn [cache] in Hsrv. subst c.
  assert (G : forall w0 : @World pyfloat, cache w0 = live srv ->
            cache (snd (generate has_cache api (truncate text) w0)) = live srv).
  { intros w0 Hw0. unfold generate, bind, embeddings_create. rewrite Hapi. exact Hw0. }
  destruct has_cache.
  - unfold on_cache at 1, zoom. cbn [cache]. rewrite get_embedding_live.
    cbn [fst snd db api_calls log].
    match goal with
    | |- context [match ?o with Some v => _ | None => _ end] => destruct o as [v|]
    end; [destruct (truthy_list v); [reflexivity|]|].
    all: specialize (G (MkWorld (live srv) d calls lg) eq_refl);
      destruct (generate true api (truncate text) _) as [[v'|e'] w2]; cbn [fst snd] in *;
      [|destruct (is_Exception e')]; cbn [fst snd raise]; exact G.
  - cbn [ret]. specialize (G (MkWorld (live srv) d calls lg) eq_refl).
    destruct (generate false api (truncate text) _) as [[v'|e'] w2]; cbn [fst snd] in *;
      [|destruct (is_Exception e')]; cbn [fst snd raise]; exact G.
Qed.

End CreateEmbeddingAnyCache.

Lemma create_embedding_works_without_a_usable_cache_witness :
  let down := RedisCache.init (Redis.Client (Redis.Server ∅ 0) [Redis.ConnectionFails]) in
  let w := MkWorld down (MkDatastore [] []) [] [] in
  let out := create_embedding true (fun _ => Ok [Sample.N1; Sample.N0]) "hello" w in
  fst out = Ok [Sample.N1; Sample.N0] /\ api_calls (snd out) = ["hello"].
Proof.
  apply (create_embedding_works_without_a_usable_cache true
           (fun _ => Ok [Sample.N1; Sample.N0]) "hello"
           (MkWorld (RedisCache.init (Redis.Client (Redis.Server ∅ 0) [Redis.ConnectionFails]))
                    (MkDatastore [] []) [] [])
           [Sample.N1; Sample.N0]).
  - right. left. exists (Redis.Client (Redis.Server ∅ 0) [Redis.ConnectionFails]).
    split; [|reflexivity]. exists Redis.ConnectionFails, []. split; [reflexivity | discriminate].
  - reflexivity.
Defined.

Lemma create_embedding_wraps_the_provider_error_witness :
  let w := MkWorld (live (Redis.Server ∅ 0)) (MkDatastore [] []) [] [] in
  let out := create_embedding (pyfloat := Sample.num) true
               (fun _ => Raise (Exn APIError "rate limit exceeded")) "hello" w in
  fst out = Raise (Exn Exception_ "Failed to generate embedding: rate limit exceeded")
  /\ db (snd out) = MkDatastore [] []
  /\ cache (snd out) = live (Redis.Server ∅ 0).
Proof.
  destruct (create_embedding_wraps_the_provider_error (pyfloat := Sample.num) true
              (fun _ => Raise (Exn APIError "rate limit exceeded")) "hello"
              (MkWorld (live (Redis.Server ∅ 0)) (MkDatastore [] []) [] [])
              (Exn APIError "rate limit exceeded"))
    as (H1 & H2 & H3); [reflexivity | reflexivity | vm_compute; reflexivity |].
  split; [exact H1|]. split; [exact H2|]. exact (H3 (Redis.Server ∅ 0) eq_refl).
Defined.
(* ===================================================================== *)
(** ** The queue's counter                                               *)
(* ===================================================================== *)

Section CounterFacts.
Import TaskQueue.
Local Open Scope nat_scope.

Lemma count_workers_app p ws1 ws2 :
  count_workers p (ws1 ++ ws2) = count_workers p ws1 + count_workers p ws2.
Proof. induction ws1 as [|w ws1 IH]; cbn; [reflexivity | rewrite IH; lia]. Qed.


Lemma count_workers_cancel p ws : count_workers p (cancel <$> ws) = count_workers p ws.
Proof.
  induction ws as [|w ws IH]; cbn; [reflexivity|]. rewrite IH.
  destruct w as [[] c]; reflexivity.
Qed.

Lemma loop_head_steps i q :
  exists p, steps_to i (Worker p false) 0 q (loop_head i q)
            /\ p = (if is_running q then InGet else Finished).
Proof.
  unfold loop_head. destruct (is_running q) eqn:E; eexists; (split; [|reflexivity]);
    unfold steps_to; cbn; rewrite ?E; repeat split; lia.
Qed.

Lemma cancelled_break_steps i q : steps_to i (Worker Finished false) 0 q (cancelled_break i q).
Proof. unfold cancelled_break, steps_to; cbn. repeat split; lia. Qed.

Lemma task_done_then_steps i k q n :
  unfinished_tasks q = S n ->
  task_done_then i k q
  = k (Make (queue q) n (num_workers q) (workers q) (is_running q)
            (finished_set n (stop_at q)) (TaskQueue.log q)).
Proof. intros Hn. unfold task_done_then. rewrite Hn. reflexivity. Qed.

(** A step that leaves the counter as it is, after [task_done] has
    lowered it to [n]. *)
Lemma steps_after_task_done i w q q0 q' n :
  queue_core q0 = queue_core q -> num_workers q0 = num_workers q ->
  unfinished_tasks q = S n ->
  steps_to i w 0
    (Make (queue q0) n (num_workers q0) (workers q0) (is_running q0)
          (finished_set n (stop_at q0)) (TaskQueue.log q0)) q' ->
  steps_to i w 1 q q'.
Proof.
  intros Hcore Hnw Hn St. unfold queue_core in Hcore. injection Hcore as Hq Hu Hw Hr Hs.
  unfold steps_to in *. cbn [queue unfinished_tasks workers is_running stop_at num_workers] in St.
  destruct St as (S1 & S2 & S3 & S4 & S5 & S6).
  repeat split; try congruence; try lia.
  rewrite S5, Hs. f_equal. lia.
Qed.

(** A worker that ends its task with the counter above zero. *)
Lemma task_ended_steps i t0 q n :
  unfinished_tasks q = S n ->
  exists p, steps_to i (Worker p false) 1 q (task_ended i t0 q)
            /\ (p = Finished \/ (p = InGet /\ is_running q = true)).
Proof.
  intros Hn. unfold task_ended.
  assert (L : forall q0, queue_core q0 = queue_core q -> num_workers q0 = num_workers q ->
            exists p, steps_to i (Worker p false) 1 q (task_done_then i (loop_head i) q0)
                      /\ (p = Finished \/ (p = InGet /\ is_running q = true))).
  { intros q0 Hcore Hnw. unfold queue_core in Hcore. injection Hcore as Hq Hu Hw Hr Hs.
    rewrite (task_done_then_steps i _ q0 n) by congruence.
    match goal with |- context [loop_head i ?q1] =>
      destruct (loop_head_steps i q1) as (p & St & Hp) end.
    exists p. cbn [is_running] in Hp. split.
    - apply (steps_after_task_done i _ q q0 _ n); try assumption.
      unfold queue_core; congruence.
    - rewrite Hr in Hp. destruct (is_running q); subst p; auto. }
  assert (C : forall q0, queue_core q0 = queue_core q -> num_workers q0 = num_workers q ->
            forall k, (forall q1, steps_to i (Worker Finished false) 0 q1 (k q1)) ->
            exists p, steps_to i (Worker p false) 1 q (task_done_then i k q0)
                      /\ (p = Finished \/ (p = InGet /\ is_running q = true))).
  { intros q0 Hcore Hnw k Hk. unfold queue_core in Hcore. injection Hcore as Hq Hu Hw Hr Hs.
    rewrite (task_done_then_steps i _ q0 n) by congruence.
    exists Finished. split; [|left; reflexivity].
    match goal with |- context [k ?q1] => specialize (Hk q1) end.
    apply (steps_after_task_done i _ q q0 _ n); try assumption.
    unfold queue_core; congruence. }
  destruct (func t0) as [|e].
  - apply L; reflexivity.
  - destruct (is_Exception e); [apply L; reflexivity|].
    destruct (cls e); apply C; try reflexivity; try apply cancelled_break_steps;
      intros q1; unfold steps_to, set_worker; cbn; repeat split; lia.
Qed.

Lemma steps_to_counter i w0 w d q q' :
  workers q !! i = Some w0 ->
  steps_to i w d q q' ->
  counter_sound q ->
  (if in_task (at_ w0) then 1 else 0) = d + (if in_task (at_ w) then 1 else 0) ->
  counter_sound q'.
Proof.
  intros Hw (S1 & S2 & S3 & _) Hc Hd. unfold counter_sound, count_at in *.
  pose proof (count_workers_insert in_task (workers q) i w0 w Hw) as Ci.
  rewrite S1, S3. lia.
Qed.

Lemma in_task_positive q i t0 c :
  counter_sound q -> workers q !! i = Some (Worker (InTask t0) c) ->
  exists n, unfinished_tasks q = S n.
Proof.
  intros Hc Hw. unfold counter_sound, count_at in Hc.
  pose proof (count_positive in_task (workers q) i _ Hw eq_refl) as Hpos.
  destruct (unfinished_tasks q) as [|n]; [lia | eauto].
Qed.

Lemma all_finished_count ws : all_finished ws = true -> count_workers in_task ws = 0.
Proof.
  induction ws as [|w ws IH]; cbn; [reflexivity|].
  rewrite andb_true_iff. intros [Hw Hws]. rewrite (IH Hws).
  destruct (at_ w); try discriminate; reflexivity.
Qed.

(** The counter of the queue is exact after every event. *)
Lemma counter_sound_preserved ev q q' :
  counter_sound q -> fire ev q = Some q' -> counter_sound q'.
Proof.
  intros Hc Hfire.
  destruct ev as [i | i | uuid f | ]; cbn [fire] in Hfire.
  - destruct (workers q !! i) as [[p c]|] eqn:Hw; [|discriminate].
    destruct c.
    + (* the cancellation arrives *)
      destruct p as [| | t0 |]; cbn [deliver_cancel] in Hfire; try discriminate;
        injection Hfire as <-.
      * apply (steps_to_counter i _ (Worker Finished false) 0 q _ Hw); [|exact Hc|reflexivity].
        unfold steps_to, set_worker; cbn. repeat split; lia.
      * apply (steps_to_counter i _ (Worker Finished false) 0 q _ Hw);
          [apply cancelled_break_steps | exact Hc | reflexivity].
      * destruct (in_task_positive q i t0 true Hc Hw) as [n Hn].
        rewrite (task_done_then_steps i _ q n Hn).
        apply (steps_to_counter i _ (Worker Finished false) 1 q _ Hw); [|exact Hc|reflexivity].
        apply (steps_after_task_done i _ q q _ n); try reflexivity; try assumption.
        apply cancelled_break_steps.
    + destruct p as [| | t0 |]; try discriminate.
      * injection Hfire as <-. unfold worker_begin.
        match goal with |- context [loop_head i ?q1] =>
          destruct (loop_head_steps i q1) as (p & St & Hp) end.
        apply (steps_to_counter i _ (Worker p false) 0 q _ Hw); [|exact Hc|].
        -- unfold steps_to in *. cbn [logger queue unfinished_tasks workers is_running stop_at num_workers] in St.
           exact St.
        -- cbn [logger is_running] in Hp. destruct (is_running q); subst p; reflexivity.
      * destruct (queue q) as [|t1 rest] eqn:Hq; [discriminate|]. injection Hfire as <-.
        unfold counter_sound, count_at, got_item, logger, set_worker in *.
        cbn [queue unfinished_tasks workers].
        pose proof (count_workers_insert in_task (workers q) i _ (Worker (InTask t1) false) Hw) as Ci.
        cbn [at_ in_task] in Ci. rewrite Hq in Hc. cbn [length] in Hc. lia.
      * injection Hfire as <-.
        destruct (in_task_positive q i t0 false Hc Hw) as [n Hn].
        destruct (task_ended_steps i t0 q n Hn) as (p & St & Hp).
        apply (steps_to_counter i _ (Worker p false) 1 q _ Hw St Hc).
        destruct Hp as [-> | [-> _]]; reflexivity.
  - destruct (workers q !! i) as [[p c]|] eqn:Hw; [|discriminate].
    destruct p; try discriminate. destruct c; [discriminate|]. injection Hfire as <-.
    destruct (loop_head_steps i q) as (p & St & Hp).
    apply (steps_to_counter i _ (Worker p false) 0 q _ Hw St Hc).
    destruct (is_running q); subst p; reflexivity.
  - injection Hfire as <-.
    unfold counter_sound, count_at, enqueue, logger in *. cbn [snd queue unfinished_tasks workers].
    rewrite length_app. cbn [length]. lia.
  - destruct (stop_at q); try discriminate.
    + injection Hfire as <-.
      unfold counter_sound, count_at, after_join in *. cbn [queue unfinished_tasks workers].
      rewrite count_workers_cancel. exact Hc.
    + destruct (all_finished (workers q)) eqn:Ha; [|discriminate]. injection Hfire as <-.
      unfold counter_sound, count_at, after_gather in *. cbn [queue unfinished_tasks workers].
      rewrite (all_finished_count _ Ha) in Hc. cbn. lia.
Qed.




End CounterFacts.

Section QueueInvariants.
Import TaskQueue.
Local Open Scope nat_scope.



(** *** The pool while the queue runs *)

Lemma loop_head_running_steps i q :
  is_running q = true -> steps_to i (Worker InGet false) 0 q (loop_head i q).
Proof.
  intros Hr. destruct (loop_head_steps i q) as (p & St & Hp).
  rewrite Hr in Hp. subst p. exact St.
Qed.

Lemma steps_to_pool n i w w0 d q q' :
  workers q !! i = Some w0 ->
  steps_to i w d q q' ->
  in_its_loop w ->
  pool_intact n q -> pool_intact n q'.
Proof.
  intros Hw (S1 & S2 & S3 & S4 & S5 & S6) Hin (P1 & P2 & P3 & P4 & P5).
  unfold pool_intact. rewrite S1, S3, S4, S5, P2, length_insert.
  repeat split; try assumption.
  - destruct d; [reflexivity | destruct (unfinished_tasks q'); reflexivity].
  - apply Forall_insert; assumption.
Qed.

Lemma pool_intact_preserved n ev q q' :
  pool_intact n q -> enqueues_in_the_handler ev = true ->
  fire ev q = Some q' -> pool_intact n q'.
Proof.
  intros Hp Hev Hfire. pose proof Hp as (P1 & P2 & P3 & P4 & P5).
  destruct ev as [i | i | uuid f | ]; cbn [fire] in Hfire.
  - destruct (workers q !! i) as [[p c]|] eqn:Hw; [|discriminate].
    destruct (proj1 (Forall_lookup _ _) P4 i _ Hw) as [Hc Hpos]. cbn in Hc, Hpos. subst c.
    destruct p as [| | t0 |]; try discriminate.
    + injection Hfire as <-. unfold worker_begin.
      match goal with |- context [loop_head i ?q1] =>
        pose proof (loop_head_running_steps i q1 P1) as St end.
      apply (steps_to_pool n i (Worker InGet false) _ 0 q _ Hw); [exact St | | exact Hp].
      split; [reflexivity | exact I].
    + destruct (queue q) as [|t1 rest] eqn:Hq; [discriminate|]. injection Hfire as <-.
      apply Forall_cons in P5 as [Ht1 Hrest].
      unfold pool_intact, got_item, logger, set_worker.
      cbn [queue workers is_running stop_at]. rewrite length_insert.
      repeat split; try assumption.
      apply Forall_insert; [exact P4|]. split; [reflexivity | exact Ht1].
    + injection Hfire as <-.
      assert (St : exists d, steps_to i (Worker InGet false) d q (task_ended i t0 q)).
      { unfold task_ended.
        assert (L : forall q0, queue_core q0 = queue_core q -> num_workers q0 = num_workers q ->
                  exists d, steps_to i (Worker InGet false) d q (task_done_then i (loop_head i) q0)).
        { intros q0 Hcore Hnw. unfold queue_core in Hcore. injection Hcore as Hq Hu Hws Hr Hs.
          unfold task_done_then. destruct (unfinished_tasks q0) as [|m] eqn:Hm.
          - exists 0.
            match goal with |- context [loop_head i ?q1] =>
              pose proof (loop_head_running_steps i q1) as St end.
            cbn [logger is_running] in St. specialize (St ltac:(congruence)).
            unfold steps_to in *.
            cbn [logger queue unfinished_tasks workers is_running stop_at num_workers] in St.
            destruct St as (S1 & S2 & S3 & S4 & S5 & S6). repeat split; try congruence; lia.
          - exists 1.
            match goal with |- context [loop_head i ?q1] =>
              pose proof (loop_head_running_steps i q1) as St end.
            cbn [is_running] in St. specialize (St ltac:(congruence)).
            apply (steps_after_task_done i _ q q0 _ m); try assumption; try congruence.
            unfold queue_core; congruence. }
        cbn in Hpos. unfold ends_in_the_handler in Hpos.
        destruct (func t0) as [|e]; [apply L; reflexivity|].
        rewrite Hpos. apply L; reflexivity. }
      destruct St as [d St].
      apply (steps_to_pool n i (Worker InGet false) _ d q _ Hw St); [|exact Hp].
      split; [reflexivity | exact I].
  - destruct (workers q !! i) as [[p c]|] eqn:Hw; [|discriminate].
    destruct p; try discriminate. destruct c; [discriminate|]. injection Hfire as <-.
    apply (steps_to_pool n i (Worker InGet false) _ 0 q _ Hw);
      [exact (loop_head_running_steps i q P1) | | exact Hp].
    split; [reflexivity | exact I].
  - injection Hfire as <-. cbn in Hev.
    unfold pool_intact, enqueue, logger. cbn [snd queue workers is_running stop_at].
    repeat split; try assumption.
    apply Forall_app. split; [exact P5|]. apply Forall_cons. split; [exact Hev | constructor].
  - rewrite P2 in Hfire. discriminate.
Qed.

Lemma pool_intact_start n : pool_intact n (start (init n)).
Proof.
  unfold pool_intact, start, init. cbn. rewrite length_replicate.
  repeat split; [|constructor].
  apply Forall_replicate. split; [reflexivity | exact I].
Qed.

Lemma in_its_loop_at_work ws : Forall in_its_loop ws -> forallb (fun w => at_work (at_ w)) ws = true.
Proof.
  induction 1 as [|w ws [_ Hw] _ IH]; [reflexivity|]. cbn. rewrite IH, andb_true_r.
  destruct (at_ w); try reflexivity. destruct Hw.
Qed.

(** X12. While [stop()] has not been called and every enqueued task ends
    by returning or by raising an instance of [Exception], the pool keeps
    its [num_workers] workers, none of them is over, and the queue is
    running. *)
Theorem the_pool_keeps_its_workers_while_the_queue_runs
    (n : nat) (evs : list event) (q : TaskQueue.t) :
  forallb enqueues_in_the_handler evs = true ->
  run evs (start (init n)) = Some q ->
  length (workers q) = n
  /\ forallb (fun w => at_work (at_ w)) (workers q) = true
  /\ is_running q = true.
Proof.
  intros Hevs Hrun.
  assert (Hp : pool_intact n q).
  { revert Hevs Hrun. generalize (pool_intact_start n). generalize (start (init n)).
    induction evs as [|ev evs IH]; intros q0 Hp0 Hevs Hrun; cbn [run] in Hrun.
    - injection Hrun as <-. exact Hp0.
    - cbn in Hevs. apply andb_true_iff in Hevs as [Hev Hevs].
      destruct (fire ev q0) as [q1|] eqn:Hf; [|discriminate].
      exact (IH q1 (pool_intact_preserved n ev q0 q1 Hp0 Hev Hf) Hevs Hrun). }
  destruct Hp as (P1 & P2 & P3 & P4 & P5).
  split; [exact P3|]. split; [exact (in_its_loop_at_work _ P4) | exact P1].
Qed.

Lemma the_pool_keeps_its_workers_while_the_queue_runs_witness :
  exists q,
    run [Enqueue "id-1" (Raises (Exn Exception_ "boom")); Resume 0; Resume 1; Resume 0;
         Enqueue "id-2" Returns; Resume 0; Timeout 1; Resume 0; Resume 0]
        (start (init 2)) = Some q
    /\ length (workers q) = 2
    /\ forallb (fun w => at_work (at_ w)) (workers q) = true
    /\ is_running q = true.
Proof.
  eassert (Hq : run [Enqueue "id-1" (Raises (Exn Exception_ "boom")); Resume 0; Resume 1;
                     Resume 0; Enqueue "id-2" Returns; Resume 0; Timeout 1; Resume 0; Resume 0]
                    (start (init 2)) = Some _)
    by (vm_compute; reflexivity).
  match type of Hq with
  | run ?E _ = Some ?Q =>
      exists Q; split; [exact Hq|];
      exact (the_pool_keeps_its_workers_while_the_queue_runs 2 E Q eq_refl Hq)
  end.
Defined.

End QueueInvariants.

(* ===================================================================== *)
(** ** stop() with an empty queue                                        *)
(* ===================================================================== *)

Section StopReturns.
Import TaskQueue.
Local Open Scope nat_scope.

Lemma count_positive_inv p ws :
  0 < count_workers p ws -> exists i w, ws !! i = Some w /\ p (at_ w) = true.
Proof.
  induction ws as [|a ws IH]; cbn; [lia|]. intros Hpos.
  destruct (p (at_ a)) eqn:E.
  - exists 0, a. split; [reflexivity | exact E].
  - destruct (IH ltac:(lia)) as (i & w & Hi & Hw). exists (S i), w. split; assumption.
Qed.

Lemma not_all_finished ws :
  all_finished ws = false -> exists i w, ws !! i = Some w /\ at_work (at_ w) = true.
Proof.
  induction ws as [|a ws IH]; cbn; [discriminate|]. intros Hf.
  destruct (at_ a) eqn:E; cbn in Hf;
    try (exists 0, a; split; [reflexivity | rewrite E; reflexivity]).
  destruct (IH Hf) as (i & w & Hi & Hw). exists (S i), w. split; assumption.
Qed.

Lemma finished_set_cases n s :
  finished_set n s = s \/ (n = 0 /\ s = Joining /\ finished_set n s = Woken).
Proof. destruct n, s; cbn; auto. Qed.

Lemma stop_rank_finished_set n s : stop_rank (finished_set n s) = stop_rank s.
Proof. destruct n, s; reflexivity. Qed.

(** With the flag lowered and nothing queued, an enabled worker event
    ends the worker. *)
Lemma stopping_worker_event ev i q q' :
  stopping_with_an_empty_queue q ->
  ev = Resume i \/ ev = Timeout i ->
  fire ev q = Some q' ->
  exists w0 d, workers q !! i = Some w0 /\ at_work (at_ w0) = true
               /\ steps_to i (Worker Finished false) d q q'.
Proof.
  intros (J1 & J2 & J3 & J4 & J5 & J6) Hev Hfire.
  assert (LH : forall q0, is_running q0 = false ->
            steps_to i (Worker Finished false) 0 q0 (loop_head i q0)).
  { intros q0 Hr. destruct (loop_head_steps i q0) as (p & St & Hp).
    rewrite Hr in Hp. subst p. exact St. }
  destruct Hev as [-> | ->]; cbn [fire] in Hfire.
  - destruct (workers q !! i) as [[p c]|] eqn:Hw; [|discriminate].
    destruct c.
    + destruct p as [| | t0 |]; cbn [deliver_cancel] in Hfire; try discriminate;
        injection Hfire as <-; eexists; [exists 0 | exists 0 | ].
      * split; [reflexivity|]. split; [reflexivity|].
        unfold steps_to, set_worker; cbn. repeat split; lia.
      * split; [reflexivity|]. split; [reflexivity|]. apply cancelled_break_steps.
      * destruct (in_task_positive q i t0 true J3 Hw) as [n Hn].
        exists 1. split; [reflexivity|]. split; [reflexivity|].
        rewrite (task_done_then_steps i _ q n Hn).
        apply (steps_after_task_done i _ q q _ n); try reflexivity; try assumption.
        apply cancelled_break_steps.
    + destruct p as [| | t0 |]; try discriminate.
      * injection Hfire as <-. eexists. exists 0. split; [reflexivity|]. split; [reflexivity|].
        unfold worker_begin.
        match goal with |- context [loop_head i ?q1] =>
          pose proof (LH q1 J1) as St end.
        unfold steps_to in *.
        cbn [logger queue unfinished_tasks workers is_running stop_at num_workers] in St.
        exact St.
      * rewrite J2 in Hfire. discriminate.
      * injection Hfire as <-.
        destruct (in_task_positive q i t0 false J3 Hw) as [n Hn].
        destruct (task_ended_steps i t0 q n Hn) as (p & St & Hp).
        eexists. exists 1. split; [reflexivity|]. split; [reflexivity|].
        destruct Hp as [-> | [_ Hr]]; [exact St | congruence].
  - destruct (workers q !! i) as [[p c]|] eqn:Hw; [|discriminate].
    destruct p; try discriminate. destruct c; [discriminate|]. injection Hfire as <-.
    eexists. exists 0. split; [reflexivity|]. split; [reflexivity|]. exact (LH q J1).
Qed.

Lemma stopping_preserved ev q q' :
  stopping_with_an_empty_queue q -> is_enqueue ev = false ->
  fire ev q = Some q' ->
  stopping_with_an_empty_queue q' /\ stop_distance q' < stop_distance q.
Proof.
  intros HJ Hev Hfire. pose proof HJ as (J1 & J2 & J3 & J4 & J5 & J6).
  assert (W : forall i, ev = Resume i \/ ev = Timeout i ->
            stopping_with_an_empty_queue q' /\ stop_distance q' < stop_distance q).
  { intros i Hi.
    destruct (stopping_worker_event ev i q q' HJ Hi Hfire) as (w0 & d & Hw & Hat & St).
    pose proof (counter_sound_preserved ev q q' J3 Hfire) as Hc'.
    destruct St as (S1 & S2 & S3 & S4 & S5 & S6).
    assert (Hrank : stop_rank (stop_at q') = stop_rank (stop_at q)).
    { rewrite S5. destruct d; [reflexivity | apply stop_rank_finished_set]. }
    split.
    - unfold stopping_with_an_empty_queue. rewrite S1, S4.
      repeat split; try assumption.
      + intros Hnot. rewrite Hnot in Hrank. destruct (stop_at q); try discriminate Hrank.
        congruence.
      + intros Hret. rewrite Hret in Hrank.
        destruct (stop_at q) eqn:Hs; try discriminate Hrank.
        rewrite (J5 eq_refl) in Hw. discriminate.
      + intros Hjoin. rewrite Hjoin in S5. destruct d as [|d].
        * specialize (J6 (eq_sym S5)). lia.
        * destruct (finished_set_cases (unfinished_tasks q') (stop_at q))
            as [E | (_ & _ & E)]; [|congruence].
          intros Hz. rewrite Hz in S5. destruct (stop_at q); discriminate S5.
    - unfold stop_distance, count_at. rewrite S3, Hrank.
      pose proof (count_workers_insert at_work (workers q) i w0 (Worker Finished false) Hw) as Ci.
      rewrite Hat in Ci. cbn [at_ at_work] in Ci. lia. }
  destruct ev as [i | i | uuid f | ]; [apply (W i); auto | apply (W i); auto | discriminate |].
  clear W. cbn [fire] in Hfire.
  destruct (stop_at q) eqn:Hs; try discriminate.
  - injection Hfire as <-.
    split.
    + unfold stopping_with_an_empty_queue, after_join, counter_sound, count_at in *.
      cbn [queue unfinished_tasks workers is_running stop_at].
      rewrite count_workers_cancel. repeat split; try assumption; discriminate.
    + unfold stop_distance, count_at, after_join. cbn [workers stop_at].
      rewrite count_workers_cancel, Hs. cbn. lia.
  - destruct (all_finished (workers q)) eqn:Ha; [|discriminate]. injection Hfire as <-.
    split.
    + unfold stopping_with_an_empty_queue, after_gather, counter_sound, count_at in *.
      cbn [queue unfinished_tasks workers is_running stop_at].
      rewrite (all_finished_count _ Ha) in J3. cbn.
      repeat split; try assumption; try discriminate; lia.
    + unfold stop_distance, count_at, after_gather. cbn [workers stop_at].
      rewrite Hs. cbn. lia.
Qed.

(** While [stop()] has not returned, something can happen. *)
Lemma stopping_progress q :
  stopping_with_an_empty_queue q -> stop_at q <> Returned ->
  exists ev, is_enqueue ev = false /\ is_Some (fire ev q).
Proof.
  intros (J1 & J2 & J3 & J4 & J5 & J6) Hnr.
  assert (R : forall i w, workers q !! i = Some w -> at_work (at_ w) = true ->
            exists ev, is_enqueue ev = false /\ is_Some (fire ev q)).
  { intros i [p c] Hw Hat. cbn in Hat.
    destruct c.
    - exists (Resume i). split; [reflexivity|]. cbn [fire]. rewrite Hw.
      destruct p; cbn [deliver_cancel]; try discriminate; eauto.
    - destruct p as [| | t0 |]; try discriminate.
      + exists (Resume i). split; [reflexivity|]. cbn [fire]. rewrite Hw. eauto.
      + exists (Timeout i). split; [reflexivity|]. cbn [fire]. rewrite Hw. eauto.
      + exists (Resume i). split; [reflexivity|]. cbn [fire]. rewrite Hw. eauto. }
  destruct (stop_at q) eqn:Hs; try congruence.
  - specialize (J6 eq_refl).
    unfold counter_sound, count_at in J3. rewrite J2 in J3. cbn [length] in J3.
    destruct (count_positive_inv in_task (workers q) ltac:(lia)) as (i & w & Hw & Hin).
    apply (R i w Hw). destruct (at_ w); try discriminate; reflexivity.
  - exists StopResume. split; [reflexivity|]. cbn [fire]. rewrite Hs. eauto.
  - destruct (all_finished (workers q)) eqn:Ha.
    + exists StopResume. split; [reflexivity|]. cbn [fire]. rewrite Hs, Ha. eauto.
    + destruct (not_all_finished _ Ha) as (i & w & Hw & Hat). exact (R i w Hw Hat).
Qed.

Lemma count_workers_le p ws : count_workers p ws <= length ws.
Proof. induction ws as [|w ws IH]; cbn; [lia | destruct (p (at_ w)); lia]. Qed.

Lemma stop_starts_stopping q :
  is_running q = true -> queue q = [] -> counter_sound q ->
  stopping_with_an_empty_queue (stop q)
  /\ stop_distance (stop q) <= length (workers q) + 2.
Proof.
  intros Hr Hq Hc. unfold stop, logger. rewrite Hr. cbn.
  unfold counter_sound, count_at in Hc.
  pose proof (count_workers_le at_work (workers q)) as Hle.
  destruct (unfinished_tasks q) as [|n] eqn:Hn.
  - split.
    + unfold stopping_with_an_empty_queue, after_join, counter_sound, count_at. cbn.
      rewrite count_workers_cancel. repeat split; try assumption; discriminate.
    + unfold stop_distance, count_at, after_join. cbn.
      rewrite count_workers_cancel. lia.
  - split.
    + unfold stopping_with_an_empty_queue, counter_sound, count_at. cbn.
      repeat split; try assumption; try discriminate; congruence.
    + unfold stop_distance, count_at. cbn. lia.
Qed.

Lemma stopping_run evs q q' :
  stopping_with_an_empty_queue q ->
  forallb (fun ev => negb (is_enqueue ev)) evs = true ->
  run evs q = Some q' ->
  stopping_with_an_empty_queue q' /\ stop_distance q' + length evs <= stop_distance q.
Proof.
  revert q. induction evs as [|ev evs IH]; intros q HJ Hevs Hrun; cbn [run] in Hrun.
  - injection Hrun as <-. split; [exact HJ | cbn; lia].
  - cbn in Hevs. apply andb_true_iff in Hevs as [Hev Hevs]. apply negb_true_iff in Hev.
    destruct (fire ev q) as [q1|] eqn:Hf; [|discriminate].
    destruct (stopping_preserved ev q q1 HJ Hev Hf) as [HJ1 Hlt].
    destruct (IH q1 HJ1 Hevs Hrun) as [HJ' Hle]. split; [exact HJ'|]. cbn [length]. lia.
Qed.

(** X13. [stop()] on a running queue with nothing queued: whatever the
    order of the steps, no more than one step per worker and two of
    [stop()] can be taken, a step can be taken as long as [stop()] has not
    returned, and when it has returned no worker is left and the counter
    is zero. *)
Theorem stop_returns_when_nothing_is_queued
    (q : TaskQueue.t) (evs : list event) (q' : TaskQueue.t) :
  is_running q = true ->
  queue q = [] ->
  counter_sound q ->
  forallb (fun ev => negb (is_enqueue ev)) evs = true ->
  run evs (stop q) = Some q' ->
  length evs <= length (workers q) + 2
  /\ (stop_at q' <> Returned ->
      exists ev, is_enqueue ev = false /\ is_Some (fire ev q'))
  /\ (stop_at q' = Returned -> workers q' = [] /\ unfinished_tasks q' = 0).
Proof.
  intros Hr Hq Hc Hevs Hrun.
  destruct (stop_starts_stopping q Hr Hq Hc) as [HJ Hd].
  destruct (stopping_run evs (stop q) q' HJ Hevs Hrun) as [HJ' Hle].
  split; [lia|]. split.
  - exact (stopping_progress q' HJ').
  - intros Hret. destruct HJ' as (J1 & J2 & J3 & J4 & J5 & _). specialize (J5 Hret).
    split; [exact J5|]. unfold counter_sound, count_at in J3. rewrite J2, J5 in J3. exact J3.
Qed.

Lemma stop_returns_when_nothing_is_queued_witness :
  exists q q',
    run [Enqueue "id-1" Returns; Resume 0; Resume 1; Resume 0] (start (init 2)) = Some q
    /\ run [Resume 0; StopResume; Resume 1; StopResume] (stop q) = Some q'
    /\ stop_at q' = Returned /\ workers q' = [] /\ unfinished_tasks q' = 0.
Proof.
  eassert (Hq : run [Enqueue "id-1" Returns; Resume 0; Resume 1; Resume 0]
                    (start (init 2)) = Some _)
    by (vm_compute; reflexivity).
  match type of Hq with
  | _ = Some ?Q =>
      eassert (Hq' : run [Resume 0; StopResume; Resume 1; StopResume] (stop Q) = Some _)
        by (vm_compute; reflexivity)
  end.
  match type of Hq' with
  | run ?E (stop ?Q) = Some ?Q' =>
      exists Q, Q'; split; [exact Hq|]; split; [exact Hq'|];
      destruct (stop_returns_when_nothing_is_queued Q E Q' eq_refl eq_refl eq_refl eq_refl Hq')
        as (_ & _ & Hret)
  end.
  split; [reflexivity|]. apply Hret. reflexivity.
Defined.

End StopReturns.

(* ===================================================================== *)
(** ** The background copy                                               *)
(* ===================================================================== *)

Section BackgroundFacts.
Context {pyfloat : Type} `{!JsonCodec (list pyfloat)} `{!Sha256}.
Implicit Types (w : @World pyfloat) (v : list pyfloat)
  (api : string -> result (list pyfloat)).

Lemma create_embedding_raises_exceptions_only has_cache api text :
  (forall t e, api t = Raise e -> is_Exception e = true) ->
  raises_exceptions_only (create_embedding has_cache api text).
Proof.
  intros Hapi w e He.
  pose proof (create_embedding_cases has_cache api text w) as Hcase. cbv zeta in Hcase.
  destruct (cached_vector has_cache text w) as [v|].
  - destruct Hcase as [Hr _]. congruence.
  - destruct Hcase as [_ Hr]. destruct (api (truncate text)) as [v|e0] eqn:Ea; [congruence|].
    rewrite (Hapi _ _ Ea) in Hr. rewrite Hr in He. injection He as <-. reflexivity.
Qed.

(** A provider that raises instances of [Exception] only keeps the
    embedding leg inside the event loop. *)
Lemma the_leg_stays_in_the_loop has_cache api text w e1 :
  (forall t e, api t = Raise e -> is_Exception e = true) ->
  fst (create_embedding has_cache api text w) = Raise e1 ->
  leaves_the_loop e1 = false.
Proof.
  intros Hapi He1. apply an_Exception_stays_in_the_loop.
  exact (create_embedding_raises_exceptions_only has_cache api text Hapi w e1 He1).
Qed.

(** The task when no exception of a provider leaves the event loop;
    [w0] is the world after the first log line of the task. *)
Lemma background_copy_unfolded has_cache claude api text sid uid source w :
  let w0 := MkWorld (cache w) (db w) (api_calls w)
              (log w ++ [(INFO, "Background processing Smart Copy for session " +:+ sid)]) in
  (forall e, claude text = Raise e -> leaves_the_loop e = false) ->
  (forall e1, fst (create_embedding has_cache api text w0) = Raise e1 ->
              leaves_the_loop e1 = false) ->
  process_smart_copy_background has_cache claude api text sid uid source w =
  let r0 := fst (gather_one (process_text claude text) w0) in
  let leg := create_embedding has_cache api text w0 in
  match r0 with
  | Raise e => (Raise e, w0)
  | Ok processed =>
      match save_memory sid uid text processed (Some source)
              (passed_embedding (fst leg)) (before_save (fst leg) (snd leg)) with
      | (Ok memory, w2) =>
          let w3 := snd (on_cache (SessionCache.invalidate_session_memories sid) w2) in
          let w4 := snd (on_cache (SessionCache.invalidate_session_description sid) w3) in
          (Ok tt,
           MkWorld (cache w4) (db w4) (api_calls w4)
             (log w4 ++
              [match memory with
               | Some m => (INFO, "Background Smart Copy completed: " +:+ row_id m)
               | None => (ERROR, "Background Smart Copy failed: "
                                 +:+ "'NoneType' object is not subscriptable")
               end]))
      | (Raise e, w2) =>
          (Ok tt,
           MkWorld (cache w2) (db w2) (api_calls w2)
             (log w2 ++ [(ERROR, "Background Smart Copy failed: " +:+ msg e)]))
      end
  end.
Proof.
  intros w0 Hcl Hleg. unfold process_smart_copy_background.
  unfold bind at 1. unfold logging at 1, modify. cbv zeta. fold w0.
  unfold try_except, bind.
  assert (P : exists g, gather_one (process_text claude text) w0 = (Ok g, w0)).
  { destruct (claude text) as [p|e] eqn:Hc.
    - rewrite (process_text_success claude text p w0 Hc). eauto.
    - destruct (process_text_failure claude text e w0 Hc (Hcl e eq_refl)) as [e' ->]. eauto. }
  destruct P as [g ->]. cbn [fst].
  unfold gather_one at 1.
  destruct (create_embedding has_cache api text w0) as [r1 w1]. cbn [fst snd] in *.
  destruct r1 as [v|e1]; [|rewrite (Hleg e1 eq_refl)]; cbn [passed_embedding before_save];
    [|destruct (is_Exception e1); [unfold logging at 1, modify|]];
    cbn [ret];
    match goal with
    | |- context [save_memory ?a ?b ?c ?d ?e ?f ?wa] =>
        destruct (save_memory a b c d e f wa) as [[memory|ex] w2] eqn:Hs
    end;
    try (destruct (save_memory_raises _ _ _ _ _ _ _ _ _ Hs) as [-> _]; reflexivity);
    destruct (on_cache_invalidate_memories sid w2) as [c3 ->]; cbn [snd];
    destruct (on_cache_invalidate_description sid
                (MkWorld c3 (db w2) (api_calls w2) (log w2))) as [c4 ->];
    cbn [snd cache db api_calls log];
    destruct memory as [m|]; reflexivity.
Qed.

(** X14. When the two providers raise instances of [Exception] only,
    [process_smart_copy_background] does not raise: whatever the providers,
    the cache and the datastore answer, the task ends by returning. *)
Theorem the_background_copy_always_returns
    (has_cache : bool) (claude : string -> result string)
    (api : string -> result (list pyfloat)) (text sid uid source : string) w :
  (forall t e, claude t = Raise e -> is_Exception e = true) ->
  (forall t e, api t = Raise e -> is_Exception e = true) ->
  fst (process_smart_copy_background has_cache claude api text sid uid source w) = Ok tt.
Proof.
  intros Hcl Hapi.
  rewrite background_copy_unfolded.
  2:{ intros e He. exact (an_Exception_stays_in_the_loop e (Hcl text e He)). }
  2:{ intros e1 He1. exact (the_leg_stays_in_the_loop has_cache api text _ e1 Hapi He1). }
  cbv zeta.
  assert (P : exists g, fst (gather_one (process_text claude text)
                (MkWorld (cache w) (db w) (api_calls w)
                   (log w ++ [(INFO, "Background processing Smart Copy for session " +:+ sid)])))
              = Ok g).
  { destruct (claude text) as [p|e] eqn:Hc.
    - rewrite (process_text_success claude text p _ Hc). eauto.
    - destruct (process_text_failure claude text e
                  (MkWorld (cache w) (db w) (api_calls w)
                     (log w ++ [(INFO, "Background processing Smart Copy for session "
                                       +:+ sid)]))
                  Hc (an_Exception_stays_in_the_loop e (Hcl text e Hc))) as [e' ->]. eauto. }
  destruct P as [g ->].
  destruct (save_memory _ _ _ _ _ _ _) as [[memory|e] w2]; reflexivity.
Qed.

(** X15. When the summarization provider raises an instance of
    [Exception] (and the embedding provider raises nothing else), the
    background copy stores no memory: the datastore is as before, the cache
    is what the embedding leg left (no invalidation runs), and the last log
    line is the error ["Background Smart Copy failed: Failed to save
    memory: ..."]. *)
Theorem a_failed_summary_stores_nothing_in_the_background
    (has_cache : bool) (claude : string -> result string)
    (api : string -> result (list pyfloat)) (text sid uid source : string) w (e : exn) :
  claude text = Raise e ->
  is_Exception e = true ->
  (forall t e1, api t = Raise e1 -> is_Exception e1 = true) ->
  let w0 := MkWorld (cache w) (db w) (api_calls w)
              (log w ++ [(INFO, "Background processing Smart Copy for session " +:+ sid)]) in
  let out := process_smart_copy_background has_cache claude api text sid uid source w in
  fst out = Ok tt
  /\ db (snd out) = db w
  /\ cache (snd out) = cache (snd (create_embedding has_cache api text w0))
  /\ exists detail,
       last (log (snd out))
       = Some (ERROR, "Background Smart Copy failed: Failed to save memory: " +:+ detail).
Proof.
  intros Hc He Hapi w0 out. subst out.
  rewrite background_copy_unfolded.
  2:{ intros e0 He0. rewrite Hc in He0. injection He0 as <-.
      exact (an_Exception_stays_in_the_loop e He). }
  2:{ intros e1 He1. exact (the_leg_stays_in_the_loop has_cache api text _ e1 Hapi He1). }
  cbv zeta. fold w0.
  destruct (process_text_failure claude text e w0 Hc (an_Exception_stays_in_the_loop e He))
    as [e' ->]. cbn [fst].
  destruct (create_embedding_frame has_cache api text w0) as [Hdb _].
  match goal with
  | |- context [save_memory sid uid text (ExcObject e') (Some source) ?emb ?wa] =>
      destruct (save_memory_exception_object sid uid text e' (Some source) emb wa) as [m ->];
      assert (Hd : db wa = db w0 /\ cache wa = cache (snd (create_embedding has_cache api text w0)))
  end.
  { unfold before_save. destruct (fst (create_embedding has_cache api text w0)) as [v|e1];
      [|destruct (is_Exception e1)]; cbn [db cache]; split; auto. }
  destruct Hd as [Hd1 Hd2]. cbn [fst snd db cache log].
  split; [reflexivity|]. split; [rewrite Hd1; reflexivity|]. split; [exact Hd2|].
  exists m. rewrite last_snoc. reflexivity.
Qed.

End BackgroundFacts.

Lemma a_failed_summary_stores_nothing_in_the_background_witness :
  let w := MkWorld (live (Redis.Server ∅ 0)) (MkDatastore [] []) [] [] in
  let out := process_smart_copy_background (pyfloat := Sample.num) true
               (fun _ => Raise (Exn APIError "overloaded")) (fun _ => Ok [Sample.N1])
               "some text" "abc" "u1" "mac-app" w in
  fst out = Ok tt /\ db (snd out) = MkDatastore [] [].
Proof.
  destruct (a_failed_summary_stores_nothing_in_the_background (pyfloat := Sample.num) true
              (fun _ => Raise (Exn APIError "overloaded")) (fun _ => Ok [Sample.N1])
              "some text" "abc" "u1" "mac-app"
              (MkWorld (live (Redis.Server ∅ 0)) (MkDatastore [] []) [] [])
              (Exn APIError "overloaded") eq_refl eq_refl) as (H1 & H2 & _).
  - intros t e1. discriminate.
  - split; [exact H1 | exact H2].
Defined.

Lemma the_background_copy_always_returns_witness :
  fst (process_smart_copy_background (pyfloat := Sample.num) true
         (fun _ => Raise (Exn APIError "overloaded"))
         (fun _ => Raise (Exn APIError "rate limit"))
         "some text" "abc" "u1" "mac-app"
         (MkWorld (live (Redis.Server ∅ 0)) (MkDatastore [] []) [] [])) = Ok tt.
Proof.
  apply (the_background_copy_always_returns (pyfloat := Sample.num) true
           (fun _ => Raise (Exn APIError "overloaded"))
           (fun _ => Raise (Exn APIError "rate limit"))
           "some text" "abc" "u1" "mac-app"
           (MkWorld (live (Redis.Server ∅ 0)) (MkDatastore [] []) [] [])).
  - intros t e [= <-]. reflexivity.
  - intros t e [= <-]. reflexivity.
Defined.

Section BackgroundStores.
Context {pyfloat : Type} `{!JsonCodec (list pyfloat)} `{!Sha256}.
Context {json : Type} `{!JsonCodec json}.
Implicit Types (w : @World pyfloat) (v : list pyfloat).



End BackgroundStores.


(* ===================================================================== *)
(** ** The session routes                                                *)
(* ===================================================================== *)

Lemma invalidate_session_returns sid c :
  exists c', SessionCache.invalidate_session sid c = (Ok tt, c').
Proof.
  unfold SessionCache.invalidate_session, bind.
  destruct (operations_never_raise c "" "" 0 ("session:" +:+ sid +:+ ":*")) as (_ & _ & _ & Hp).
  destruct (RedisCache.delete_pattern _ c) as [[b|e] c1]; [|discriminate].
  destruct (delete_returns (SessionCache._session_key sid) c1) as (b' & c2 & ->). eauto.
Qed.

Section SessionRouteFacts.
Context {pyfloat : Type} `{!JsonCodec (list pyfloat)} `{!Sha256}.
Context {json : Type} `{!JsonCodec json}.
Implicit Types (b : @Backend pyfloat) (db : @Supabase.client pyfloat).

(** The route [update_session] without any field raises the status 404
    and sends the datastore nothing. *)
Lemma an_update_without_fields_answers_404 db (session_id : string) b :
  SessionRoutes.update_session db session_id None None None b
  = (Raise (Exn (HTTPException 404) "Session not found"), b).
Proof. reflexivity. Qed.

(** X17. The route [delete_session] sends the datastore one delete
    request.  When that succeeds the answer is ["deleted"] with the id and
    the cache is the one [invalidate_session] leaves; when it raises an
    instance of [Exception] the answer is the status 500 with the detail
    ["Failed to delete session: ..."] and the cache is untouched. *)
Theorem delete_session_invalidates_only_after_the_datastore db (session_id : string) b :
  let out := SessionRoutes.delete_session db session_id b in
  requests (snd out) = (requests b ++ [ToDatastore (Supabase.DeleteSession session_id)])%list
  /\ match db unit (Supabase.DeleteSession session_id) with
     | Ok _ =>
         fst out = Ok (SessionRoutes.MkDeleteResponse "deleted" session_id)
         /\ cache (world (snd out))
            = snd (SessionCache.invalidate_session session_id (cache (world b)))
     | Raise e =>
         is_Exception e = true ->
         fst out = Raise (Exn (HTTPException 500) ("Failed to delete session: " +:+ msg e))
         /\ cache (world (snd out)) = cache (world b)
     end.
Proof.
  intros out. subst out.
  unfold SessionRoutes.delete_session, SessionService.delete_session, try_except, bind,
    execute. cbn [fst snd].
  destruct (db unit (Supabase.DeleteSession session_id)) as [[]|e].
  - cbn [ret]. unfold on_world, zoom. cbn [world requests].
    unfold on_cache, zoom.
    destruct (invalidate_session_returns session_id (cache (world b))) as [c' Hc].
    rewrite Hc. cbn. repeat split.
  - destruct (is_Exception e) eqn:He.
    + unfold SessionService.failed, bind, on_world, zoom, logging, modify, raise. cbn.
      split; [reflexivity|]. intros _. split; reflexivity.
    + cbn. rewrite He. split; [reflexivity|]. discriminate.
Qed.


End SessionRouteFacts.

(* ===================================================================== *)
(** ** SessionService.search_memories                                    *)
(* ===================================================================== *)

Section SortFacts.
Context {A : Type} (key : A -> QArith_base.Q).

Lemma insert_descending_Permutation x l :
  insert_descending key x l ≡ₚ x :: l.
Proof.
  induction l as [|y l IH]; cbn; [reflexivity|].
  destruct (QArith_base.Qle_bool (key y) (key x)); [reflexivity|].
  rewrite IH. apply Permutation_swap.
Qed.

Lemma sort_descending_Permutation l : sort_descending key l ≡ₚ l.
Proof.
  induction l as [|x l IH]; cbn; [reflexivity|].
  rewrite insert_descending_Permutation, IH. reflexivity.
Qed.

Lemma insert_descending_sorted x l :
  is_descending key l -> is_descending key (insert_descending key x l).
Proof.
  induction l as [|y l IH]; cbn; [intros _; split; [constructor | exact I]|].
  intros [Hy Hl].
  destruct (QArith_base.Qle_bool (key y) (key x)) eqn:E.
  - apply QArith_base.Qle_bool_iff in E. cbn. split; [|split; assumption].
    constructor; [exact E|].
    eapply Forall_impl; [exact Hy|]. cbn. intros b Hb.
    eapply QArith_base.Qle_trans; eassumption.
  - assert (Hlt : QArith_base.Qlt (key x) (key y)).
    { apply QArith_base.Qnot_le_lt. intros Hle.
      apply QArith_base.Qle_bool_iff in Hle. congruence. }
    cbn. split; [|exact (IH Hl)].
    rewrite insert_descending_Permutation. constructor; [|exact Hy].
    apply QArith_base.Qlt_le_weak. exact Hlt.
Qed.

Lemma sort_descending_sorted l : is_descending key (sort_descending key l).
Proof.
  induction l as [|x l IH]; cbn; [exact I|]. apply insert_descending_sorted. exact IH.
Qed.

End SortFacts.

Lemma lower_char_of_a_space c : Str.is_space c = true -> Str.lower_char c = c.
Proof.
  destruct c as [[] [] [] [] [] [] [] []]; intros Hs; vm_compute in Hs;
    try discriminate Hs; reflexivity.
Qed.

Lemma lower_of_white_space s : only_white_space s = true -> Str.lower s = s.
Proof.
  induction s as [|c s IH]; cbn; [reflexivity|].
  rewrite andb_true_iff. intros [Hc Hs]. rewrite (lower_char_of_a_space c Hc), (IH Hs).
  reflexivity.
Qed.

Lemma split_of_white_space s : only_white_space s = true -> Str.split s = [].
Proof.
  intros Hs. unfold Str.split.
  assert (Hf : Str.split_from s = (EmptyString, [])).
  { induction s as [|c s IH]; cbn; [reflexivity|].
    cbn in Hs. apply andb_true_iff in Hs as [Hc Hs]. rewrite (IH Hs), Hc. reflexivity. }
  rewrite Hf. reflexivity.
Qed.

Lemma elem_of_concat {A} (x : A) (ls : list (list A)) :
  x ∈ concat ls <-> exists l, x ∈ l /\ l ∈ ls.
Proof.
  induction ls as [|l0 ls IH]; cbn.
  - split; [intros Hin; inversion Hin | intros (l & _ & Hin); inversion Hin].
  - rewrite elem_of_app, IH. split.
    + intros [Hx | (l & Hx & Hl)].
      * exists l0. split; [exact Hx | apply list_elem_of_here].
      * exists l. split; [exact Hx | apply list_elem_of_further; exact Hl].
    + intros (l & Hx & Hl). apply elem_of_cons in Hl as [-> | Hl]; [left; exact Hx|].
      right. eauto.
Qed.

Section SearchFacts.
Context {pyfloat : Type} `{!JsonCodec (list pyfloat)} `{!Sha256}.
Implicit Types (b : @Backend pyfloat) (db : @Supabase.client pyfloat).

Lemma search_memories_answer db session_id query rows b :
  db _ (Supabase.SelectTexts session_id) = Ok rows ->
  SessionService.search_memories db session_id query b
  = (Ok (sort_descending SessionService.relevance_score
           (concat (map (SessionService.scored (Str.split (Str.lower query))) rows))),
     MkBackend (world b) (requests b ++ [ToDatastore (Supabase.SelectTexts session_id)])).
Proof.
  intros Hdb. unfold SessionService.search_memories, try_except, bind, execute.
  rewrite Hdb. reflexivity.
Qed.

(** X18. [search_memories] with a query of white space only (or empty)
    returns the empty list, whatever the memories of the session are. *)
Theorem a_query_without_words_finds_nothing
    db (session_id query : string) (rows : list (@Supabase.text_row)) b :
  db _ (Supabase.SelectTexts session_id) = Ok rows ->
  only_white_space query = true ->
  fst (SessionService.search_memories db session_id query b) = Ok [].
Proof.
  intros Hdb Hq. rewrite (search_memories_answer db session_id query rows b Hdb). cbn [fst].
  rewrite (lower_of_white_space query Hq), (split_of_white_space query Hq).
  replace (concat (map (SessionService.scored []) rows)) with (@nil SessionService.found);
    [reflexivity|].
  clear Hdb. induction rows as [|r rows IH]; cbn; [reflexivity | exact IH].
Qed.

Lemma scored_elem query_words (row : @Supabase.text_row) r :
  r ∈ SessionService.scored query_words row <->
  (0 < SessionService.count_matches query_words
         (Str.lower (Supabase.t_processed_text row)))%nat
  /\ r = SessionService.Found (Supabase.t_id row) (Supabase.t_processed_text row) None
           (QArith_base.Qmake
              (Z.of_nat (SessionService.count_matches query_words
                           (Str.lower (Supabase.t_processed_text row))))
              (Pos.of_nat (length query_words))).
Proof.
  unfold SessionService.scored.
  set (m := SessionService.count_matches query_words
              (Str.lower (Supabase.t_processed_text row))).
  assert (Hle : (m <= length query_words)%nat).
  { subst m. unfold SessionService.count_matches. apply List.filter_length_le. }
  destruct (Nat.ltb_spec 0 m) as [Hpos|Hz].
  - assert (Ht : truthy_list query_words = true).
    { destruct query_words; [subst m; cbn in Hpos; lia | reflexivity]. }
    rewrite Ht. rewrite list_elem_of_singleton. split; [intros ->; split; [exact Hpos | reflexivity]|].
    intros [_ ->]. reflexivity.
  - split; [intros Hin; inversion Hin | intros [Hpos _]; lia].
Qed.

Lemma count_matches_positive query_words text_lower :
  (0 < SessionService.count_matches query_words text_lower)%nat
  <-> exists word, word ∈ query_words /\ Str.contains word text_lower = true.
Proof.
  unfold SessionService.count_matches.
  induction query_words as [|w ws IH]; cbn.
  - split; [lia | intros (word & Hin & _); inversion Hin].
  - destruct (Str.contains w text_lower) eqn:E; cbn.
    + split; [intros _; exists w; split; [apply list_elem_of_here | exact E] | lia].
    + rewrite IH. split.
      * intros (word & Hin & Hc). exists word. split; [apply list_elem_of_further; exact Hin | exact Hc].
      * intros (word & Hin & Hc). apply elem_of_cons in Hin as [-> | Hin]; [congruence|].
        exists word. split; assumption.
Qed.

(** X19. [search_memories], when the datastore answers: the results are in
    descending order of [relevance_score], every score is above 0 and at
    most 1, a memory is among the results exactly when its lowered text
    contains one of the lowered words of the query, and every result is a
    memory of the answer. *)
Theorem search_results_are_ranked
    db (session_id query : string) (rows : list (@Supabase.text_row)) b :
  db _ (Supabase.SelectTexts session_id) = Ok rows ->
  exists l,
    fst (SessionService.search_memories db session_id query b) = Ok l
    /\ is_descending SessionService.relevance_score l
    /\ (forall r, r ∈ l ->
          QArith_base.Qlt (QArith_base.Qmake 0 1) (SessionService.relevance_score r)
          /\ QArith_base.Qle (SessionService.relevance_score r) (QArith_base.Qmake 1 1))
    /\ (forall row, row ∈ rows ->
          (exists word, word ∈ Str.split (Str.lower query)
                        /\ Str.contains word (Str.lower (Supabase.t_processed_text row)) = true)
          <-> exists r, r ∈ l /\ SessionService.found_id r = Supabase.t_id row
                        /\ SessionService.found_processed_text r
                           = Supabase.t_processed_text row)
    /\ (forall r, r ∈ l ->
          exists row, row ∈ rows /\ SessionService.found_id r = Supabase.t_id row
                      /\ SessionService.found_processed_text r
                         = Supabase.t_processed_text row).
Proof.
  intros Hdb. eexists. split.
  { rewrite (search_memories_answer db session_id query rows b Hdb). reflexivity. }
  set (ws := Str.split (Str.lower query)).
  assert (Hin : forall r,
    r ∈ sort_descending SessionService.relevance_score
          (concat (map (SessionService.scored ws) rows))
    <-> exists row, row ∈ rows /\ r ∈ SessionService.scored ws row).
  { intros r. rewrite sort_descending_Permutation, elem_of_concat.
    split.
    - intros (l0 & Hr & Hl0). apply list_elem_of_fmap in Hl0 as (row & -> & Hrow). eauto.
    - intros (row & Hrow & Hr). exists (SessionService.scored ws row). split; [exact Hr|].
      apply list_elem_of_fmap. eauto. }
  split; [apply sort_descending_sorted|]. split; [|split].
  - intros r Hr. apply Hin in Hr as (row & _ & Hr). apply scored_elem in Hr as [Hpos ->].
    cbn [SessionService.relevance_score].
    set (m := SessionService.count_matches ws (Str.lower (Supabase.t_processed_text row))) in *.
    assert (Hle : (m <= length ws)%nat).
    { subst m. unfold SessionService.count_matches. apply List.filter_length_le. }
    unfold QArith_base.Qlt, QArith_base.Qle. cbn [QArith_base.Qnum QArith_base.Qden].
    assert (Hp : Z.pos (Pos.of_nat (length ws)) = Z.of_nat (length ws)).
    { rewrite <- positive_nat_Z, Nat2Pos.id by lia. reflexivity. }
    rewrite Hp. split; lia.
  - intros row Hrow. rewrite <- count_matches_positive. split.
    + intros Hpos. eexists. split; [apply Hin; exists row; split; [exact Hrow|];
        apply scored_elem; split; [exact Hpos | reflexivity]|]. split; reflexivity.
    + intros (r & Hr & Hid & Htext). apply Hin in Hr as (row' & Hrow' & Hr).
      apply scored_elem in Hr as [Hpos ->]. cbn in Hid, Htext.
      unfold SessionService.count_matches in *. rewrite <- Htext. exact Hpos.
  - intros r Hr. apply Hin in Hr as (row & Hrow & Hr). apply scored_elem in Hr as [_ ->].
    exists row. repeat split. exact Hrow.
Qed.

End SearchFacts.

Lemma a_query_without_words_finds_nothing_witness :
  fst (SessionService.search_memories (Samples.datastore Samples.work Samples.notes)
         "abc" "   " Samples.fresh) = Ok [].
Proof.
  apply (a_query_without_words_finds_nothing (Samples.datastore Samples.work Samples.notes)
           "abc" "   "
           (map (fun m => Supabase.TextRow (Supabase.m_id m) (Supabase.m_processed_text m))
                Samples.notes)
           Samples.fresh).
  - reflexivity.
  - reflexivity.
Defined.

Lemma search_results_are_ranked_witness :
  exists l,
    fst (SessionService.search_memories (Samples.datastore Samples.work Samples.notes)
           "abc" "Cache expire" Samples.fresh) = Ok l
    /\ is_descending SessionService.relevance_score l
    /\ map SessionService.found_id l = ["m1"; "m3"].
Proof.
  destruct (search_results_are_ranked (Samples.datastore Samples.work Samples.notes)
              "abc" "Cache expire"
              (map (fun m => Supabase.TextRow (Supabase.m_id m) (Supabase.m_processed_text m))
                   Samples.notes)
              Samples.fresh eq_refl) as (l & H1 & H2 & _).
  exists l. split; [exact H1|]. split; [exact H2|].
  vm_compute in H1. injection H1 as <-. reflexivity.
Defined.

(* ===================================================================== *)
(** ** ClaudeService: descriptions and tags; the batch of embeddings     *)
(* ===================================================================== *)

Section ClaudeFacts.
Context {pyfloat : Type} `{!JsonCodec (list pyfloat)} `{!Sha256}.
Implicit Types (b : @Backend pyfloat).

Lemma truthy_list_take {A} n (l : list A) :
  truthy_list (take (S n) l) = truthy_list l.
Proof. destruct l; reflexivity. Qed.

(** [generate_session_description] depends on the first twenty memories
    only. *)
Lemma the_description_is_made_of_the_first_twenty_memories
    (claude : string -> result string) (memories : list string) b :
  ClaudeService.generate_session_description claude memories b
  = ClaudeService.generate_session_description claude (take 20 memories) b.
Proof.
  unfold ClaudeService.generate_session_description.
  rewrite take_take, Nat.min_id, (truthy_list_take 19 memories). reflexivity.
Qed.

Lemma remove_char_contains c s :
  Str.contains (String c EmptyString) (Str.remove_char c s) = false.
Proof.
  induction s as [|d s IH]; cbn; [reflexivity|].
  destruct (Redis.ascii_eqb d c) eqn:E; [exact IH|].
  cbn. rewrite IH.
  assert (Hs : Redis.ascii_eqb c d = false).
  { unfold Redis.ascii_eqb in *. apply bool_decide_eq_false. apply bool_decide_eq_false in E.
    congruence. }
  rewrite Hs. reflexivity.
Qed.

Lemma parse_tags_shape tags_text :
  (length (ClaudeService.parse_tags tags_text) <= 5)%nat
  /\ Forall (fun tag => 2 <= str_len tag /\ Str.contains "#" tag = false)
            (ClaudeService.parse_tags tags_text).
Proof.
  unfold ClaudeService.parse_tags. split.
  - rewrite length_take. lia.
  - apply Forall_take. apply Forall_forall. intros tag Hin.
    apply list_elem_of_In, List.filter_In in Hin as [Hin Hp].
    apply list_elem_of_In, list_elem_of_fmap in Hin as (raw & -> & _).
    apply andb_true_iff in Hp as [_ Hlen]. apply Z.ltb_lt in Hlen. split; [lia|]. apply remove_char_contains.
Qed.

(** X20. [generate_tags] sends the provider one request, built on the
    first 500 characters of the text.  From an answer it returns at most
    five tags, each of two characters or more and without ["#"]; when the
    provider raises an instance of [Exception] it returns the empty
    list. *)
Theorem generate_tags_gives_at_most_five_clean_tags
    (claude : string -> result string) (text : string) b :
  let out := ClaudeService.generate_tags claude text b in
  claude_inputs (requests (snd out)) = (claude_inputs (requests b) ++ [str_take 500 text])%list
  /\ match claude (str_take 500 text) with
     | Ok answer =>
         exists tags, fst out = Ok tags
           /\ (length tags <= 5)%nat
           /\ Forall (fun tag => 2 <= str_len tag /\ Str.contains "#" tag = false) tags
     | Raise e => is_Exception e = true -> fst out = Ok []
     end.
Proof.
  intros out. subst out.
  unfold ClaudeService.generate_tags, try_except, bind, messages_create. cbn [fst snd].
  assert (Hin : forall w, claude_inputs (requests b ++ [@ToClaude pyfloat w])
                          = (claude_inputs (requests b) ++ [w])%list).
  { intros w. unfold claude_inputs. rewrite omap_app. reflexivity. }
  destruct (claude (str_take 500 text)) as [answer|e].
  - cbn. split; [apply Hin|]. eexists. split; [reflexivity|]. apply parse_tags_shape.
  - destruct (is_Exception e) eqn:He.
    + cbn. split; [apply Hin|]. reflexivity.
    + cbn. split; [apply Hin|]. discriminate.
Qed.

End ClaudeFacts.

Section BatchFacts.
Context {pyfloat : Type} `{!JsonCodec (list pyfloat)} `{!Sha256}.
Implicit Types (w : @World pyfloat).

(** X21. [create_embeddings_batch] with more than 2048 texts raises
    [Exception("Failed to generate batch embeddings: Batch size cannot
    exceed 2048 texts")] and sends the provider nothing. *)
Theorem a_batch_of_more_than_2048_texts_is_refused
    (api_batch : list string -> result (list (list pyfloat))) (texts : list string) w :
  (2048 < length texts)%nat ->
  create_embeddings_batch api_batch texts w
  = (Raise (Exn Exception_
              "Failed to generate batch embeddings: Batch size cannot exceed 2048 texts"), w).
Proof.
  intros Hlen. unfold create_embeddings_batch, try_except, bind.
  destruct (Z.ltb_spec 2048 (Z.of_nat (length texts))) as [_|Hle]; [reflexivity | lia].
Qed.

(** X22. [create_embeddings_batch] with at most 2048 texts sends the
    provider, in their order, the first 30000 characters of each text (so no
    text sent is longer), leaves the cache alone, returns the provider's
    vectors, and wraps an instance of [Exception] the provider raises in
    [Exception("Failed to generate batch embeddings: ...")]. *)
Theorem a_batch_sends_the_first_30000_characters_of_each_text
    (api_batch : list string -> result (list (list pyfloat))) (texts : list string) w :
  (length texts <= 2048)%nat ->
  let out := create_embeddings_batch api_batch texts w in
  exists sent,
    api_calls (snd out) = (api_calls w ++ sent)%list
    /\ sent = map (str_take 30000) texts
    /\ Forall (fun text => str_len text <= 30000) sent
    /\ cache (snd out) = cache w
    /\ match api_batch sent with
       | Ok embeddings => fst out = Ok embeddings
       | Raise e =>
           is_Exception e = true ->
           fst out = Raise (Exn Exception_ ("Failed to generate batch embeddings: " +:+ msg e))
       end.
Proof.
  intros Hlen out. subst out. unfold create_embeddings_batch, try_except, bind.
  destruct (Z.ltb_spec 2048 (Z.of_nat (length texts))) as [Hgt|_]; [lia|].
  cbn [ret]. unfold embeddings_create_batch.
  assert (Hmap : map (fun text => if 30000 <? str_len text then str_take 30000 text else text)
                     texts = map (str_take 30000) texts).
  { apply map_ext. intros text. destruct (Z.ltb_spec 30000 (str_len text)) as [_|Hle];
      [reflexivity|]. symmetry. apply str_take_all. exact Hle. }
  rewrite Hmap. exists (map (str_take 30000) texts).
  assert (Hall : Forall (fun text => str_len text <= 30000) (map (str_take 30000) texts)).
  { apply Forall_fmap, Forall_forall. intros text _. cbn.
    pose proof (str_take_length 30000 text). lia. }
  destruct (api_batch (map (str_take 30000) texts)) as [embeddings|e].
  - cbn. repeat split. exact Hall.
  - destruct (is_Exception e) eqn:He; cbn; repeat split; try exact Hall.
    discriminate.
Qed.

End BatchFacts.

Lemma a_batch_of_more_than_2048_texts_is_refused_witness :
  create_embeddings_batch (pyfloat := Sample.num) (fun _ => Ok []) (replicate 2049 "a")
    (world Samples.fresh)
  = (Raise (Exn Exception_
              "Failed to generate batch embeddings: Batch size cannot exceed 2048 texts"),
     world Samples.fresh).
Proof.
  apply (a_batch_of_more_than_2048_texts_is_refused (fun _ => Ok []) (replicate 2049 "a")
           (world Samples.fresh)).
  rewrite length_replicate. lia.
Defined.

Lemma a_batch_sends_the_first_30000_characters_of_each_text_witness :
  exists sent,
    api_calls (snd (create_embeddings_batch (pyfloat := Sample.num)
                      (fun l => Ok (map (fun _ => []) l)) ["alpha"; "beta"]
                      (world Samples.fresh))) = sent
    /\ sent = ["alpha"; "beta"].
Proof.
  pose proof (a_batch_sends_the_first_30000_characters_of_each_text
                (pyfloat := Sample.num) (fun l => Ok (map (fun _ => []) l))
                ["alpha"; "beta"] (world Samples.fresh)) as Hw.
  cbv zeta in Hw. destruct Hw as (sent & H1 & H2 & _); [cbn; lia|].
  exists sent. split; [exact H1 | rewrite H2; reflexivity].
Defined.

(* ===================================================================== *)
(** ** The preview of a session                                          *)
(* ===================================================================== *)

Section PreviewFacts.
Context {pyfloat : Type} `{!JsonCodec (list pyfloat)} `{!Sha256}.
Implicit Types (b : @Backend pyfloat) (db : @Supabase.client pyfloat).

Lemma claude_inputs_datastore (l : list (@request pyfloat)) {A} (q : Supabase.query A) :
  claude_inputs (l ++ [ToDatastore q]) = claude_inputs l.
Proof. unfold claude_inputs. rewrite omap_app. cbn. apply app_nil_r. Qed.

Lemma claude_inputs_claude (l : list (@request pyfloat)) input :
  claude_inputs (l ++ [ToClaude input]) = (claude_inputs l ++ [input])%list.
Proof. unfold claude_inputs. rewrite omap_app. reflexivity. Qed.

(** X23. [get_session_preview] of a session whose row has a description
    that is not empty: the cache is left as it was, the summarization
    provider is sent nothing, and a preview that is returned shows the
    description of the row. *)
Theorem a_stored_description_is_shown_without_the_cache_or_the_provider
    db (claude : string -> result string) (session_id : string)
    (r : @Supabase.session_row) rest (d : string) b :
  db _ (Supabase.SelectSession session_id) = Ok (r :: rest) ->
  Supabase.s_description r = Some d ->
  truthy_str d = true ->
  let out := SessionRoutes.get_session_preview db claude session_id b in
  cache (world (snd out)) = cache (world b)
  /\ claude_inputs (requests (snd out)) = claude_inputs (requests b)
  /\ forall p, fst out = Ok p -> SessionRoutes.preview_description p = d.
Proof.
  intros Hdb Hd Ht out. subst out.
  unfold SessionRoutes.get_session_preview, http_500_unless_http.
  unfold SessionService.get_session, SessionService.get_session_memories,
    SessionService.failed, try_except, bind, execute.
  rewrite Hdb. cbn [ret fst snd world requests SessionService.description]. rewrite Hd. cbn [SessionRoutes.truthy_opt]. rewrite Ht.
  cbn [negb ret].
  destruct (db _ (Supabase.SelectMemories session_id 0 (0 + 3 - 1))) as [ms|e1];
    [destruct (db _ (Supabase.CountMemories session_id)) as [n|e2]|].
  - cbn -[claude_inputs]. unfold SessionRoutes.validated. cbn [SessionRoutes.recent_memories].
    match goal with |- context [Nat.ltb 3 ?n] => destruct (Nat.ltb 3 n) end;
      cbn -[claude_inputs]; rewrite !claude_inputs_datastore;
      (split; [reflexivity|]; split; [reflexivity|]); [discriminate|].
    intros p [= <-]. reflexivity.
  - destruct e2 as [[] m2]; cbn -[claude_inputs]; rewrite !claude_inputs_datastore;
      (split; [reflexivity|]; split; [reflexivity|]); intros p; discriminate.
  - destruct e1 as [[] m1]; cbn -[claude_inputs]; rewrite !claude_inputs_datastore;
      (split; [reflexivity|]; split; [reflexivity|]); intros p; discriminate.
Qed.

Lemma http_500_unless_http_Ok {S A} (detail : exn -> string) (m : M S A) s a :
  fst (http_500_unless_http detail m s) = Ok a -> fst (m s) = Ok a.
Proof.
  unfold http_500_unless_http. destruct (m s) as [[x|e] s']; [exact (fun E => E)|].
  destruct (is_HTTPException e); [discriminate|]. destruct (is_Exception e); discriminate.
Qed.

Lemma bind_Ok {S A B} (m : M S A) (k : A -> M S B) s y :
  fst (bind m k s) = Ok y -> exists a s', m s = (Ok a, s') /\ fst (k a s') = Ok y.
Proof.
  unfold bind. destruct (m s) as [[a|e] s']; [eauto | discriminate].
Qed.

Lemma shortened_length text : str_len (SessionRoutes.shortened text) <= 103.
Proof.
  unfold SessionRoutes.shortened, str_len. rewrite str_length_app.
  pose proof (str_take_length 100 text) as Ht. unfold str_len in Ht.
  destruct (100 <? Z.of_nat (String.length text)); cbn [String.length]; lia.
Qed.

(** X24. Every preview that [get_session_preview] returns lists at most
    three recent memories, each of at most 103 characters (100 of the text
    and the three dots). *)
Theorem a_preview_shows_at_most_three_shortened_memories
    db (claude : string -> result string) (session_id : string) b p :
  fst (SessionRoutes.get_session_preview db claude session_id b) = Ok p ->
  (length (SessionRoutes.recent_memories p) <= 3)%nat
  /\ Forall (fun text => str_len text <= 103) (SessionRoutes.recent_memories p).
Proof.
  unfold SessionRoutes.get_session_preview. intros Hp.
  apply http_500_unless_http_Ok, bind_Ok in Hp as ([session|] & b1 & _ & Hp);
    [|discriminate].
  apply bind_Ok in Hp as (page & b2 & _ & Hp).
  apply bind_Ok in Hp as (d0 & b3 & _ & Hp).
  apply bind_Ok in Hp as (d1 & b4 & _ & Hp).
  unfold SessionRoutes.validated in Hp. cbn [SessionRoutes.recent_memories] in Hp.
  destruct (Nat.ltb_spec 3 (length (map (fun mem => SessionRoutes.shortened
                                            (Supabase.m_processed_text mem))
                                        (SessionService.memories page)))) as [|Hle];
    [discriminate|].
  injection Hp as <-. cbn [SessionRoutes.recent_memories]. split; [exact Hle|].
  apply Forall_fmap, Forall_forall. intros mem _. apply shortened_length.
Qed.

Ltac no_request Hasked o :=
  exfalso; apply Hasked; subst o; cbn -[claude_inputs];
  unfold SessionRoutes.validated;
  try match goal with |- context [Nat.ltb 3 ?n] => destruct (Nat.ltb 3 n) end;
  cbn -[claude_inputs]; rewrite !claude_inputs_datastore; reflexivity.

(** X25. On a live cache: when a preview was returned after the
    summarization provider was asked, and its description is not empty, a
    second preview of the session less than 3600 seconds later returns the
    same response and sends the provider nothing. *)
Theorem a_generated_description_serves_the_next_previews
    db (claude : string -> result string) (session_id : string)
    (srv : Redis.server) (d0 : @Datastore pyfloat) (calls : list string)
    (lg : list (level * string)) (rq : list (@request pyfloat))
    (p : SessionRoutes.SessionPreviewResponse) (dt : Z) :
  let b := MkBackend (MkWorld (live srv) d0 calls lg) rq in
  let out := SessionRoutes.get_session_preview db claude session_id b in
  fst out = Ok p ->
  claude_inputs (requests (snd out)) <> claude_inputs (requests b) ->
  truthy_str (SessionRoutes.preview_description p) = true ->
  0 <= dt < 3600 ->
  let again := SessionRoutes.get_session_preview db claude session_id
                 (backend_elapse dt (snd out)) in
  fst again = Ok p
  /\ claude_inputs (requests (snd again)) = claude_inputs (requests (snd out)).
Proof.
  intros b out Hp Hasked Hd Hdt again. subst again.
  assert (Ho : out = SessionRoutes.get_session_preview db claude session_id b) by reflexivity.
  clearbody out. rename out into o.
  unfold SessionRoutes.get_session_preview, http_500_unless_http in Ho.
  unfold SessionService.get_session, SessionService.get_session_memories,
    SessionService.failed, try_except, bind, execute in Ho.
  subst b. cbn [world requests] in Ho.
  destruct (db _ (Supabase.SelectSession session_id)) as [[|r rest]|e] eqn:E1.
  { subst o. cbn in Hp. discriminate Hp. }
  2:{ subst o. destruct e as [[] m]; cbn in Hp; discriminate Hp. }
  cbn -[claude_inputs] in Ho.
  destruct (db _ (Supabase.SelectMemories session_id 0 (0 + 3 - 1))) as [ms|e] eqn:E2.
  2:{ subst o. destruct e as [[] m]; cbn in Hp; discriminate Hp. }
  destruct (db _ (Supabase.CountMemories session_id)) as [n|e] eqn:E3.
  2:{ subst o. destruct e as [[] m]; cbn in Hp; discriminate Hp. }
  cbn -[claude_inputs] in Ho.
  destruct (Supabase.s_description r) as [[|c d]|] eqn:Ed.
  2:{ no_request Hasked o. }
  all: cbn -[claude_inputs SessionCache.get_session_description
             SessionCache.set_session_description
             ClaudeService.generate_session_description] in Ho.
  all: unfold on_world, on_cache, zoom in Ho; cbn [world cache requests] in Ho.
  all: rewrite get_session_description_live in Ho.
  all: destruct (Redis.GET (SessionCache._session_description_key session_id) srv)
         as [[|vc v]|] eqn:EG.
  all: cbn -[claude_inputs SessionCache.set_session_description
             ClaudeService.generate_session_description] in Ho.
  2,5: no_request Hasked o.
  all: destruct ms as [|m0 ms']; [no_request Hasked o|].
  all: cbn -[claude_inputs SessionCache.set_session_description
             ClaudeService.generate_session_description] in Ho.
  all: destruct (db _ (Supabase.SelectMemories session_id 0 (0 + 20 - 1))) as [all|e] eqn:E4;
         [|subst o; destruct e as [[] m]; cbn in Hp; discriminate Hp].
  all: cbn -[claude_inputs SessionCache.set_session_description
             ClaudeService.generate_session_description] in Ho.
  all: destruct all as [|a0 all'].
  all: unfold ClaudeService.generate_session_description, messages_create, try_except in Ho.
  all: cbn -[claude_inputs SessionCache.set_session_description Str.join take] in Ho.
  all: try (rewrite set_session_description_live in Ho; cbn -[claude_inputs Str.join take] in Ho).
  1,3,5,7: no_request Hasked o.
  all: remember (Str.join (Str.nl +:+ Str.nl)
                   (take 20 (Supabase.m_processed_text a0
                             :: map Supabase.m_processed_text all'))) as input eqn:Hinput.
  all: destruct (claude input) as [d|e] eqn:Ec;
         [|subst o; destruct e as [[] m]; cbn in Hp; discriminate Hp].
  all: cbn -[claude_inputs SessionCache.set_session_description Str.join take] in Ho.
  all: rewrite set_session_description_live in Ho.
  all: cbn -[claude_inputs Str.join take] in Ho.
  all: unfold SessionRoutes.validated in Ho; cbn [SessionRoutes.recent_memories] in Ho.
  all: match type of Ho with context [Nat.ltb 3 ?n] => destruct (Nat.ltb 3 n) eqn:Elen end;
         [subst o; cbn in Hp; discriminate Hp|].
  all: cbn -[claude_inputs Str.join take] in Ho.
  all: subst o; cbn [fst snd] in Hp |- *; injection Hp as Hp.
  all: subst p; cbn [SessionRoutes.preview_description] in Hd.
  all: unfold backend_elapse, world_elapse; cbn [world cache requests api_calls log].
  all: rewrite elapse_live.
  all: unfold SessionRoutes.get_session_preview, http_500_unless_http,
         SessionService.get_session, SessionService.get_session_memories,
         SessionService.failed, try_except, bind, execute.
  all: cbn [world requests]; rewrite E1.
  all: cbn -[claude_inputs]; rewrite E2, E3.
  all: cbn -[claude_inputs]; rewrite Ed.
  all: cbn -[claude_inputs SessionCache.get_session_description].
  all: unfold on_world, on_cache, zoom; cbn [world cache requests].
  all: rewrite get_session_description_live, GET_after_SETEX_and_wait,
         bool_decide_eq_true_2 by lia.
  all: rewrite Hd; cbn -[claude_inputs]; rewrite Hd; cbn -[claude_inputs].
  all: unfold SessionRoutes.validated; cbn [SessionRoutes.recent_memories].
  all: rewrite Elen; cbn -[claude_inputs].
  all: split; [reflexivity|].
  all: rewrite !claude_inputs_datastore; reflexivity.
Qed.


End PreviewFacts.

Lemma a_stored_description_is_shown_without_the_cache_or_the_provider_witness :
  let described :=
    Supabase.SessionRow "abc" "u1" "Work" "W" (Some "Notes on the cache layer")
      "2025-01-01T10:00:00" None ["m1"; "m2"; "m3"] in
  let out := SessionRoutes.get_session_preview
               (Samples.datastore described Samples.notes)
               (fun _ => Raise (Exn APIError "overloaded")) "abc" Samples.fresh in
  cache (world (snd out)) = cache (world Samples.fresh)
  /\ claude_inputs (requests (snd out)) = claude_inputs (requests Samples.fresh)
  /\ forall p, fst out = Ok p
       -> SessionRoutes.preview_description p = "Notes on the cache layer".
Proof.
  intros described.
  apply (a_stored_description_is_shown_without_the_cache_or_the_provider
           (Samples.datastore described Samples.notes)
           (fun _ => Raise (Exn APIError "overloaded")) "abc"
           described [] "Notes on the cache layer" Samples.fresh); reflexivity.
Defined.

Lemma a_preview_shows_at_most_three_shortened_memories_witness :
  let p := SessionRoutes.MkPreview "Work" 3 "A session about the cache layer"
             ["Redis cache keys expire after one hour";
              "The task queue has two workers";
              "Cache invalidation runs after the insert"] in
  (length (SessionRoutes.recent_memories p) <= 3)%nat
  /\ Forall (fun text => str_len text <= 103) (SessionRoutes.recent_memories p).
Proof.
  intros p.
  apply (a_preview_shows_at_most_three_shortened_memories
           (Samples.datastore Samples.work Samples.notes)
           (fun _ => Ok "A session about the cache layer") "abc" Samples.fresh p).
  vm_compute. reflexivity.
Defined.

Lemma a_generated_description_serves_the_next_previews_witness :
  let claude := fun _ : string => Ok "A session about the cache layer" in
  let db := Samples.datastore Samples.work Samples.notes in
  let p := SessionRoutes.MkPreview "Work" 3 "A session about the cache layer"
             ["Redis cache keys expire after one hour";
              "The task queue has two workers";
              "Cache invalidation runs after the insert"] in
  let out := SessionRoutes.get_session_preview db claude "abc" Samples.fresh in
  let again := SessionRoutes.get_session_preview db claude "abc"
                 (backend_elapse 3599 (snd out)) in
  fst again = Ok p
  /\ claude_inputs (requests (snd again)) = claude_inputs (requests (snd out)).
Proof.
  intros claude db p.
  apply (a_generated_description_serves_the_next_previews db claude "abc"
           (Redis.Server ∅ 0) (MkDatastore [] []) [] [] [] p 3599).
  - vm_compute. reflexivity.
  - vm_compute. discriminate.
  - reflexivity.
  - lia.
Defined.

(* ===================================================================== *)
(** ** Paste and search: the fall-backs of the semantic search           *)
(* ===================================================================== *)

Lemma try_except_handles {S A} (m : M S A) (h : exn -> M S A) s e :
  fst (m s) = Raise e -> is_Exception e = true ->
  try_except m h s = h e (snd (m s)).
Proof.
  unfold try_except. destruct (m s) as [[a|e'] s']; cbn [fst snd]; [discriminate|].
  intros [= ->] ->. reflexivity.
Qed.

Section FallBackFacts.
Context {pyfloat : Type} `{!JsonCodec (list pyfloat)} `{!Sha256}.
Implicit Types (b : @Backend pyfloat) (db : @Supabase.client pyfloat)
  (api : string -> result (list pyfloat)).

(** The semantic search of the two routes raises an instance of
    [Exception] when the datastore refuses the vector request. *)
Lemma the_semantic_search_fails has_cache api db session_id query limit b :
  (forall t e, api t = Raise e -> is_Exception e = true) ->
  (forall v, exists e,
      db _ (Supabase.MatchSessionMemories v session_id (QArith_base.Qmake 3 10) limit)
      = Raise e /\ is_Exception e = true) ->
  exists e,
    fst ((let* query_embedding := on_world (create_embedding has_cache api query) in
          SessionService.vector_search_memories db session_id query_embedding
            (QArith_base.Qmake 3 10) limit) b) = Raise e
    /\ is_Exception e = true.
Proof.
  intros Hapi Hdb. unfold bind, on_world, zoom.
  pose proof (create_embedding_raises_exceptions_only has_cache api query Hapi (world b)) as He.
  destruct (create_embedding has_cache api query (world b)) as [[v|e] w1]; cbn [fst] in He.
  - destruct (Hdb v) as (e & Hq & Hex).
    unfold SessionService.vector_search_memories, try_except, bind, execute. rewrite Hq, Hex.
    unfold SessionService.failed, bind, on_world, zoom, logging, modify, raise. cbn.
    eexists. split; reflexivity.
  - exists e. split; [reflexivity | exact (He e eq_refl)].
Qed.

Lemma search_memories_any_state db session_id query b b' :
  fst (SessionService.search_memories db session_id query b)
  = fst (SessionService.search_memories db session_id query b').
Proof.
  unfold SessionService.search_memories, try_except, bind, execute.
  destruct (db _ (Supabase.SelectTexts session_id)) as [rows|e]; [reflexivity|].
  destruct (is_Exception e); reflexivity.
Qed.

Lemma search_memories_keeps_the_log db session_id query b entry :
  entry ∈ log (world b) ->
  entry ∈ log (world (snd (SessionService.search_memories db session_id query b))).
Proof.
  intros Hin. unfold SessionService.search_memories, try_except, bind, execute.
  destruct (db _ (Supabase.SelectTexts session_id)) as [rows|e]; [exact Hin|].
  destruct (is_Exception e); [|exact Hin].
  unfold SessionService.failed, bind, on_world, zoom, logging, modify, raise. cbn.
  apply elem_of_app. left. exact Hin.
Qed.

(** X26. [search_session] in mode ["vector"], when the datastore refuses
    the vector request and the embedding provider raises instances of
    [Exception] only: the answer is the answer of the mode ["text"], and
    the warning ["Vector search failed, falling back to text search: ..."]
    is logged. *)
Theorem a_failed_vector_search_falls_back_to_the_text_search
    has_cache api db (session_id query : string) (limit : Z) b :
  (forall t e, api t = Raise e -> is_Exception e = true) ->
  (forall v, exists e,
      db _ (Supabase.MatchSessionMemories v session_id (QArith_base.Qmake 3 10) limit)
      = Raise e /\ is_Exception e = true) ->
  let out := MemoryRoutes.search_session db has_cache api session_id query "vector" limit b in
  fst out = fst (MemoryRoutes.search_session db has_cache api session_id query "text" limit b)
  /\ exists message,
       (WARNING, "Vector search failed, falling back to text search: " +:+ message)
       ∈ log (world (snd out)).
Proof.
  intros Hapi Hdb out. subst out.
  destruct (the_semantic_search_fails has_cache api db session_id query limit b Hapi Hdb)
    as (e & Hfail & He).
  destruct (MemoryRoutes.search_session db has_cache api session_id query "vector" limit b)
    as [r bout] eqn:Hout.
  unfold MemoryRoutes.search_session in Hout |- *.
  rewrite bool_decide_eq_true_2 in Hout by reflexivity.
  rewrite bool_decide_eq_false_2 by discriminate.
  set (vector_part := (let* query_embedding := on_world (create_embedding has_cache api query) in
                       SessionService.vector_search_memories db session_id query_embedding
                         (QArith_base.Qmake 3 10) limit)) in *.
  unfold try_except at 1 in Hout. unfold bind at 1 in Hout.
  rewrite (try_except_handles vector_part _ b e Hfail He) in Hout.
  set (b1 := snd (vector_part b)) in *.
  unfold bind at 1 in Hout. unfold on_world at 1, zoom, logging, modify in Hout.
  cbn [fst snd] in Hout.
  match type of Hout with
  | context [SessionService.search_memories db session_id query ?s] => set (b2 := s) in *
  end.
  assert (Hlog : (WARNING, "Vector search failed, falling back to text search: " +:+ msg e)
                 ∈ log (world (snd (SessionService.search_memories db session_id query b2)))).
  { apply search_memories_keeps_the_log. subst b2. cbn. apply elem_of_app. right.
    apply list_elem_of_here. }
  pose proof (search_memories_any_state db session_id query b2 b) as Hsame.
  unfold try_except, bind.
  destruct (SessionService.search_memories db session_id query b2) as [[l|e2] b3];
    destruct (SessionService.search_memories db session_id query b) as [[l'|e2'] b3'];
    cbn [fst snd] in *; try discriminate.
  - injection Hsame as <-. cbn [ret] in Hout. injection Hout as <- <-.
    split; [reflexivity|]. exists (msg e). exact Hlog.
  - injection Hsame as <-. destruct (is_Exception e2); cbn [raise] in Hout;
      injection Hout as <- <-; (split; [reflexivity|]); exists (msg e); exact Hlog.
Qed.


Lemma the_semantic_search_of_a_paste_fails has_cache api db session_id query limit b :
  (forall t e, api t = Raise e -> is_Exception e = true) ->
  (forall v, exists e,
      db _ (Supabase.MatchSessionMemories v session_id (QArith_base.Qmake 3 10) limit)
      = Raise e /\ is_Exception e = true) ->
  exists e,
    fst ((let* query_embedding := on_world (create_embedding has_cache api query) in
          let* results :=
            SessionService.vector_search_memories db session_id query_embedding
              (QArith_base.Qmake 3 10) limit in
          ret (map SessionService.found_processed_text results)) b) = Raise e
    /\ is_Exception e = true.
Proof.
  intros Hapi Hdb. unfold bind, on_world, zoom.
  pose proof (create_embedding_raises_exceptions_only has_cache api query Hapi (world b)) as He.
  destruct (create_embedding has_cache api query (world b)) as [[v|e] w1]; cbn [fst] in He.
  - destruct (Hdb v) as (e & Hq & Hex).
    unfold SessionService.vector_search_memories, try_except, bind, execute. rewrite Hq, Hex.
    unfold SessionService.failed, bind, on_world, zoom, logging, modify, raise. cbn.
    eexists. split; reflexivity.
  - exists e. split; [reflexivity | exact (He e eq_refl)].
Qed.

Lemma get_session_memories_any_state db session_id limit offset b b' :
  fst (SessionService.get_session_memories db session_id limit offset b)
  = fst (SessionService.get_session_memories db session_id limit offset b').
Proof.
  unfold SessionService.get_session_memories, try_except, bind, execute.
  destruct (db _ (Supabase.SelectMemories _ _ _)) as [rows|e].
  - destruct (db _ (Supabase.CountMemories _)) as [n|e]; [reflexivity|].
    destruct (is_Exception e); reflexivity.
  - destruct (is_Exception e); reflexivity.
Qed.

(** X27. [smart_paste] and [get_session_preview] of a session the
    datastore does not have raise the status 404 with the detail ["Session
    not found"] (not 500), after that one request to the datastore and
    with the cache, the log and the providers untouched. *)
Theorem a_missing_session_answers_404
    has_cache api db (claude : string -> result string) (session_id : string)
    (query : option string) (limit : Z) b :
  db _ (Supabase.SelectSession session_id) = Ok [] ->
  let asked := MkBackend (world b)
                 (requests b ++ [ToDatastore (Supabase.SelectSession session_id)]) in
  MemoryRoutes.smart_paste db has_cache api session_id query limit b
  = (Raise (Exn (HTTPException 404) "Session not found"), asked)
  /\ SessionRoutes.get_session_preview db claude session_id b
     = (Raise (Exn (HTTPException 404) "Session not found"), asked).
Proof.
  intros Hdb asked. subst asked.
  unfold MemoryRoutes.smart_paste, SessionRoutes.get_session_preview, http_500_unless_http,
    SessionService.get_session, try_except, bind, execute.
  rewrite Hdb. split; reflexivity.
Qed.

(** X28. [smart_paste] with a query, when the semantic search fails with
    an instance of [Exception]: the response is built from the rows
    [get_session_memories(session_id, limit)] lists, which the datastore
    selects in ascending order of [created_at] in the range from 0 to
    [limit - 1] (the oldest memories when the session holds more than
    [limit]), under the header of a filtered paste; its count is their
    number, the two requests of the listing are the last ones sent to the
    datastore, and the warning ["Semantic search failed in smart paste:
    ..."] is logged. *)
Theorem a_paste_falls_back_to_the_first_memories_of_the_session
    has_cache api db (session_id q : string) (limit : Z)
    (r : @Supabase.session_row) rest (ms : list (@Supabase.memory_view)) n b :
  (forall t e, api t = Raise e -> is_Exception e = true) ->
  (forall v, exists e,
      db _ (Supabase.MatchSessionMemories v session_id (QArith_base.Qmake 3 10) limit)
      = Raise e /\ is_Exception e = true) ->
  db _ (Supabase.SelectSession session_id) = Ok (r :: rest) ->
  db _ (Supabase.SelectMemories session_id 0 (0 + limit - 1)) = Ok ms ->
  db _ (Supabase.CountMemories session_id) = Ok n ->
  truthy_str q = true ->
  let out := MemoryRoutes.smart_paste db has_cache api session_id (Some q) limit b in
  let texts := map Supabase.m_processed_text ms in
  fst out = Ok (MemoryRoutes.MkPaste
                  (MemoryRoutes.format_paste (Supabase.s_name r) (Supabase.s_icon r)
                     (Some q) texts)
                  (Z.of_nat (length texts)) (Supabase.s_name r))
  /\ (exists before,
        requests (snd out)
        = (before ++ [ToDatastore (Supabase.SelectMemories session_id 0 (0 + limit - 1));
                      ToDatastore (Supabase.CountMemories session_id)])%list)
  /\ exists message,
       (WARNING, "Semantic search failed in smart paste: " +:+ message)
       ∈ log (world (snd out)).
Proof.
  intros Hapi Hdb Hs Hm Hc Hq out texts. subst out texts.
  destruct (MemoryRoutes.smart_paste db has_cache api session_id (Some q) limit b)
    as [res bout] eqn:Hout.
  unfold MemoryRoutes.smart_paste, http_500_unless_http in Hout.
  unfold bind at 1 in Hout.
  unfold SessionService.get_session, try_except at 1, bind at 1, execute at 1 in Hout.
  rewrite Hs in Hout. cbn [ret SessionRoutes.truthy_opt default] in Hout. rewrite Hq in Hout.
  match type of Hout with
  | context [try_except ?m ?h] => 
      destruct (the_semantic_search_of_a_paste_fails has_cache api db session_id q limit
                  (MkBackend (world b)
                     (requests b ++ [ToDatastore (Supabase.SelectSession session_id)]))
                  Hapi Hdb) as (e & Hfail & He);
      unfold bind at 1 in Hout;
      rewrite (try_except_handles m h _ e Hfail He) in Hout
  end.
  match type of Hout with
  | context [snd (?m ?s)] => set (b1 := snd (m s)) in *
  end.
  unfold MemoryRoutes.first_memories, SessionService.get_session_memories, try_except, bind,
    execute, on_world, zoom, logging, modify in Hout.
  cbn [fst snd world requests] in Hout. rewrite Hm, Hc in Hout.
  cbn [fst snd ret world requests log SessionService.memories SessionService.name
       SessionService.icon] in Hout.
  injection Hout as <- <-. split; [rewrite length_map; reflexivity|]. split.
  - cbn [snd requests]. eexists. rewrite <- app_assoc. reflexivity.
  - exists (msg e). cbn [snd world log]. apply elem_of_app. right. apply list_elem_of_here.
Qed.

End FallBackFacts.

Lemma a_failed_vector_search_falls_back_to_the_text_search_witness :
  let db := Samples.datastore Samples.work Samples.notes in
  let api := fun _ : string => Ok [Sample.N1; Sample.N0] in
  let out := MemoryRoutes.search_session db true api "abc" "cache" "vector" 10 Samples.fresh in
  fst out = fst (MemoryRoutes.search_session db true api "abc" "cache" "text" 10 Samples.fresh)
  /\ exists message,
       (WARNING, "Vector search failed, falling back to text search: " +:+ message)
       ∈ log (world (snd out)).
Proof.
  intros db api.
  apply (a_failed_vector_search_falls_back_to_the_text_search true api db "abc" "cache" 10
           Samples.fresh).
  - intros t e. discriminate.
  - intros v. eexists. split; reflexivity.
Defined.

Lemma a_missing_session_answers_404_witness :
  let db := Samples.datastore Samples.work Samples.notes in
  let asked := MkBackend (world Samples.fresh)
                 [ToDatastore (Supabase.SelectSession "no-such-session")] in
  MemoryRoutes.smart_paste db true (fun _ => Ok [Sample.N1]) "no-such-session" None 10
    Samples.fresh
  = (Raise (Exn (HTTPException 404) "Session not found"), asked)
  /\ SessionRoutes.get_session_preview db (fun _ => Ok "A description") "no-such-session"
       Samples.fresh
     = (Raise (Exn (HTTPException 404) "Session not found"), asked).
Proof.
  intros db.
  apply (a_missing_session_answers_404 true (fun _ => Ok [Sample.N1]) db
           (fun _ => Ok "A description") "no-such-session" None 10 Samples.fresh).
  reflexivity.
Defined.

(** Three memories and a limit of two: the two oldest are pasted, the
    latest is left out. *)
Lemma a_paste_falls_back_to_the_first_memories_of_the_session_witness :
  let db := Samples.datastore Samples.work Samples.notes in
  let out := MemoryRoutes.smart_paste db true (fun _ => Raise (Exn APIError "overloaded"))
               "abc" (Some "cache") 2 Samples.fresh in
  let texts := ["Redis cache keys expire after one hour"; "The task queue has two workers"] in
  fst out = Ok (MemoryRoutes.MkPaste
                  (MemoryRoutes.format_paste "Work" "W" (Some "cache") texts) 2 "Work")
  /\ (exists before,
        requests (snd out)
        = (before ++ [ToDatastore (Supabase.SelectMemories "abc" 0 (0 + 2 - 1));
                      ToDatastore (Supabase.CountMemories "abc")])%list)
  /\ exists message,
       (WARNING, "Semantic search failed in smart paste: " +:+ message)
       ∈ log (world (snd out)).
Proof.
  intros db.
  apply (a_paste_falls_back_to_the_first_memories_of_the_session true
           (fun _ => Raise (Exn APIError "overloaded")) db "abc" "cache" 2
           Samples.work [] (take 2 Samples.notes) (Some 3) Samples.fresh).
  - intros t e [= <-]. reflexivity.
  - intros v. eexists. split; reflexivity.
  - reflexivity.
  - reflexivity.
  - reflexivity.
  - reflexivity.
Defined.

(* ===================================================================== *)
(** ** The migration script                                              *)
(* ===================================================================== *)

Section MigrationFacts.
Context {pyfloat : Type} `{!JsonCodec (list pyfloat)} `{!Sha256}.
Implicit Types (b : @Backend pyfloat) (db : @Supabase.client pyfloat)
  (embedding_service : option (string -> M (@World pyfloat) (list pyfloat))).

Lemma concat_batches {A} (fuel : nat) (l : list A) :
  (length l <= fuel)%nat -> concat (Migration.batches fuel 100 l) = l.
Proof.
  revert l. induction fuel as [|fuel IH]; intros l Hl.
  - destruct l; [reflexivity | cbn in Hl; lia].
  - destruct l as [|x l]; [reflexivity|].
    cbn [Migration.batches concat]. rewrite IH.
    + apply take_drop.
    + rewrite length_drop. cbn [length] in *. lia.
Qed.

Lemma snd_imap_pair {A} (g : nat -> nat) (l : list A) :
  map snd (imap (fun i x => (g i, x)) l) = l.
Proof.
  revert g. induction l as [|x l IH]; intros g; [reflexivity|].
  cbn. f_equal. exact (IH (g ∘ S)).
Qed.

(** One memory moves one of the two counters by one. *)
Lemma migrate_one_counts db embedding_service total s e memory b :
  match embedding_service with
  | Some create_embedding => forall text, raises_exceptions_only (create_embedding text)
  | None => True
  end ->
  (forall memory_id v err,
      db _ (Supabase.UpdateEmbedding memory_id v) = Raise err -> is_Exception err = true) ->
  exists s' e' b',
    Migration.migrate_one db embedding_service total (s, e) memory b = (Ok (s', e'), b')
    /\ s <= s' /\ e <= e' /\ s' + e' = s + e + 1.
Proof.
  intros Hsvc Hdb. unfold Migration.migrate_one, try_except, bind.
  destruct embedding_service as [create_embedding|].
  - unfold on_world at 1, zoom.
    pose proof (Hsvc (Supabase.t_processed_text memory) (world b)) as Hraise.
    destruct (create_embedding (Supabase.t_processed_text memory) (world b)) as [[v|err] w1];
      cbn [fst] in Hraise.
    + unfold execute.
      destruct (db _ (Supabase.UpdateEmbedding (Supabase.t_id memory) v)) as [[]|err] eqn:Eu.
      * destruct ((s + 1) mod 10 =? 0); cbn; eexists _, _, _;
          (split; [reflexivity|]); lia.
      * rewrite (Hdb _ _ _ Eu). cbn. eexists _, _, _. split; [reflexivity|]. lia.
    + rewrite (Hraise err eq_refl). cbn. eexists _, _, _. split; [reflexivity|]. lia.
  - cbn. eexists _, _, _. split; [reflexivity|]. lia.
Qed.

Lemma migrate_batch_counts db embedding_service total (batch : list (@Supabase.text_row))
    s e b :
  match embedding_service with
  | Some create_embedding => forall text, raises_exceptions_only (create_embedding text)
  | None => True
  end ->
  (forall memory_id v err,
      db _ (Supabase.UpdateEmbedding memory_id v) = Raise err -> is_Exception err = true) ->
  exists s' e' b',
    for_each batch (s, e) (Migration.migrate_one db embedding_service total) b
    = (Ok (s', e'), b')
    /\ s <= s' /\ e <= e' /\ s' + e' = s + e + Z.of_nat (length batch).
Proof.
  intros Hsvc Hdb. revert s e b. induction batch as [|memory batch IH]; intros s e b.
  - cbn. eexists _, _, _. split; [reflexivity|]. lia.
  - cbn [for_each]. unfold bind.
    destruct (migrate_one_counts db embedding_service total s e memory b Hsvc Hdb)
      as (s1 & e1 & b1 & -> & Hs & He & Hsum).
    destruct (IH s1 e1 b1) as (s2 & e2 & b2 & -> & Hs2 & He2 & Hsum2).
    eexists _, _, _. split; [reflexivity|]. cbn [length]. lia.
Qed.

Lemma migrate_batches_counts db embedding_service total
    (numbered : list (nat * list (@Supabase.text_row))) s e b :
  match embedding_service with
  | Some create_embedding => forall text, raises_exceptions_only (create_embedding text)
  | None => True
  end ->
  (forall memory_id v err,
      db _ (Supabase.UpdateEmbedding memory_id v) = Raise err -> is_Exception err = true) ->
  exists s' e' b',
    for_each numbered (s, e) (Migration.migrate_batch db embedding_service total) b
    = (Ok (s', e'), b')
    /\ s <= s' /\ e <= e'
    /\ s' + e' = s + e + Z.of_nat (length (concat (map snd numbered))).
Proof.
  intros Hsvc Hdb. revert s e b.
  induction numbered as [|[index batch] numbered IH]; intros s e b.
  - cbn. eexists _, _, _. split; [reflexivity|]. lia.
  - cbn [for_each]. unfold bind at 1. unfold Migration.migrate_batch at 1.
    unfold bind at 1, Migration.logger_info, on_world at 1, zoom, logging, modify.
    cbn [fst snd].
    match goal with
    | |- context [for_each batch (s, e) _ ?b0] =>
        destruct (migrate_batch_counts db embedding_service total batch s e b0 Hsvc Hdb)
          as (s1 & e1 & b1 & -> & Hs & He & Hsum)
    end.
    destruct (IH s1 e1 b1) as (s2 & e2 & b2 & -> & Hs2 & He2 & Hsum2).
    eexists _, _, _. split; [reflexivity|]. cbn [map snd concat]. rewrite length_app. lia.
Qed.

(** X29. [migrate_embeddings], when the datastore answers the selection
    and the embedding service and the updates raise instances of
    [Exception] only: the script ends normally and its two counters add up
    to the number of memories selected. *)
Theorem the_migration_counts_every_memory_once
    db embedding_service (rows : list (@Supabase.text_row)) b :
  db _ Supabase.SelectWithoutEmbedding = Ok rows ->
  match embedding_service with
  | Some create_embedding => forall text, raises_exceptions_only (create_embedding text)
  | None => True
  end ->
  (forall memory_id v err,
      db _ (Supabase.UpdateEmbedding memory_id v) = Raise err -> is_Exception err = true) ->
  exists success_count error_count,
    fst (Migration.migrate_embeddings db embedding_service b)
    = Ok (success_count, error_count)
    /\ 0 <= success_count /\ 0 <= error_count
    /\ success_count + error_count = Z.of_nat (length rows).
Proof.
  intros Hrows Hsvc Hdb. unfold Migration.migrate_embeddings.
  unfold bind at 1. unfold Migration.logger_info at 1, on_world at 1, zoom, logging, modify.
  cbn [fst snd]. unfold bind at 1, execute at 1. rewrite Hrows.
  destruct rows as [|row rows'] eqn:Er.
  - cbn. exists 0, 0. repeat split; lia.
  - rewrite <- Er in *. replace (length rows =? 0)%nat with false
      by (subst rows; reflexivity).
    unfold bind at 1. unfold Migration.logger_info at 1, on_world at 1, zoom, logging, modify.
    cbn [fst snd]. unfold bind at 1.
    match goal with
    | |- context [for_each ?nb (0, 0) _ ?b0] =>
        destruct (migrate_batches_counts db embedding_service (length rows) nb 0 0 b0
                    Hsvc Hdb) as (s1 & e1 & b1 & -> & Hs & He & Hsum)
    end.
    rewrite snd_imap_pair, concat_batches in Hsum by lia.
    cbn. exists s1, e1. repeat split; lia.
Qed.

Lemma migrate_batch_without_a_service db total (batch : list (@Supabase.text_row)) s e b :
  exists b',
    for_each batch (s, e) (Migration.migrate_one db Migration.embedding_service_at_import total) b
    = (Ok (s, e + Z.of_nat (length batch)), b')
    /\ requests b' = requests b
    /\ api_calls (world b') = api_calls (world b).
Proof.
  revert e b. induction batch as [|memory batch IH]; intros e b.
  - cbn. eexists. rewrite Z.add_0_r. repeat split.
  - cbn [for_each]. unfold bind at 1.
    unfold Migration.migrate_one at 1, Migration.embedding_service_at_import, try_except,
      bind, raise, an_Exception, on_world, zoom, logging, modify.
    cbn [is_Exception cls fst snd ret].
    match goal with
    | |- context [for_each batch (s, e + 1) _ ?b0] =>
        destruct (IH (e + 1) b0) as (b1 & Hrun & Hreq & Hcalls)
    end.
    unfold Migration.embedding_service_at_import in Hrun. rewrite Hrun.
    eexists. split; [f_equal; f_equal; f_equal; cbn [length]; lia|].
    split; [exact Hreq | exact Hcalls].
Qed.

Lemma migrate_batches_without_a_service db total
    (numbered : list (nat * list (@Supabase.text_row))) s e b :
  exists b',
    for_each numbered (s, e)
      (Migration.migrate_batch db Migration.embedding_service_at_import total) b
    = (Ok (s, e + Z.of_nat (length (concat (map snd numbered)))), b')
    /\ requests b' = requests b
    /\ api_calls (world b') = api_calls (world b).
Proof.
  revert e b. induction numbered as [|[index batch] numbered IH]; intros e b.
  - cbn. eexists. rewrite Z.add_0_r. repeat split.
  - cbn [for_each]. unfold bind at 1. unfold Migration.migrate_batch at 1.
    unfold bind at 1, Migration.logger_info, on_world at 1, zoom, logging, modify.
    cbn [fst snd].
    match goal with
    | |- context [for_each batch (s, e) _ ?b0] =>
        destruct (migrate_batch_without_a_service db total batch s e b0)
          as (b1 & -> & Hreq & Hcalls)
    end.
    destruct (IH (e + Z.of_nat (length batch)) b1) as (b2 & -> & Hreq2 & Hcalls2).
    eexists. split; [f_equal; f_equal; f_equal; cbn [map snd concat]; rewrite length_app; lia|].
    split; [rewrite Hreq2, Hreq | rewrite Hcalls2, Hcalls]; reflexivity.
Qed.

(** X30. With the value of [embedding_service] that the script imports
    ([None], as [embeddings.py] leaves it), [migrate_embeddings] counts
    every selected memory as failed: the counters end as [(0, total)], the
    selection is the only request the datastore receives, and the embedding
    provider is never called. *)
Theorem the_service_of_the_import_migrates_nothing
    db (rows : list (@Supabase.text_row)) b :
  db _ Supabase.SelectWithoutEmbedding = Ok rows ->
  let out := Migration.migrate_embeddings db Migration.embedding_service_at_import b in
  fst out = Ok (0, Z.of_nat (length rows))
  /\ requests (snd out) = (requests b ++ [ToDatastore Supabase.SelectWithoutEmbedding])%list
  /\ api_calls (world (snd out)) = api_calls (world b).
Proof.
  intros Hrows out. subst out.
  destruct (Migration.migrate_embeddings db Migration.embedding_service_at_import b)
    as [res bout] eqn:Hout.
  unfold Migration.migrate_embeddings in Hout.
  unfold bind at 1 in Hout.
  unfold Migration.logger_info at 1, on_world at 1, zoom, logging, modify in Hout.
  cbn [fst snd] in Hout. unfold bind at 1, execute at 1 in Hout. rewrite Hrows in Hout.
  destruct rows as [|row rows'] eqn:Er.
  - cbn in Hout. injection Hout as <- <-. repeat split.
  - rewrite <- Er in *. replace (length rows =? 0)%nat with false in Hout
      by (subst rows; reflexivity).
    unfold bind at 1 in Hout.
    unfold Migration.logger_info at 1, on_world at 1, zoom, logging, modify in Hout.
    cbn [fst snd] in Hout. unfold bind at 1 in Hout.
    match type of Hout with
    | context [for_each ?nb (0, 0) _ ?b0] =>
        destruct (migrate_batches_without_a_service db (length rows) nb 0 0 b0)
          as (b1 & Hrun & Hreq & Hcalls)
    end.
    rewrite Hrun in Hout.
    rewrite snd_imap_pair, concat_batches in Hout by lia.
    cbn -[pretty] in Hout. injection Hout as <- <-.
    cbn [fst snd requests world api_calls]. rewrite Hreq, Hcalls. repeat split.
Qed.

End MigrationFacts.

Lemma the_migration_counts_every_memory_once_witness :
  let db := Samples.datastore Samples.work Samples.notes in
  let service := create_embedding true (fun _ => Ok [Sample.N1; Sample.N0]) in
  exists success_count error_count,
    fst (Migration.migrate_embeddings db (Some service) Samples.fresh)
    = Ok (success_count, error_count)
    /\ 0 <= success_count /\ 0 <= error_count
    /\ success_count + error_count = 3.
Proof.
  intros db service.
  apply (the_migration_counts_every_memory_once db (Some service)
           (map (fun m => Supabase.TextRow (Supabase.m_id m) (Supabase.m_processed_text m))
                Samples.notes)
           Samples.fresh).
  - reflexivity.
  - intros text. apply create_embedding_raises_exceptions_only. intros t e. discriminate.
  - intros memory_id v err. discriminate.
Defined.

Lemma the_service_of_the_import_migrates_nothing_witness :
  let db := Samples.datastore Samples.work Samples.notes in
  let out := Migration.migrate_embeddings db Migration.embedding_service_at_import
               Samples.fresh in
  fst out = Ok (0, 3)
  /\ requests (snd out) = [ToDatastore Supabase.SelectWithoutEmbedding]
  /\ api_calls (world (snd out)) = [].
Proof.
  intros db.
  apply (the_service_of_the_import_migrates_nothing db
           (map (fun m => Supabase.TextRow (Supabase.m_id m) (Supabase.m_processed_text m))
                Samples.notes)
           Samples.fresh).
  reflexivity.
Defined.
